(** * synthpop: the MATSim population generator of [src/input/synthpop.py]

    A shallow embedding of [create_population], [format_xml] and [main],
    with the parts of Python they rest on (binary64 floats, [datetime],
    [timedelta], [random.randint], [xml.etree.ElementTree],
    [minidom.toprettyxml], the standard input and the files of the working
    directory), followed by the properties of the generated population, of
    the document and of the command line.

    Conventions.
    - A Python [int] is a [Z]; [range n] is the list [0, 1, ..., n-1].
    - A Python [float] is a binary64 number ([spec_float] at precision 53
      and maximal exponent 1024), operated on by the IEEE operations of
      [SpecFloat].
    - A raised exception is the [Raise] case of [result]; the three kinds
      that the arithmetic of the generator can raise are kept apart.
    - The ambient random generator is a state threaded through the loops;
      the two readings of the clock ([datetime.now()] at lines 12 and 13)
      are parameters.
    - A date is its proleptic ordinal, on an unbounded calendar: the year
      range 1..9999 of [datetime] is not represented.  The range of
      [timedelta] is.
    - An element is attached to its parent once it is complete; the source
      attaches it on creation and fills it afterwards, which builds the
      same tree.  Attributes are kept and written in insertion order, as
      Python 3.8 and later do.
    - The progress lines printed on the console are not represented.
    - [main] runs in a world of input lines, files and generator state.
      [int] on a line of input, the text of the time stamp and what becomes
      of the writing of a file (written, refused on opening, or broken off
      after opening) are parameters; the prompts and messages that [main]
      prints are not represented, the handler that prints the message is.
    - The document is written as [minidom] writes it for plain trees
      ([plain_tree]), among them every population; what the XML parser
      refuses or changes lies outside them. *)

From Stdlib Require Import ZArith List String Ascii Bool Lia.
From Stdlib Require Import DecimalString.
From Stdlib Require DecimalPos DecimalZ.
From Stdlib Require Import Floats.SpecFloat.
Import ListNotations.

Local Open Scope string_scope.
Local Open Scope Z_scope.

(* ===================================================================== *)
(** ** Exceptions and the state-and-error monad *)
(* ===================================================================== *)

Inductive exn : Type :=
| ValueError
| OverflowError
| ZeroDivisionError.

Inductive result (A : Type) : Type :=
| Ok (a : A)
| Raise (e : exn).

Arguments Ok {A} a.
Arguments Raise {A} e.

Definition result_bind {A B : Type} (r : result A) (k : A -> result B)
  : result B :=
  match r with
  | Ok a => k a
  | Raise e => Raise e
  end.

(** A computation that reads and advances a state of type [G] (here: the
    random generator) and may raise. *)
Definition M (G A : Type) : Type := G -> result (A * G).

Definition ret {G A : Type} (a : A) : M G A := fun g => Ok (a, g).

Definition bind {G A B : Type} (c : M G A) (k : A -> M G B) : M G B :=
  fun g =>
    match c g with
    | Ok (a, g') => k a g'
    | Raise e => Raise e
    end.

Definition lift {G A : Type} (r : result A) : M G A :=
  fun g =>
    match r with
    | Ok a => Ok (a, g)
    | Raise e => Raise e
    end.

Declare Scope py_scope.
Delimit Scope py_scope with py.
Notation "x <- c ;; k" := (bind c (fun x => k))
  (at level 61, c at next level, right associativity) : py_scope.
Notation "x <~ r ;; k" := (result_bind r (fun x => k))
  (at level 61, r at next level, right associativity) : py_scope.

(** [for x in xs: acc = body x acc], with the state threaded through. *)
Fixpoint for_each {G A B : Type} (xs : list A) (body : A -> B -> M G B)
  (acc : B) : M G B :=
  match xs with
  | [] => ret acc
  | x :: xs' => bind (body x acc) (for_each xs' body)
  end.

(** [range(n)] *)
Definition range (n : Z) : list Z := map Z.of_nat (seq 0 (Z.to_nat n)).

(* ===================================================================== *)
(** ** Binary64 floats *)
(* ===================================================================== *)

Module Float.

Definition prec : Z := 53.
Definition emax : Z := 1024.

Definition float : Type := spec_float.

(** The float nearest to an integer (ties to even), as in [float(n)] and in
    the implicit conversion of an [int] operand: raises when the integer
    rounds beyond the largest float. *)
Definition of_int (n : Z) : result float :=
  match binary_normalize prec emax n 0 false with
  | S754_infinity _ => Raise OverflowError
  | f => Ok f
  end.

Definition is_zero (x : float) : bool :=
  match x with
  | S754_zero _ => true
  | _ => false
  end.

Definition mul (x y : float) : float := SFmul prec emax x y.

(** [x / y] on floats *)
Definition truediv (x y : float) : result float :=
  if is_zero y then Raise ZeroDivisionError else Ok (SFdiv prec emax x y).

(** [a / b] on ints: the correctly rounded quotient *)
Definition raw (n : Z) : float :=
  match n with
  | Z0 => S754_zero false
  | Zpos p => S754_finite false p 0
  | Zneg p => S754_finite true p 0
  end.

Definition int_truediv (a b : Z) : result float :=
  if b =? 0 then Raise ZeroDivisionError
  else
    match SFdiv prec emax (raw a) (raw b) with
    | S754_infinity _ => Raise OverflowError
    | f => Ok f
    end.

(** [int(x)]: truncation towards zero *)
Definition to_int (x : float) : result Z :=
  match x with
  | S754_nan => Raise ValueError
  | S754_infinity _ => Raise OverflowError
  | S754_zero _ => Ok 0
  | S754_finite s m e => Ok (cond_Zopp s (Z.shiftl (Zpos m) e))
  end.

(** The fractional part of [math.modf(x)] for a finite [x]; it carries the
    sign of [x] and is exact. *)
Definition frac (x : float) : float :=
  match x with
  | S754_finite s m e =>
      if 0 <=? e then S754_zero s
      else binary_normalize prec emax
             (cond_Zopp s (Z.land (Zpos m) (Z.ones (- e)))) e s
  | S754_zero s => S754_zero s
  | S754_infinity s => S754_zero s
  | S754_nan => S754_nan
  end.

(** [round(x)] for a float [x]: the nearest integer, ties to even *)
Definition round_half_even (x : float) : result Z :=
  match x with
  | S754_nan => Raise ValueError
  | S754_infinity _ => Raise OverflowError
  | S754_zero _ => Ok 0
  | S754_finite s m e =>
      if 0 <=? e then Ok (cond_Zopp s (Z.shiftl (Zpos m) e))
      else
        let q := Z.shiftr (Zpos m) (- e) in
        let r := Z.land (Zpos m) (Z.ones (- e)) in
        let up :=
          match 2 * r ?= 2 ^ (- e) with
          | Lt => false
          | Gt => true
          | Eq => Z.odd q
          end in
        Ok (cond_Zopp s (if up then q + 1 else q))
  end.

(** The literals [0.1] and [1e6] *)
Definition tenth : float := S754_finite false 7205759403792794 (-56).
Definition million : float := S754_finite false 8589934592000000 (-33).

End Float.

(* ===================================================================== *)
(** ** timedelta and datetime *)
(* ===================================================================== *)

(** A [timedelta] in normal form: [0 <= seconds < 86400] and
    [0 <= microseconds < 1000000]. *)
Record timedelta : Type := mk_timedelta {
  td_days : Z;
  td_seconds : Z;
  td_microseconds : Z
}.

Definition us_per_second : Z := 1000000.
Definition seconds_per_day : Z := 86400.

(** The whole duration in microseconds *)
Definition td_total_us (d : timedelta) : Z :=
  (td_days d * seconds_per_day + td_seconds d) * us_per_second
  + td_microseconds d.

(** Normalisation by [divmod], as the constructor does. *)
Definition td_normalize (d s us : Z) : timedelta :=
  let s := s + us / us_per_second in
  let us := us mod us_per_second in
  let d := d + s / seconds_per_day in
  let s := s mod seconds_per_day in
  mk_timedelta d s us.

(** The constructor's range check: [abs(days) > 999999999] raises. *)
Definition td_checked (d : timedelta) : result timedelta :=
  if 999999999 <? Z.abs (td_days d) then Raise OverflowError else Ok d.

(** [timedelta(days=n)], [timedelta(seconds=n)], [timedelta(minutes=n)] for
    an [int] [n] *)
Definition timedelta_days (n : Z) : result timedelta :=
  td_checked (td_normalize n 0 0).
Definition timedelta_seconds (n : Z) : result timedelta :=
  td_checked (td_normalize 0 n 0).
Definition timedelta_minutes (n : Z) : result timedelta :=
  td_checked (td_normalize 0 (n * 60) 0).

(** [timedelta(seconds=x)] for a [float] [x]: the whole seconds are kept,
    the fraction is scaled to microseconds in float arithmetic and rounded
    to the nearest integer, ties to even. *)
Definition timedelta_seconds_float (x : Float.float) : result timedelta :=
  (whole <~ Float.to_int x ;;
   us <~ Float.round_half_even (Float.mul (Float.frac x) Float.million) ;;
   td_checked (td_normalize 0 whole us))%py.

(** [d.total_seconds()] *)
Definition total_seconds (d : timedelta) : result Float.float :=
  Float.int_truediv (td_total_us d) us_per_second.

Record datetime : Type := mk_datetime {
  dt_ordinal : Z;          (* the date, as [toordinal()] *)
  dt_hour : Z;
  dt_minute : Z;
  dt_second : Z;
  dt_microsecond : Z
}.

(** Whether an [int] converts to a C [int] of 32 bits *)
Definition fits_c_int (n : Z) : bool :=
  (-2147483648 <=? n) && (n <=? 2147483647).

(** [dt.replace(hour=h, minute=0, second=0, microsecond=0)]: the hour is
    converted to a C [int] first, which raises [OverflowError] when it does
    not fit; an hour outside 0..23 then raises [ValueError]. *)
Definition replace_hour (dt : datetime) (h : Z) : result datetime :=
  if negb (fits_c_int h) then Raise OverflowError
  else if (0 <=? h) && (h <=? 23)
  then Ok (mk_datetime (dt_ordinal dt) h 0 0 0)
  else Raise ValueError.

Definition dt_seconds_of_day (dt : datetime) : Z :=
  dt_second dt + dt_minute dt * 60 + dt_hour dt * 3600.

(** [dt + d] *)
Definition datetime_add (dt : datetime) (d : timedelta) : datetime :=
  let delta :=
    td_normalize (dt_ordinal dt + td_days d)
                 (dt_seconds_of_day dt + td_seconds d)
                 (dt_microsecond dt + td_microseconds d) in
  let hour := td_seconds delta / 3600 in
  let rem := td_seconds delta mod 3600 in
  mk_datetime (td_days delta) hour (rem / 60) (rem mod 60)
              (td_microseconds delta).

(** [a - b] *)
Definition datetime_sub (a b : datetime) : timedelta :=
  td_normalize (dt_ordinal a - dt_ordinal b)
               (dt_seconds_of_day a - dt_seconds_of_day b)
               (dt_microsecond a - dt_microsecond b).

(** The instant of a [datetime], in microseconds since ordinal day 0 *)
Definition dt_instant_us (dt : datetime) : Z :=
  (dt_ordinal dt * seconds_per_day + dt_seconds_of_day dt) * us_per_second
  + dt_microsecond dt.

(** Decimal digits of a non-negative [int], as [str(n)] and ["{n}"] give *)
Definition str_of_int (n : Z) : string :=
  NilZero.string_of_int (Z.to_int n).

(** ["%02d" % n] for [0 <= n] *)
Definition pad2 (n : Z) : string :=
  if n <? 10 then "0" ++ str_of_int n else str_of_int n.

(** [dt.strftime("%H:%M:%S")] *)
Definition strftime_HMS (dt : datetime) : string :=
  pad2 (dt_hour dt) ++ ":" ++ pad2 (dt_minute dt) ++ ":" ++ pad2 (dt_second dt).

(* ===================================================================== *)
(** ** The random generator *)
(* ===================================================================== *)

(** An injectable source of randomness: [draw a b g] is the integer that
    [random.randint(a, b)] returns in generator state [g], with the state
    that follows.  The law is the contract of [randint]: the integer lies
    in the closed interval. *)
Class RandomSource (G : Type) : Type := {
  draw : Z -> Z -> G -> Z * G;
  draw_range : forall a b g, a <= b -> a <= fst (draw a b g) <= b
}.

(** [random.randint(a, b)]; an empty interval raises [ValueError]. *)
Definition randint {G : Type} `{RandomSource G} (a b : Z) : M G Z :=
  fun g => if a <=? b then Ok (draw a b g) else Raise ValueError.

(** A scripted source: the generator state is the list of the integers
    still to be returned, each brought into the requested interval; an
    exhausted script returns zero brought into the interval. *)
Definition clamp (a b v : Z) : Z := Z.max a (Z.min b v).

Definition scripted_draw (a b : Z) (g : list Z) : Z * list Z :=
  match g with
  | [] => (clamp a b 0, [])
  | v :: g' => (clamp a b v, g')
  end.

#[export] Instance scripted_source : RandomSource (list Z).
Proof.
  refine {| draw := scripted_draw |}.
  intros a b g Hab. destruct g; cbn [scripted_draw fst]; unfold clamp; lia.
Defined.

(* ===================================================================== *)
(** ** Element trees *)
(* ===================================================================== *)

(** An [xml.etree.ElementTree.Element]: tag, attributes in insertion order,
    text (empty when there is none) and children. *)
#[local] Unset Elimination Schemes.
Inductive element : Type :=
| Element (tag : string) (attrib : list (string * string)) (text : string)
          (children : list element).
#[local] Set Elimination Schemes.

Definition tag (e : element) : string :=
  match e with Element t _ _ _ => t end.
Definition attrib (e : element) : list (string * string) :=
  match e with Element _ a _ _ => a end.
Definition text (e : element) : string :=
  match e with Element _ _ x _ => x end.
Definition children (e : element) : list element :=
  match e with Element _ _ _ c => c end.

(** [ET.Element(tag)] *)
Definition new_element (t : string) : element := Element t [] "" [].

(** [d[k] = v] on an insertion-ordered dict *)
Fixpoint dict_set (d : list (string * string)) (k v : string)
  : list (string * string) :=
  match d with
  | [] => [(k, v)]
  | (k', v') :: d' =>
      if String.eqb k' k then (k, v) :: d' else (k', v') :: dict_set d' k v
  end.

(** [d.get(k)] *)
Fixpoint dict_get (d : list (string * string)) (k : string) : option string :=
  match d with
  | [] => None
  | (k', v') :: d' => if String.eqb k' k then Some v' else dict_get d' k
  end.

(** [e.set(k, v)], [e.text = x], [parent.append(child)], [e.get(k)] *)
Definition set (e : element) (k v : string) : element :=
  match e with Element t a x c => Element t (dict_set a k v) x c end.
Definition set_text (e : element) (x : string) : element :=
  match e with Element t a _ c => Element t a x c end.
Definition append (parent child : element) : element :=
  match parent with Element t a x c => Element t a x (c ++ [child])%list end.
Definition get (e : element) (k : string) : option string :=
  dict_get (attrib e) k.

(* ===================================================================== *)
(** ** create_population *)
(* ===================================================================== *)

(** The two readings of [datetime.now()], at lines 12 and 13. *)
Record clock : Type := mk_clock {
  now_start : datetime;
  now_end : datetime
}.

Definition vehicle_types : list string := ["ev"; "lev"; "hev"].

Section Builder.

Context {G : Type} `{RandomSource G}.

(** Lines 56-57: the slot of a trip and its time before the variation. *)
Definition nominal_time (start_time : datetime) (time_per_trip : Float.float)
  (trips_per_agent agent_num trip_num : Z) : result datetime :=
  (let trip_slot := agent_num * trips_per_agent + trip_num in
   slot <~ Float.of_int trip_slot ;;
   d <~ timedelta_seconds_float (Float.mul slot time_per_trip) ;;
   Ok (datetime_add start_time d))%py.

(** Line 60 *)
Definition max_variation_of (time_per_trip : Float.float) : result Z :=
  Float.to_int (Float.mul time_per_trip Float.tenth).

(** Line 62 *)
Definition add_variation (trip_time : datetime) (variation : Z)
  : result datetime :=
  (d <~ timedelta_seconds variation ;; Ok (datetime_add trip_time d))%py.

(** Line 94 *)
Definition next_trip_time_of (trip_time : datetime) : result datetime :=
  (d <~ timedelta_minutes 30 ;; Ok (datetime_add trip_time d))%py.

(** Lines 65-95: the three children that a trip leaving at [trip_time]
    adds to the plan. *)
Definition trip_children (trips_per_agent trip_num : Z) (trip_time : datetime)
  : result (list element) :=
  (let is_westbound := trip_num mod 2 =? 1 in
   (* First activity *)
   let first_act := new_element "activity" in
   let first_act := set first_act "type" (if is_westbound then "work" else "home") in
   let first_act := set first_act "link" (if is_westbound then "6" else "1") in
   let first_act := set first_act "end_time" (strftime_HMS trip_time) in
   (* Leg and route *)
   let leg := new_element "leg" in
   let leg := set leg "mode" "car" in
   let route := new_element "route" in
   let route := set route "type" "links" in
   let route := set_text route (if is_westbound then "6,4,2" else "1,3,5") in
   let leg := append leg route in
   (* Final activity *)
   let final_act := new_element "activity" in
   let final_act := set final_act "type" (if is_westbound then "home" else "work") in
   let final_act := set final_act "link" (if is_westbound then "1" else "6") in
   final_act <~
     (if trip_num <? trips_per_agent - 1
      then next_trip_time <~ next_trip_time_of trip_time ;;
           Ok (set final_act "end_time" (strftime_HMS next_trip_time))
      else Ok final_act) ;;
   Ok [first_act; leg; final_act])%py.

(** Lines 54-95: one round of the loop over the trips of an agent. *)
Definition trip_body (start_time : datetime) (time_per_trip : Float.float)
  (trips_per_agent agent_num trip_num : Z) (plan : element) : M G element :=
  (trip_time <- lift (nominal_time start_time time_per_trip
                        trips_per_agent agent_num trip_num) ;;
   max_variation <- lift (max_variation_of time_per_trip) ;;
   variation <- randint (- max_variation) max_variation ;;
   trip_time <- lift (add_variation trip_time variation) ;;
   acts <- lift (trip_children trips_per_agent trip_num trip_time) ;;
   ret (fold_left append acts plan))%py.

(** Lines 35-36 *)
Definition vehicle_type_of (agent_num : Z) : string :=
  nth (Z.to_nat (agent_num mod Z.of_nat (List.length vehicle_types)))
      vehicle_types "".

Definition agent_id_of (agent_num : Z) : string :=
  (vehicle_type_of agent_num ++ "_agent_" ++ str_of_int agent_num)%string.

(** Lines 39-51: the person before its trips are generated. *)
Definition person_frame (agent_num : Z) : element :=
  let vehicle_type := vehicle_type_of agent_num in
  let person := new_element "person" in
  let person := set person "id" (agent_id_of agent_num) in
  let attributes := new_element "attributes" in
  let vehicle_attr := new_element "attribute" in
  let vehicle_attr := set vehicle_attr "name" "vehicleType" in
  let vehicle_attr := set vehicle_attr "class" "java.lang.String" in
  let vehicle_attr := set_text vehicle_attr (vehicle_type ++ "_car")%string in
  let attributes := append attributes vehicle_attr in
  append person attributes.

Definition plan_frame : element :=
  set (new_element "plan") "selected" "yes".

(** Lines 33-97: one round of the loop over the agents. *)
Definition agent_body (start_time : datetime) (time_per_trip : Float.float)
  (trips_per_agent agent_num : Z) (population : element) : M G element :=
  (plan <- for_each (range trips_per_agent)
             (trip_body start_time time_per_trip trips_per_agent agent_num)
             plan_frame ;;
   ret (append population (append (person_frame agent_num) plan)))%py.

(** Lines 12-15: the start and the end of the window. *)
Definition window_bounds (clk : clock) (start_hour end_hour : Z)
  : result (datetime * datetime) :=
  (start_time <~ replace_hour (now_start clk) start_hour ;;
   end_time <~ replace_hour (now_end clk) end_hour ;;
   end_time <~
     (if end_hour <=? start_hour
      then d <~ timedelta_days 1 ;; Ok (datetime_add end_time d)
      else Ok end_time) ;;
   Ok (start_time, end_time))%py.

(** Lines 18-20 *)
Definition time_window_of (start_time end_time : datetime)
  : result Float.float :=
  total_seconds (datetime_sub end_time start_time).

Definition time_per_trip_of (time_window : Float.float) (total_trips : Z)
  : result Float.float :=
  (n <~ Float.of_int total_trips ;; Float.truediv time_window n)%py.

(** Lines 9-98: the element tree held by [population] at line 99. *)
Definition population_tree (clk : clock)
  (num_agents trips_per_agent start_hour end_hour : Z) : M G element :=
  (bounds <- lift (window_bounds clk start_hour end_hour) ;;
   let '(start_time, end_time) := bounds in
   time_window <- lift (time_window_of start_time end_time) ;;
   let total_trips := num_agents * trips_per_agent in
   time_per_trip <- lift (time_per_trip_of time_window total_trips) ;;
   for_each (range num_agents)
     (agent_body start_time time_per_trip trips_per_agent)
     (new_element "population"))%py.

End Builder.

(* ===================================================================== *)
(** ** format_xml *)
(* ===================================================================== *)

Definition dquote : string := String (ascii_of_nat 34) EmptyString.
Definition newline : string := String (ascii_of_nat 10) EmptyString.

(** The character data written by [minidom]'s [_write_data]: [&], [<], [>]
    and the double quote are escaped, in an attribute value ([is_attr]) as
    in a text.  (From Python 3.13 on the double quote of a text is written
    as it is; the texts of a population hold none.) *)
Fixpoint write_data (is_attr : bool) (s : string) : string :=
  match s with
  | EmptyString => EmptyString
  | String c s' =>
      (if Ascii.eqb c "&" then "&amp;"
       else if Ascii.eqb c "<" then "&lt;"
       else if Ascii.eqb c ">" then "&gt;"
       else if Ascii.eqb c (ascii_of_nat 34) then "&quot;"
       else String c EmptyString) ++ write_data is_attr s'
  end%string.

Definition write_attrs (a : list (string * string)) : string :=
  String.concat ""
    (map (fun kv => " " ++ fst kv ++ "=" ++ dquote
                    ++ write_data true (snd kv) ++ dquote)%string a).

(** [Element.writexml]: an element without content closes itself, one whose
    only content is text stays on one line, and any other has each child
    on a line of its own, one level deeper. *)
Fixpoint writexml (indent addindent newl : string) (e : element) : string :=
  match e with
  | Element t a x c =>
      (indent ++ "<" ++ t ++ write_attrs a ++
       match x, c with
       | EmptyString, [] => "/>" ++ newl
       | _, [] => ">" ++ write_data false x ++ "</" ++ t ++ ">" ++ newl
       | _, _ =>
           ">" ++ newl
           ++ match x with
              | EmptyString => ""
              | _ => indent ++ addindent ++ write_data false x ++ newl
              end
           ++ String.concat ""
                (map (writexml (indent ++ addindent) addindent newl) c)
           ++ indent ++ "</" ++ t ++ ">" ++ newl
       end)%string
  end.

(** [minidom.parseString(ET.tostring(e)).toprettyxml(indent=...)]: parsing
    the serialised tree gives the tree back, which is written after the XML
    declaration.  This is so for the trees of [plain_tree] below, among
    them every population: names without prefix, distinct attribute names,
    and printable ASCII characters in values and texts.  Elsewhere the
    parser may refuse the document (a colon in a name, a control
    character) or change it (a carriage return). *)
Definition xml_declaration : string :=
  ("<?xml version=" ++ dquote ++ "1.0" ++ dquote ++ " ?>")%string.

Definition toprettyxml (indent : string) (e : element) : string :=
  (xml_declaration ++ newline ++ writexml "" indent newline e)%string.

(** [s.replace(old, new)] for a non-empty [old]: every occurrence met from
    the left is replaced; [skip] counts the characters of a replaced
    occurrence that are still to be passed over. *)
Fixpoint replace_from (old new : string) (skip : nat) (s : string) : string :=
  match s with
  | EmptyString => EmptyString
  | String c s' =>
      match skip with
      | S k => replace_from old new k s'
      | O =>
          if String.prefix old s
          then (new ++ replace_from old new (Nat.pred (String.length old)) s')%string
          else String c (replace_from old new O s')
      end
  end.

Definition str_replace (s old new : string) : string :=
  replace_from old new O s.

Definition doctype : string :=
  ("<!DOCTYPE population SYSTEM " ++ dquote
   ++ "http://www.matsim.org/files/dtd/population_v6.dtd" ++ dquote ++ ">")%string.

Definition format_xml (population : element) : string :=
  let xml_str := toprettyxml "    " population in
  str_replace xml_str xml_declaration
    ("<?xml version=" ++ dquote ++ "1.0" ++ dquote ++ " encoding="
     ++ dquote ++ "utf-8" ++ dquote ++ "?>" ++ newline ++ doctype)%string.

(** Lines 8-99 *)
Definition create_population {G : Type} `{RandomSource G} (clk : clock)
  (num_agents trips_per_agent start_hour end_hour : Z) : M G string :=
  (population <- population_tree clk num_agents trips_per_agent
                   start_hour end_hour ;;
   ret (format_xml population))%py.

(* ===================================================================== *)
(** ** Observations on a generated population *)
(* ===================================================================== *)

Definition has_tag (t : string) (e : element) : bool := String.eqb (tag e) t.

(** The person elements of a population, in order; the plans, legs and
    activities of an element. *)
Definition persons (pop : element) : list element :=
  filter (has_tag "person") (children pop).
Definition plans (person : element) : list element :=
  filter (has_tag "plan") (children person).
Definition legs (plan : element) : list element :=
  filter (has_tag "leg") (children plan).
Definition activities (plan : element) : list element :=
  filter (has_tag "activity") (children plan).

Definition opt_bind {A B : Type} (o : option A) (k : A -> option B) : option B :=
  match o with
  | Some a => k a
  | None => None
  end.

(** The person of the agent with index [a], and its plan. *)
Definition person_at (pop : element) (a : Z) : option element :=
  nth_error (persons pop) (Z.to_nat a).

Definition plan_at (pop : element) (a : Z) : option element :=
  opt_bind (person_at pop a) (fun p => hd_error (plans p)).

(** The children that trip [t] contributes to a plan: its first activity,
    its leg and its final activity are the children at [3t], [3t+1] and
    [3t+2]. *)
Definition trip_in (plan : element) (t : Z)
  : option (element * element * element) :=
  let i := Z.to_nat (3 * t) in
  match nth_error (children plan) i,
        nth_error (children plan) (i + 1),
        nth_error (children plan) (i + 2) with
  | Some first_act, Some leg, Some final_act => Some (first_act, leg, final_act)
  | _, _, _ => None
  end.

Definition trip_at (pop : element) (a t : Z)
  : option (element * element * element) :=
  opt_bind (plan_at pop a) (fun plan => trip_in plan t).

(** The text of the route of a leg *)
Definition route_text (leg : element) : option string :=
  option_map text (hd_error (filter (has_tag "route") (children leg))).

(** The text of the [vehicleType] attribute of a person *)
Definition is_vehicle_attribute (e : element) : bool :=
  has_tag "attribute" e
  && match get e "name" with
     | Some n => String.eqb n "vehicleType"
     | None => false
     end.

Definition vehicle_type_value (person : element) : option string :=
  option_map text
    (hd_error
       (filter is_vehicle_attribute
          (flat_map children (filter (has_tag "attributes") (children person))))).

(** The inputs that the command line lets through (lines 115-128). *)
Definition valid_input (num_agents trips_per_agent start_hour end_hour : Z)
  : Prop :=
  0 < num_agents /\ 0 < trips_per_agent
  /\ 0 <= start_hour <= 23 /\ 0 <= end_hour <= 23.

(** Both readings of the clock fall on one day, the reference day. *)
Definition same_day (clk : clock) : Prop :=
  dt_ordinal (now_start clk) = dt_ordinal (now_end clk).

(** The elements of lines 68-95, for a trip that leaves at [trip_time]. *)
Definition first_act_of (trip_num : Z) (trip_time : datetime) : element :=
  let w := trip_num mod 2 =? 1 in
  Element "activity"
    [("type", if w then "work" else "home");
     ("link", if w then "6" else "1");
     ("end_time", strftime_HMS trip_time)] "" [].

Definition leg_of (trip_num : Z) : element :=
  let w := trip_num mod 2 =? 1 in
  Element "leg" [("mode", "car")] ""
    [Element "route" [("type", "links")] (if w then "6,4,2" else "1,3,5") []].

Definition thirty_minutes : timedelta := mk_timedelta 0 1800 0.

Definition final_act_of (trips_per_agent trip_num : Z) (trip_time : datetime)
  : element :=
  let w := trip_num mod 2 =? 1 in
  Element "activity"
    ([("type", if w then "home" else "work");
      ("link", if w then "1" else "6")]
     ++ if trip_num <? trips_per_agent - 1
        then [("end_time", strftime_HMS (datetime_add trip_time thirty_minutes))]
        else [])%list "" [].

(* ===================================================================== *)
(** ** The trips of a run *)
(* ===================================================================== *)

Definition trip_triple (trips_per_agent trip_num : Z) (trip_time : datetime)
  : list element :=
  [first_act_of trip_num trip_time; leg_of trip_num;
   final_act_of trips_per_agent trip_num trip_time].

Definition is_trip_triple (trips_per_agent : Z) (acts : list element) : Prop :=
  exists trip_num trip_time,
    acts = trip_triple trips_per_agent trip_num trip_time.

(** The quantities that lines 12-20 derive from the inputs and the clock *)
Definition schedule (clk : clock)
  (num_agents trips_per_agent start_hour end_hour : Z)
  (start_time : datetime) (time_per_trip : Float.float) : Prop :=
  exists end_time time_window,
    window_bounds clk start_hour end_hour = Ok (start_time, end_time)
    /\ time_window_of start_time end_time = Ok time_window
    /\ time_per_trip_of time_window (num_agents * trips_per_agent)
       = Ok time_per_trip.

Section Runs.

Context {G : Type} `{RandomSource G}.

(** [trip_time] is a time at which the trip [trip_num] of agent [agent_num]
    may leave: its nominal time moved by an integer that the generator
    returns for the interval of line 61. *)
Definition departure (start_time : datetime) (time_per_trip : Float.float)
  (trips_per_agent agent_num trip_num : Z) (trip_time : datetime) : Prop :=
  exists nominal max_variation g0,
    nominal_time start_time time_per_trip trips_per_agent agent_num trip_num
    = Ok nominal
    /\ max_variation_of time_per_trip = Ok max_variation
    /\ - max_variation <= max_variation
    /\ add_variation nominal (fst (draw (- max_variation) max_variation g0))
       = Ok trip_time.

(** What one round of the loop over the agents appends to the population *)
Definition person_shape (start_time : datetime) (time_per_trip : Float.float)
  (trips_per_agent agent_num : Z) (person : element) : Prop :=
  exists actss,
    Forall2
      (fun trip_num acts =>
         exists trip_time,
           departure start_time time_per_trip trips_per_agent agent_num
             trip_num trip_time
           /\ acts = trip_triple trips_per_agent trip_num trip_time)
      (range trips_per_agent) actss
    /\ person
       = Element "person" [("id", agent_id_of agent_num)] ""
           [Element "attributes" [] ""
              [Element "attribute"
                 [("name", "vehicleType"); ("class", "java.lang.String")]
                 (vehicle_type_of agent_num ++ "_car")%string []];
            Element "plan" [("selected", "yes")] "" (List.concat actss)].

(** The generator returns zero for every interval around zero: the
    variation is switched off. *)
Definition jitter_off : Prop :=
  forall m g0, 0 <= m -> fst (draw (- m) m g0) = 0.

End Runs.

Arguments jitter_off G {_}.

(** Every element of a tree, the root first *)
Fixpoint all_elements (e : element) : list element :=
  match e with
  | Element _ _ _ c => e :: flat_map all_elements c
  end.

(** Two generators return the same integers when a relation between their
    states is kept by every draw, and related states return one integer. *)
Definition same_draws {G1 G2 : Type} `{RandomSource G1} `{RandomSource G2}
  (R : G1 -> G2 -> Prop) : Prop :=
  forall a b g1 g2,
    R g1 g2 ->
    fst (draw a b g1) = fst (draw a b g2)
    /\ R (snd (draw a b g1)) (snd (draw a b g2)).

(** Two runs agree: both return the same value, in related states, or both
    raise the same exception. *)
Definition agree {G1 G2 A : Type} (R : G1 -> G2 -> Prop)
  (r1 : result (A * G1)) (r2 : result (A * G2)) : Prop :=
  match r1, r2 with
  | Ok (x, g1), Ok (y, g2) => x = y /\ R g1 g2
  | Raise e1, Raise e2 => e1 = e2
  | _, _ => False
  end.

(* ===================================================================== *)
(** ** Instants, windows and plans *)
(* ===================================================================== *)

(** The wall-clock text of an instant given in microseconds: the time of
    day, with the day itself dropped. *)
Definition wall_clock (instant_us : Z) : string :=
  let second_of_day := (instant_us / us_per_second) mod seconds_per_day in
  (pad2 (second_of_day / 3600) ++ ":"
   ++ pad2 (second_of_day mod 3600 / 60) ++ ":"
   ++ pad2 (second_of_day mod 60))%string.

(** Moving a date by whole days *)
Definition shift_days (k : Z) (dt : datetime) : datetime :=
  mk_datetime (dt_ordinal dt + k) (dt_hour dt) (dt_minute dt) (dt_second dt)
    (dt_microsecond dt).

(** The length of the window in seconds, from the two hours *)
Definition window_seconds (start_hour end_hour : Z) : Z :=
  (if end_hour <=? start_hour then end_hour - start_hour + 24
   else end_hour - start_hour) * 3600.

Definition result_map {A B : Type} (f : A -> B) (r : result A) : result B :=
  match r with
  | Ok a => Ok (f a)
  | Raise e => Raise e
  end.

Definition trip_tags : list string := ["activity"; "leg"; "activity"].

Definition repeat_trip_tags (n : nat) : list string :=
  List.concat (repeat trip_tags n).

(** A plan alternates strictly when its children are an activity, then a
    leg and an activity any number of times. *)
Fixpoint alternating (tags : list string) : bool :=
  match tags with
  | [] => false
  | a :: rest =>
      String.eqb a "activity"
      && match rest with
         | [] => true
         | l :: rest' => String.eqb l "leg" && alternating rest'
         end
  end.

(** No two legs are next to each other. *)
Fixpoint no_adjacent_legs (tags : list string) : bool :=
  match tags with
  | [] => true
  | a :: rest =>
      match rest with
      | [] => true
      | b :: _ => negb (String.eqb a "leg" && String.eqb b "leg")
      end && no_adjacent_legs rest
  end.

(* ===================================================================== *)
(** ** Magnitudes of floats *)
(* ===================================================================== *)

(** Non-negative floats with their exponent not above the canonical one *)
Definition pos_between (lo hi : Z) (x : spec_float) : Prop :=
  match x with
  | S754_finite false m e =>
      e <= fexp Float.prec Float.emax (Zpos (digits2_pos m) + e)
      /\ lo <= Zpos (digits2_pos m) + e <= hi
  | _ => False
  end.

Definition nonneg_below (hi : Z) (x : spec_float) : Prop :=
  match x with
  | S754_zero false => True
  | S754_finite false m e =>
      e <= fexp Float.prec Float.emax (Zpos (digits2_pos m) + e)
      /\ Zpos (digits2_pos m) + e <= hi
  | _ => False
  end.

(* ===================================================================== *)
(** ** Sample runs *)
(* ===================================================================== *)

(** A clock read twice on 4 November 2026, a few microseconds apart. *)
Definition sample_clock : clock :=
  mk_clock (mk_datetime 739924 9 15 30 120401)
           (mk_datetime 739924 9 15 30 120409).

(** The same run on 4 November 2026 and on 29 February 2028 *)
Definition other_clock : clock :=
  mk_clock (mk_datetime 740406 23 59 58 0) (mk_datetime 740406 23 59 59 7).

(** A source that returns zero whenever zero lies in the interval. *)
#[export] Instance zero_source : RandomSource unit.
Proof.
  refine {| draw := fun a b g => (clamp a b 0, g) |}.
  intros a b g Hab. cbn [fst]. unfold clamp. lia.
Defined.

Definition tree_of {G : Type} (r : result (element * G)) : element :=
  match r with
  | Ok (pop, _) => pop
  | Raise _ => new_element ""
  end.

(** Two agents with two trips each between 6 and 9 o'clock, with the
    variations 100, -270, 14 and 0 *)
Definition sample_draws : list Z := [100; -270; 14; 0].

Definition sample_population : element :=
  Eval vm_compute in
    tree_of (population_tree sample_clock 2 2 6 9 sample_draws).

(** The same run with the variation switched off *)
Definition quiet_population : element :=
  Eval vm_compute in tree_of (population_tree sample_clock 2 2 6 9 tt).

(** One agent with two trips between 22 and 4 o'clock, without variation *)
Definition overnight_population : element :=
  Eval vm_compute in tree_of (population_tree sample_clock 1 2 22 4 tt).

(** A clock read in the last microsecond of one day at line 12 and in the
    first of the next at line 13, and the population of two agents with
    two trips each between 6 and 9 o'clock on it, without variation *)
Definition midnight_clock : clock :=
  mk_clock (mk_datetime 739924 23 59 59 999999)
           (mk_datetime 739925 0 0 0 12).

Definition midnight_population : element :=
  Eval vm_compute in tree_of (population_tree midnight_clock 2 2 6 9 tt).

(* ===================================================================== *)
(** ** Outside the valid inputs *)
(* ===================================================================== *)

(** A float with its sign replaced *)
Definition with_sign (s : bool) (x : spec_float) : spec_float :=
  match x with
  | S754_zero _ => S754_zero s
  | S754_infinity _ => S754_infinity s
  | S754_nan => S754_nan
  | S754_finite _ m e => S754_finite s m e
  end.

(** The document of a population without persons *)
Definition empty_document : string :=
  ("<?xml version=" ++ dquote ++ "1.0" ++ dquote ++ " encoding=" ++ dquote
   ++ "utf-8" ++ dquote ++ "?>" ++ newline ++ doctype ++ newline
   ++ "<population/>" ++ newline)%string.


(* ===================================================================== *)
(** ** The text of a document *)
(* ===================================================================== *)

(** The characters of an XML name without prefix, within ASCII: a name
    starts with a letter or an underscore, and goes on with these, digits,
    hyphens and full stops. *)
Definition name_start_char (c : ascii) : bool :=
  let n := nat_of_ascii c in
  ((65 <=? n) && (n <=? 90) || (97 <=? n) && (n <=? 122) || (n =? 95))%nat.

Definition name_char (c : ascii) : bool :=
  let n := nat_of_ascii c in
  (name_start_char c || (48 <=? n) && (n <=? 57) || (n =? 45) || (n =? 46))%nat.

Fixpoint all_chars (p : ascii -> bool) (s : string) : bool :=
  match s with
  | EmptyString => true
  | String c s' => p c && all_chars p s'
  end.

Definition xml_name (s : string) : bool :=
  match s with
  | EmptyString => false
  | String c s' => name_start_char c && all_chars name_char s'
  end.

(** The trees that [ET.tostring] writes as a document that
    [minidom.parseString] reads back: every tag and every attribute name is
    an XML name. *)
Fixpoint well_named (e : element) : bool :=
  match e with
  | Element t a _ c =>
      xml_name t && forallb (fun kv => xml_name (fst kv)) a
      && forallb well_named c
  end.







(** The line that [format_xml] puts in the place of the declaration *)
Definition document_header : string :=
  ("<?xml version=" ++ dquote ++ "1.0" ++ dquote ++ " encoding=" ++ dquote
   ++ "utf-8" ++ dquote ++ "?>" ++ newline ++ doctype)%string.

(** Whether [<?] occurs in a string read after a character that is [<]
    ([after_lt]) or not, and whether the reading ends on [<]. *)
Fixpoint has_pi (after_lt : bool) (s : string) : bool :=
  match s with
  | EmptyString => false
  | String c s' => after_lt && Ascii.eqb c "?" || has_pi (Ascii.eqb c "<") s'
  end.

Fixpoint ends_lt (after_lt : bool) (s : string) : bool :=
  match s with
  | EmptyString => after_lt
  | String c s' => ends_lt (Ascii.eqb c "<") s'
  end.

(** A string without [<?] that does not end on [<] *)
Definition quiet (s : string) : Prop :=
  has_pi false s = false /\ ends_lt false s = false.

(** Strings without [<] *)
Definition no_lt (s : string) : bool :=
  all_chars (fun c => negb (Ascii.eqb c "<")) s.

(* ===================================================================== *)
(** ** The calls of the generator *)
(* ===================================================================== *)

Section Draws.

Context {G : Type} `{RandomSource G}.

(** The state of the generator after one call of [random.randint(-m, m)],
    and after [k] such calls; the integer that the call after [k] calls
    returns. *)
Definition next_state (m : Z) (g : G) : G := snd (draw (- m) m g).

Definition state_after (m : Z) (k : nat) (g : G) : G :=
  Nat.iter k (next_state m) g.

Definition drawn (m : Z) (k : nat) (g : G) : Z :=
  fst (draw (- m) m (state_after m k g)).

(** The children of the trip [trip_num] of agent [agent_num], when the
    generator is in state [g] at line 61 *)
Definition trip_drawn (start_time : datetime) (time_per_trip : Float.float)
  (trips_per_agent m agent_num trip_num : Z) (g : G) (acts : list element)
  : Prop :=
  exists nominal trip_time,
    nominal_time start_time time_per_trip trips_per_agent agent_num trip_num
    = Ok nominal
    /\ - m <= m
    /\ add_variation nominal (fst (draw (- m) m g)) = Ok trip_time
    /\ acts = trip_triple trips_per_agent trip_num trip_time.

(** The person of agent [agent_num], when the generator is in state [g] at
    line 33 *)
Definition person_drawn (start_time : datetime) (time_per_trip : Float.float)
  (trips_per_agent m agent_num : Z) (g : G) (person : element) : Prop :=
  exists actss,
    Forall2
      (fun trip_num acts =>
         trip_drawn start_time time_per_trip trips_per_agent m agent_num
           trip_num (state_after m (Z.to_nat trip_num) g) acts)
      (range trips_per_agent) actss
    /\ person
       = Element "person" [("id", agent_id_of agent_num)] ""
           [Element "attributes" [] ""
              [Element "attribute"
                 [("name", "vehicleType"); ("class", "java.lang.String")]
                 (vehicle_type_of agent_num ++ "_car")%string []];
            Element "plan" [("selected", "yes")] "" (List.concat actss)].

End Draws.

(* ===================================================================== *)
(** ** main *)
(* ===================================================================== *)

(** The exceptions that reach the handlers of [main]: those of [int] and of
    [create_population], [EOFError] from [input] at the end of the input,
    and [OSError] from [open]. *)
Inductive raised : Type :=
| Builtin (e : exn)
| EOFError
| OSError.

(** The handlers at lines 148 and 151 *)
Inductive handler : Type :=
| ValueErrorHandler
| ExceptionHandler.

Definition handler_of (e : raised) : handler :=
  match e with
  | Builtin ValueError => ValueErrorHandler
  | _ => ExceptionHandler
  end.

(** What [main] reads and changes: the lines still to be read from the
    standard input, the files of the working directory by name, and the
    random generator. *)
Record world (G : Type) : Type := mk_world {
  stdin : list string;
  files : list (string * string);
  generator : G
}.

Arguments mk_world {G} _ _ _.
Arguments stdin {G} _.
Arguments files {G} _.
Arguments generator {G} _.

(** A step of [main] returns a value in a new world, or raises with the
    input left and the files as they are at that point. *)
Inductive io_result (G A : Type) : Type :=
| Done (a : A) (w : world G)
| Thrown (e : raised) (rest : list string) (fs : list (string * string)).

Arguments Done {G A} a w.
Arguments Thrown {G A} e rest fs.

Definition IO (G A : Type) : Type := world G -> io_result G A.

Definition io_ret {G A : Type} (a : A) : IO G A := fun w => Done a w.

Definition io_raise {G A : Type} (e : raised) : IO G A :=
  fun w => Thrown e (stdin w) (files w).

Definition io_bind {G A B : Type} (c : IO G A) (k : A -> IO G B) : IO G B :=
  fun w =>
    match c w with
    | Done a w' => k a w'
    | Thrown e rest fs => Thrown e rest fs
    end.

Declare Scope io_scope.
Delimit Scope io_scope with io.
Notation "x <- c ;; k" := (io_bind c (fun x => k))
  (at level 61, c at next level, right associativity) : io_scope.

(** [s.lower()], on ASCII *)
Definition lower_char (c : ascii) : ascii :=
  let n := nat_of_ascii c in
  if ((65 <=? n) && (n <=? 90))%nat then ascii_of_nat (n + 32) else c.

Fixpoint lower (s : string) : string :=
  match s with
  | EmptyString => EmptyString
  | String c s' => String (lower_char c) (lower s')
  end.

(** What lines 145-146 do to a file: [open(name, 'w')] and [f.write] write
    it in full; or [open] raises [OSError] and the files are as they were;
    or [open] has created or emptied the file and the writing raises
    [OSError], leaving the first [written] characters in it. *)
Inductive write_outcome : Type :=
| Written
| Refused
| Broken (written : nat).

(** What a call of [main] leaves: it returns after writing [output_file],
    or [sys.exit] raises [SystemExit] in one of the two handlers. *)
Inductive exit (G : Type) : Type :=
| Returned (output_file : string) (w : world G)
| SystemExit (code : Z) (h : handler) (rest : list string)
             (fs : list (string * string)).

Arguments Returned {G} output_file w.
Arguments SystemExit {G} code h rest fs.

Section Main.

Context {G : Type} `{RandomSource G}.

(** [int(s)] for a line [s] of the input: the integer, or [None] where
    [int] raises [ValueError]. *)
Variable parse_int : string -> option Z.

(** The readings of the clock: the two of [create_population], and the text
    of [datetime.now().strftime("%Y%m%d_%H%M%S")] at line 141. *)
Variable clk : clock.
Variable timestamp : string.

(** What becomes of the writing of a file, by its name *)
Variable disk : string -> write_outcome.

(** [input(prompt)] *)
Definition input : IO G string :=
  fun w =>
    match stdin w with
    | [] => Thrown EOFError [] (files w)
    | line :: rest => Done line (mk_world rest (files w) (generator w))
    end.

(** [int(input(prompt))] *)
Definition int_input : IO G Z :=
  (line <- input ;;
   match parse_int line with
   | Some n => io_ret n
   | None => io_raise (Builtin ValueError)
   end)%io.

(** [if bad: raise ValueError(...)] *)
Definition raise_if (bad : bool) : IO G unit :=
  if bad then io_raise (Builtin ValueError) else io_ret tt.

(** Lines 131-136 *)
Definition call_create_population
  (num_agents trips_per_agent start_hour end_hour : Z) : IO G string :=
  fun w =>
    match create_population clk num_agents trips_per_agent start_hour end_hour
            (generator w) with
    | Ok (xml, g') => Done xml (mk_world (stdin w) (files w) g')
    | Raise e => Thrown (Builtin e) (stdin w) (files w)
    end.

(** [os.path.exists(name)] *)
Definition path_exists (name : string) : IO G bool :=
  fun w =>
    Done (match dict_get (files w) name with Some _ => true | None => false end)
         w.

(** Lines 145-146 *)
Definition write_file (name content : string) : IO G unit :=
  fun w =>
    match disk name with
    | Written =>
        Done tt (mk_world (stdin w) (dict_set (files w) name content)
                   (generator w))
    | Refused => Thrown OSError (stdin w) (files w)
    | Broken written =>
        Thrown OSError (stdin w)
          (dict_set (files w) name (String.substring 0 written content))
    end.

(** Lines 112-147: the body of the [try] statement, returning the name of
    the file that it wrote. *)
Definition main_try : IO G string :=
  (num_agents <- int_input ;;
   _ <- raise_if (num_agents <=? 0) ;;
   trips_per_agent <- int_input ;;
   _ <- raise_if (trips_per_agent <=? 0) ;;
   start_hour <- int_input ;;
   _ <- raise_if (negb ((0 <=? start_hour) && (start_hour <=? 23))) ;;
   end_hour <- int_input ;;
   _ <- raise_if (negb ((0 <=? end_hour) && (end_hour <=? 23))) ;;
   population_content <- call_create_population num_agents trips_per_agent
                           start_hour end_hour ;;
   let output_file := "population.xml" in
   present <- path_exists output_file ;;
   output_file <-
     (if present
      then response <- input ;;
           let response := lower response in
           if negb (String.eqb response "y")
           then io_ret ("population_" ++ timestamp ++ ".xml")%string
           else io_ret output_file
      else io_ret output_file) ;;
   _ <- write_file output_file population_content ;;
   io_ret output_file)%io.

(** Lines 108-153 *)
Definition main (w : world G) : exit G :=
  match main_try w with
  | Done output_file w' => Returned output_file w'
  | Thrown e rest fs => SystemExit 1 (handler_of e) rest fs
  end.

End Main.




(** Whether the line read by the prompt [k] of [main] passes the checks of
    lines 114-127: it is an integer, positive for the numbers of agents
    and of trips, and from 0 to 23 for the hours. *)
Definition accepted (parse_int : string -> option Z) (k : nat) (line : string)
  : bool :=
  match parse_int line with
  | None => false
  | Some n =>
      match k with
      | 0%nat | 1%nat => negb (n <=? 0)
      | _ => (0 <=? n) && (n <=? 23)
      end
  end.

(** A reading of decimal numerals, for the sample runs of [main] *)
Definition decimal (s : string) : option Z :=
  option_map Z.of_int (NilZero.int_of_string s).

Definition sample_world : world (list Z) :=
  mk_world ["2"; "2"; "6"; "9"] [] sample_draws.

Definition sample_main (w : world (list Z)) : exit (list Z) :=
  main decimal sample_clock "20260101_093000" (fun _ => Written) w.

(** A directory that holds a [population.xml], and the answer [n] *)
Definition guarded_world : world (list Z) :=
  mk_world ["2"; "2"; "6"; "9"; "n"] [("population.xml", "old")] sample_draws.



(* ===================================================================== *)
(** ** Reasoning about computations *)
(* ===================================================================== *)

Lemma result_bind_ok {A B : Type} (r : result A) (k : A -> result B) (b : B) :
  result_bind r k = Ok b <-> exists a, r = Ok a /\ k a = Ok b.
Proof.
  destruct r as [a|e]; cbn; split.
  - intros Hk. exists a. split; [reflexivity | exact Hk].
  - intros (a' & Ha & Hk). injection Ha as ->. exact Hk.
  - discriminate.
  - intros (a' & Ha & _). discriminate.
Qed.

Lemma bind_ok {G A B : Type} (c : M G A) (k : A -> M G B) g b g' :
  bind c k g = Ok (b, g') <->
  exists a g1, c g = Ok (a, g1) /\ k a g1 = Ok (b, g').
Proof.
  unfold bind. destruct (c g) as [[a g1]|e]; split.
  - intros Hk. exists a, g1. split; [reflexivity | exact Hk].
  - intros (a' & g1' & Ha & Hk). injection Ha as -> ->. exact Hk.
  - discriminate.
  - intros (a' & g1' & Ha & _). discriminate.
Qed.

Lemma lift_ok {G A : Type} (r : result A) (g : G) a g' :
  lift r g = Ok (a, g') <-> r = Ok a /\ g' = g.
Proof.
  unfold lift. destruct r as [a0|e]; split.
  - intros Heq. injection Heq as -> ->. split; reflexivity.
  - intros [Ha ->]. injection Ha as ->. reflexivity.
  - discriminate.
  - intros [Ha _]. discriminate.
Qed.

Lemma ret_ok {G A : Type} (a a' : A) (g g' : G) :
  ret a g = Ok (a', g') <-> a' = a /\ g' = g.
Proof.
  unfold ret. split.
  - intros Heq. injection Heq as -> ->. split; reflexivity.
  - intros [-> ->]. reflexivity.
Qed.

(** A loop whose every round adds one item to the accumulator: the rounds
    that succeed leave a list of items, one per element, each related to
    its element. *)
Lemma for_each_trace {G A B C : Type} (R : A -> C -> Prop)
  (step : B -> C -> B) (body : A -> B -> M G B) (xs : list A) :
  (forall x acc g acc' g', In x xs ->
     body x acc g = Ok (acc', g') -> exists y, R x y /\ acc' = step acc y) ->
  forall acc g acc' g',
    for_each xs body acc g = Ok (acc', g') ->
    exists ys, Forall2 R xs ys /\ acc' = fold_left step ys acc.
Proof.
  induction xs as [|x xs IH]; intros Hbody acc g acc' g' Hrun.
  - apply ret_ok in Hrun as [-> _]. exists []. split; [constructor | reflexivity].
  - cbn [for_each] in Hrun. apply bind_ok in Hrun as (acc1 & g1 & Hx & Hrest).
    destruct (Hbody x acc g acc1 g1 (or_introl eq_refl) Hx) as (y & Hy & ->).
    destruct (IH (fun x0 a0 g0 a1 g2 Hin => Hbody x0 a0 g0 a1 g2 (or_intror Hin))
                _ _ _ _ Hrest) as (ys & Hys & ->).
    exists (y :: ys). split; [constructor; assumption | reflexivity].
Qed.

(** The converse for totality: a loop succeeds when each round does. *)
Lemma for_each_total {G A B : Type} (body : A -> B -> M G B) (xs : list A) :
  (forall x acc g, In x xs -> exists acc' g', body x acc g = Ok (acc', g')) ->
  forall acc g, exists acc' g', for_each xs body acc g = Ok (acc', g').
Proof.
  induction xs as [|x xs IH]; intros Hbody acc g.
  - exists acc, g. reflexivity.
  - destruct (Hbody x acc g (or_introl eq_refl)) as (acc1 & g1 & Hx).
    destruct (IH (fun x0 a0 g0 Hin => Hbody x0 a0 g0 (or_intror Hin)) acc1 g1)
      as (acc' & g' & Hrest).
    exists acc', g'. cbn [for_each]. apply bind_ok. exists acc1, g1.
    split; assumption.
Qed.

Lemma for_each_ext {G A B : Type} (body body' : A -> B -> M G B) (xs : list A) :
  (forall x acc g, In x xs -> body x acc g = body' x acc g) ->
  forall acc g, for_each xs body acc g = for_each xs body' acc g.
Proof.
  induction xs as [|x xs IH]; intros Hext acc g; [reflexivity|].
  cbn [for_each]. unfold bind. rewrite (Hext x acc g (or_introl eq_refl)).
  destruct (body' x acc g) as [[acc1 g1]|e]; [|reflexivity].
  apply IH. intros x0 a0 g0 Hin. apply Hext. right. exact Hin.
Qed.

(** *** Ranges *)

Lemma range_length (n : Z) : List.length (range n) = Z.to_nat n.
Proof. unfold range. rewrite length_map, length_seq. reflexivity. Qed.

Lemma in_range (n x : Z) : In x (range n) <-> 0 <= x < n.
Proof.
  unfold range. rewrite in_map_iff. split.
  - intros (k & <- & Hk). apply in_seq in Hk. lia.
  - intros Hx. exists (Z.to_nat x). split; [lia|]. apply in_seq. lia.
Qed.

Lemma nth_error_range (n x : Z) :
  0 <= x < n -> nth_error (range n) (Z.to_nat x) = Some x.
Proof.
  intros Hx. unfold range. rewrite nth_error_map.
  rewrite nth_error_seq.
  destruct (Nat.ltb_spec (Z.to_nat x) (Z.to_nat n)); [|lia].
  cbn. f_equal. lia.
Qed.

Lemma Forall2_nth_error {A B : Type} (R : A -> B -> Prop) xs ys i x :
  Forall2 R xs ys -> nth_error xs i = Some x ->
  exists y, nth_error ys i = Some y /\ R x y.
Proof.
  intros HF. revert i. induction HF as [|x0 y0 xs ys Hxy HF IH]; intros i Hi.
  - destruct i; discriminate.
  - destruct i as [|i]; cbn in *.
    + injection Hi as <-. exists y0. split; [reflexivity | exact Hxy].
    + apply IH. exact Hi.
Qed.

Lemma Forall2_length_eq {A B : Type} (R : A -> B -> Prop) xs ys :
  Forall2 R xs ys -> List.length ys = List.length xs.
Proof. induction 1; cbn; congruence. Qed.

Lemma Forall2_right {A B : Type} (R : A -> B -> Prop) (P : B -> Prop) xs ys :
  Forall2 R xs ys -> (forall x y, In x xs -> R x y -> P y) -> Forall P ys.
Proof.
  induction 1 as [|x y xs ys Hxy HF IH]; intros HP; constructor.
  - apply (HP x y); [left; reflexivity | exact Hxy].
  - apply IH. intros x0 y0 Hin. apply HP. right. exact Hin.
Qed.

(** *** Elements *)

Lemma fold_left_append (cs : list element) t a x c :
  fold_left append cs (Element t a x c) = Element t a x (c ++ cs)%list.
Proof.
  revert c. induction cs as [|e cs IH]; intros c; cbn [fold_left append].
  - rewrite app_nil_r. reflexivity.
  - rewrite IH, <- app_assoc. reflexivity.
Qed.

Lemma fold_left_extend (css : list (list element)) t a x c :
  fold_left (fun plan acts => fold_left append acts plan) css (Element t a x c)
  = Element t a x (c ++ List.concat css)%list.
Proof.
  revert c. induction css as [|cs css IH]; intros c; cbn [fold_left List.concat].
  - rewrite app_nil_r. reflexivity.
  - rewrite fold_left_append, IH, <- app_assoc. reflexivity.
Qed.

Lemma filter_all {A : Type} (f : A -> bool) (l : list A) :
  Forall (fun x => f x = true) l -> filter f l = l.
Proof.
  induction 1 as [|x l Hx _ IH]; cbn; [reflexivity|]. rewrite Hx, IH. reflexivity.
Qed.

(** The children at [3t], [3t+1], [3t+2] of a concatenation of triples are
    the members of the triple at [t]. *)
Lemma nth_error_concat_triples {A : Type} (ls : list (list A)) (t : nat)
  (x y z : A) :
  Forall (fun l => List.length l = 3%nat) ls ->
  nth_error ls t = Some [x; y; z] ->
  nth_error (List.concat ls) (3 * t) = Some x
  /\ nth_error (List.concat ls) (3 * t + 1) = Some y
  /\ nth_error (List.concat ls) (3 * t + 2) = Some z.
Proof.
  intros HF. revert t. induction HF as [|l ls Hl HF IH]; intros t Ht.
  - destruct t; discriminate.
  - destruct t as [|t]; cbn [nth_error] in Ht.
    + injection Ht as ->. cbn. repeat split; reflexivity.
    + destruct l as [|a [|b [|c [|d l]]]]; try discriminate.
      replace (3 * S t)%nat with (S (S (S (3 * t)))) by lia.
      cbn [List.concat app nth_error Nat.add]. apply IH. exact Ht.
Qed.

(* ===================================================================== *)
(** ** The shape of a generated population *)
(* ===================================================================== *)

Lemma next_trip_time_of_eq (trip_time : datetime) :
  next_trip_time_of trip_time = Ok (datetime_add trip_time thirty_minutes).
Proof. reflexivity. Qed.

Lemma trip_children_eq (trips_per_agent trip_num : Z) (trip_time : datetime) :
  trip_children trips_per_agent trip_num trip_time
  = Ok [first_act_of trip_num trip_time; leg_of trip_num;
        final_act_of trips_per_agent trip_num trip_time].
Proof.
  unfold trip_children, first_act_of, leg_of, final_act_of.
  rewrite next_trip_time_of_eq.
  destruct (trip_num mod 2 =? 1), (trip_num <? trips_per_agent - 1);
    reflexivity.
Qed.

Section Shape.

Context {G : Type} `{RandomSource G}.

Lemma trip_body_ok start_time time_per_trip trips_per_agent agent_num trip_num
  plan g plan' g' :
  trip_body start_time time_per_trip trips_per_agent agent_num trip_num plan g
  = Ok (plan', g') ->
  exists acts,
    (exists trip_time,
        departure start_time time_per_trip trips_per_agent agent_num trip_num
          trip_time
        /\ acts = trip_triple trips_per_agent trip_num trip_time)
    /\ plan' = fold_left append acts plan.
Proof.
  unfold trip_body. intros Hrun.
  apply bind_ok in Hrun as (nominal & g1 & Hnom & Hrun).
  apply lift_ok in Hnom as [Hnom ->].
  apply bind_ok in Hrun as (mv & g1 & Hmv & Hrun).
  apply lift_ok in Hmv as [Hmv ->].
  apply bind_ok in Hrun as (v & g1 & Hv & Hrun).
  unfold randint in Hv. destruct (Z.leb_spec (- mv) mv) as [Hle|]; [|discriminate].
  injection Hv as Hv.
  apply bind_ok in Hrun as (trip_time & g2 & Htt & Hrun).
  apply lift_ok in Htt as [Htt ->].
  apply bind_ok in Hrun as (acts & g2 & Hacts & Hrun).
  apply lift_ok in Hacts as [Hacts ->].
  apply ret_ok in Hrun as [-> ->].
  rewrite trip_children_eq in Hacts. injection Hacts as <-.
  eexists. split; [|reflexivity].
  exists trip_time. split; [|reflexivity].
  exists nominal, mv, g. repeat split; try assumption.
  rewrite Hv. exact Htt.
Qed.

Lemma agent_body_ok start_time time_per_trip trips_per_agent agent_num
  population g population' g' :
  agent_body start_time time_per_trip trips_per_agent agent_num population g
  = Ok (population', g') ->
  exists person,
    person_shape start_time time_per_trip trips_per_agent agent_num person
    /\ population' = append population person.
Proof.
  unfold agent_body. intros Hrun.
  apply bind_ok in Hrun as (plan & g1 & Hplan & Hrun).
  apply ret_ok in Hrun as [-> ->].
  eapply for_each_trace in Hplan as (actss & Hactss & ->).
  2:{ intros t acc g0 acc' g0' _ Hbody. apply trip_body_ok in Hbody.
      exact Hbody. }
  eexists. split; [|reflexivity].
  exists actss. split; [exact Hactss|].
  unfold plan_frame, new_element. cbn [set dict_set].
  rewrite fold_left_extend. reflexivity.
Qed.

Lemma population_tree_ok clk num_agents trips_per_agent start_hour end_hour
  g pop g' :
  population_tree clk num_agents trips_per_agent start_hour end_hour g
  = Ok (pop, g') ->
  exists start_time time_per_trip people,
    schedule clk num_agents trips_per_agent start_hour end_hour
      start_time time_per_trip
    /\ Forall2 (person_shape start_time time_per_trip trips_per_agent)
         (range num_agents) people
    /\ pop = Element "population" [] "" people.
Proof.
  unfold population_tree. intros Hrun.
  apply bind_ok in Hrun as ([start_time end_time] & g1 & Hb & Hrun).
  apply lift_ok in Hb as [Hb ->].
  apply bind_ok in Hrun as (tw & g1 & Htw & Hrun).
  apply lift_ok in Htw as [Htw ->].
  apply bind_ok in Hrun as (tpt & g1 & Htpt & Hrun).
  apply lift_ok in Htpt as [Htpt ->].
  eapply for_each_trace in Hrun as (people & Hpeople & ->).
  2:{ intros a acc g0 acc' g0' _ Hbody. apply agent_body_ok in Hbody.
      exact Hbody. }
  exists start_time, tpt, people. split; [|split].
  - exists end_time, tw. repeat split; assumption.
  - exact Hpeople.
  - unfold new_element. rewrite fold_left_append. reflexivity.
Qed.

End Shape.

Section Access.

Context {G : Type} `{RandomSource G}.

Variables (start_time : datetime) (time_per_trip : Float.float).
Variables (num_agents trips_per_agent : Z).

Local Abbreviation shape :=
  (person_shape start_time time_per_trip trips_per_agent).

Lemma person_shape_tag a p : shape a p -> has_tag "person" p = true.
Proof. intros (actss & _ & ->). reflexivity. Qed.

Lemma persons_of_shape people :
  Forall2 shape (range num_agents) people ->
  persons (Element "population" [] "" people) = people.
Proof.
  intros HF. unfold persons. cbn [children]. apply filter_all.
  eapply Forall2_right; [exact HF|].
  intros a p _ Hp. eapply person_shape_tag. exact Hp.
Qed.

Lemma person_at_shape people a :
  Forall2 shape (range num_agents) people ->
  0 <= a < num_agents ->
  exists p, person_at (Element "population" [] "" people) a = Some p
            /\ shape a p.
Proof.
  intros HF Ha. unfold person_at. rewrite (persons_of_shape people HF).
  eapply Forall2_nth_error; [exact HF|]. apply nth_error_range. exact Ha.
Qed.

Lemma trip_triples_length a actss :
  Forall2
    (fun trip_num acts =>
       exists trip_time,
         departure start_time time_per_trip trips_per_agent a trip_num trip_time
         /\ acts = trip_triple trips_per_agent trip_num trip_time)
    (range trips_per_agent) actss ->
  Forall (fun l => List.length l = 3%nat) actss.
Proof.
  intros HF. eapply Forall2_right; [exact HF|].
  intros t acts _ (tt & _ & ->). reflexivity.
Qed.

(** Every trip of every agent is in the population, at its place in the
    plan of its agent, and leaves at one of its departure times. *)
Lemma trip_at_shape people a t :
  Forall2 shape (range num_agents) people ->
  0 <= a < num_agents -> 0 <= t < trips_per_agent ->
  exists trip_time,
    departure start_time time_per_trip trips_per_agent a t trip_time
    /\ trip_at (Element "population" [] "" people) a t
       = Some (first_act_of t trip_time, leg_of t,
               final_act_of trips_per_agent t trip_time).
Proof.
  intros HF Ha Ht.
  destruct (person_at_shape people a HF Ha) as (p & Hp & (actss & Hacts & ->)).
  destruct (Forall2_nth_error _ _ _ _ _ Hacts (nth_error_range _ _ Ht))
    as (acts & Hnth & (tt & Hdep & ->)).
  exists tt. split; [exact Hdep|].
  unfold trip_at, plan_at. rewrite Hp. cbn [opt_bind plans children filter
    has_tag tag String.eqb Ascii.eqb Bool.eqb hd_error].
  unfold trip_in. cbn [children].
  destruct (nth_error_concat_triples actss (Z.to_nat t) _ _ _
              (trip_triples_length a actss Hacts) Hnth) as (H0 & H1 & H2).
  replace (Z.to_nat (3 * t)) with (3 * Z.to_nat t)%nat by lia.
  rewrite H0, H1, H2. reflexivity.
Qed.

End Access.

(* ===================================================================== *)
(** ** Arithmetic of dates and durations *)
(* ===================================================================== *)

Ltac unfold_time :=
  unfold datetime_add, datetime_sub, td_normalize, td_total_us, dt_instant_us,
    dt_seconds_of_day, us_per_second, seconds_per_day in *;
  cbn [td_days td_seconds td_microseconds dt_ordinal dt_hour dt_minute
       dt_second dt_microsecond] in *.

Lemma td_normalize_total (d s us : Z) :
  td_total_us (td_normalize d s us) = (d * 86400 + s) * 1000000 + us.
Proof. unfold_time. Z.to_euclidean_division_equations. lia. Qed.

Lemma td_normalize_seconds (d s us : Z) :
  td_seconds (td_normalize d s us)
  = (((d * 86400 + s) * 1000000 + us) / 1000000) mod 86400.
Proof. unfold_time. Z.to_euclidean_division_equations. lia. Qed.

Lemma datetime_add_instant (dt : datetime) (d : timedelta) :
  dt_instant_us (datetime_add dt d) = dt_instant_us dt + td_total_us d.
Proof. unfold_time. Z.to_euclidean_division_equations. lia. Qed.

(** The text of a sum depends on its instant alone. *)
Lemma strftime_datetime_add (dt : datetime) (d : timedelta) :
  strftime_HMS (datetime_add dt d)
  = wall_clock (dt_instant_us dt + td_total_us d).
Proof.
  unfold strftime_HMS, wall_clock.
  assert (Hs : td_seconds
                 (td_normalize (dt_ordinal dt + td_days d)
                    (dt_seconds_of_day dt + td_seconds d)
                    (dt_microsecond dt + td_microseconds d))
               = ((dt_instant_us dt + td_total_us d) / us_per_second)
                   mod seconds_per_day).
  { rewrite td_normalize_seconds. unfold_time. f_equal. f_equal. lia. }
  assert (Hmod : forall x, (x mod 3600) mod 60 = x mod 60).
  { intros x. Z.to_euclidean_division_equations. lia. }
  unfold datetime_add.
  cbn [dt_hour dt_minute dt_second]. rewrite Hs, Hmod. reflexivity.
Qed.

Lemma timedelta_seconds_total (n : Z) (d : timedelta) :
  timedelta_seconds n = Ok d -> td_total_us d = n * 1000000.
Proof.
  unfold timedelta_seconds, td_checked.
  destruct (_ <? _); [discriminate|]. intros Heq. injection Heq as <-.
  rewrite td_normalize_total. lia.
Qed.

Lemma add_variation_instant (trip_time jittered : datetime) (v : Z) :
  add_variation trip_time v = Ok jittered ->
  dt_instant_us jittered = dt_instant_us trip_time + v * 1000000.
Proof.
  unfold add_variation. intros Hadd.
  apply result_bind_ok in Hadd as (d & Hd & Heq). injection Heq as <-.
  rewrite datetime_add_instant, (timedelta_seconds_total _ _ Hd). reflexivity.
Qed.

Lemma datetime_add_shift (k : Z) (dt : datetime) (d : timedelta) :
  datetime_add (shift_days k dt) d = shift_days k (datetime_add dt d).
Proof.
  unfold shift_days, datetime_add, td_normalize, dt_seconds_of_day.
  cbn [td_days td_seconds td_microseconds dt_ordinal dt_hour dt_minute
       dt_second dt_microsecond].
  f_equal. lia.
Qed.

Lemma datetime_sub_shift (k : Z) (a b : datetime) :
  datetime_sub (shift_days k a) (shift_days k b) = datetime_sub a b.
Proof.
  unfold shift_days, datetime_sub, dt_seconds_of_day.
  cbn [dt_ordinal dt_hour dt_minute dt_second dt_microsecond].
  f_equal. lia.
Qed.

Lemma strftime_shift (k : Z) (dt : datetime) :
  strftime_HMS (shift_days k dt) = strftime_HMS dt.
Proof. reflexivity. Qed.

(* ===================================================================== *)
(** ** Counting and tagging the children of a plan *)
(* ===================================================================== *)

Lemma triples_legs trips_per_agent actss :
  Forall (is_trip_triple trips_per_agent) actss ->
  List.length (filter (has_tag "leg") (List.concat actss)) = List.length actss.
Proof.
  induction 1 as [|acts actss (t & tt & ->) _ IH]; [reflexivity|].
  cbn [List.concat trip_triple app filter]. cbn. f_equal. exact IH.
Qed.

Lemma triples_tags trips_per_agent actss :
  Forall (is_trip_triple trips_per_agent) actss ->
  map tag (List.concat actss)
  = List.concat (map (fun _ => trip_tags) actss).
Proof.
  induction 1 as [|acts actss (t & tt & ->) _ IH]; [reflexivity|].
  cbn [List.concat trip_triple app map]. rewrite IH. reflexivity.
Qed.

Lemma concat_const_tags {A : Type} (l : list A) :
  List.concat (map (fun _ => trip_tags) l) = repeat_trip_tags (List.length l).
Proof.
  unfold repeat_trip_tags. induction l as [|x l IH]; [reflexivity|].
  cbn [map List.length repeat List.concat]. rewrite IH. reflexivity.
Qed.

Lemma repeat_trip_tags_alternating (n : nat) :
  alternating (repeat_trip_tags n) = true <-> n = 1%nat.
Proof.
  destruct n as [|[|n]]; cbn; split; intros Hn; try reflexivity;
    try discriminate; lia.
Qed.

Lemma repeat_trip_tags_no_adjacent_legs (n : nat) :
  no_adjacent_legs (repeat_trip_tags n) = true.
Proof.
  induction n as [|n IH]; [reflexivity|].
  unfold repeat_trip_tags in *. cbn [repeat List.concat trip_tags app].
  destruct (List.concat (repeat trip_tags n)) as [|b rest] eqn:E;
    [reflexivity|].
  cbn [no_adjacent_legs] in *. cbn. exact IH.
Qed.

Lemma last_app_nonempty {A : Type} (l1 l2 : list A) (d : A) :
  l2 <> [] -> last (l1 ++ l2) d = last l2 d.
Proof.
  intros Hne. induction l1 as [|x l1 IH]; [reflexivity|].
  cbn [app]. destruct (l1 ++ l2)%list eqn:E.
  - apply app_eq_nil in E as [_ E]. contradiction.
  - cbn [last]. exact IH.
Qed.

Lemma repeat_trip_tags_ends (n : nat) :
  (0 < n)%nat ->
  hd_error (repeat_trip_tags n) = Some "activity"
  /\ last (repeat_trip_tags n) "" = "activity".
Proof.
  intros Hn. split.
  - destruct n; [lia | reflexivity].
  - induction n as [|n IH]; [lia|].
    unfold repeat_trip_tags in *. cbn [repeat List.concat trip_tags].
    destruct n as [|n]; [reflexivity|].
    rewrite last_app_nonempty.
    + apply IH. lia.
    + discriminate.
Qed.

(* ===================================================================== *)
(** ** Sample runs *)
(* ===================================================================== *)

Lemma sample_run :
  population_tree sample_clock 2 2 6 9 sample_draws
  = Ok (sample_population, []).
Proof. vm_compute. reflexivity. Qed.

Lemma quiet_run :
  population_tree sample_clock 2 2 6 9 tt = Ok (quiet_population, tt).
Proof. vm_compute. reflexivity. Qed.

Section Claims.

Context {G : Type} `{RandomSource G}.

Variables (clk : clock) (num_agents trips_per_agent start_hour end_hour : Z).
Variables (g g' : G) (pop : element).

Hypothesis Hrun :
  population_tree clk num_agents trips_per_agent start_hour end_hour g
  = Ok (pop, g').

(** The trips of a run: every agent and trip index has its three children
    in the plan of its agent, built from one of its departure times. *)
Lemma run_trips :
  exists start_time time_per_trip,
    schedule clk num_agents trips_per_agent start_hour end_hour
      start_time time_per_trip
    /\ forall a t,
        0 <= a < num_agents -> 0 <= t < trips_per_agent ->
        exists trip_time,
          departure start_time time_per_trip trips_per_agent a t trip_time
          /\ trip_at pop a t
             = Some (first_act_of t trip_time, leg_of t,
                     final_act_of trips_per_agent t trip_time).
Proof.
  destruct (population_tree_ok _ _ _ _ _ _ _ _ Hrun)
    as (st & tpt & people & Hsched & Hpeople & ->).
  exists st, tpt. split; [exact Hsched|].
  intros a t Ha Ht. eapply trip_at_shape; eassumption.
Qed.

End Claims.

Lemma person_shape_triples {G : Type} `{RandomSource G}
  st tpt trips_per_agent a actss :
  Forall2
    (fun trip_num acts =>
       exists trip_time,
         departure st tpt trips_per_agent a trip_num trip_time
         /\ acts = trip_triple trips_per_agent trip_num trip_time)
    (range trips_per_agent) actss ->
  Forall (is_trip_triple trips_per_agent) actss.
Proof.
  intros HF. eapply Forall2_right; [exact HF|].
  intros t acts _ (tt & _ & ->). exists t, tt. reflexivity.
Qed.

(* ===================================================================== *)
(** ** The time window *)
(* ===================================================================== *)

Lemma replace_hour_ok (dt : datetime) (h : Z) :
  0 <= h <= 23 -> replace_hour dt h = Ok (mk_datetime (dt_ordinal dt) h 0 0 0).
Proof.
  intros Hh. unfold replace_hour, fits_c_int.
  destruct (Z.leb_spec (-2147483648) h); [|lia].
  destruct (Z.leb_spec h 2147483647); [|lia].
  destruct (Z.leb_spec 0 h); [|lia]. destruct (Z.leb_spec h 23); [|lia].
  reflexivity.
Qed.

Lemma next_day (d h : Z) :
  0 <= h <= 23 ->
  datetime_add (mk_datetime d h 0 0 0) (mk_timedelta 1 0 0)
  = mk_datetime (d + 1) h 0 0 0.
Proof.
  intros Hh. unfold_time. f_equal; Z.to_euclidean_division_equations; lia.
Qed.

Lemma window_bounds_ok (clk : clock) (start_hour end_hour : Z) :
  0 <= start_hour <= 23 -> 0 <= end_hour <= 23 ->
  window_bounds clk start_hour end_hour
  = Ok (mk_datetime (dt_ordinal (now_start clk)) start_hour 0 0 0,
        mk_datetime
          (dt_ordinal (now_end clk) + if end_hour <=? start_hour then 1 else 0)
          end_hour 0 0 0).
Proof.
  intros Hs He. unfold window_bounds.
  rewrite (replace_hour_ok _ _ Hs), (replace_hour_ok _ _ He).
  cbn [result_bind]. destruct (end_hour <=? start_hour).
  - change (timedelta_days 1) with (Ok (mk_timedelta 1 0 0)).
    cbn [result_bind]. rewrite (next_day _ _ He). reflexivity.
  - cbn [result_bind]. rewrite Z.add_0_r. reflexivity.
Qed.

Lemma window_seconds_range (start_hour end_hour : Z) :
  0 <= start_hour <= 23 -> 0 <= end_hour <= 23 ->
  exists h, 1 <= h <= 24 /\ window_seconds start_hour end_hour = h * 3600.
Proof.
  intros Hs He. unfold window_seconds.
  destruct (Z.leb_spec end_hour start_hour); eexists; (split; [|reflexivity]);
    lia.
Qed.

(** The window of a clock read twice on one day lasts [window_seconds]. *)
Lemma window_total_us (clk : clock) (start_hour end_hour : Z) :
  same_day clk ->
  td_total_us
    (datetime_sub
       (mk_datetime
          (dt_ordinal (now_end clk) + if end_hour <=? start_hour then 1 else 0)
          end_hour 0 0 0)
       (mk_datetime (dt_ordinal (now_start clk)) start_hour 0 0 0))
  = window_seconds start_hour end_hour * 1000000.
Proof.
  unfold same_day. intros ->. unfold datetime_sub.
  rewrite td_normalize_total. unfold dt_seconds_of_day, window_seconds.
  cbn [dt_ordinal dt_hour dt_minute dt_second dt_microsecond].
  destruct (end_hour <=? start_hour); lia.
Qed.

(** A duration of 1 to 24 whole hours has its seconds as an exact float. *)
Lemma total_seconds_hours (d : timedelta) (h : Z) :
  1 <= h <= 24 ->
  td_total_us d = h * 3600 * 1000000 ->
  exists tw,
    total_seconds d = Ok tw
    /\ Float.of_int (h * 3600) = Ok tw
    /\ Float.to_int tw = Ok (h * 3600).
Proof.
  intros Hh Hd. unfold total_seconds. rewrite Hd.
  assert (Hcases : In h (map Z.of_nat (seq 1 24))).
  { apply in_map_iff. exists (Z.to_nat h). split; [lia|]. apply in_seq. lia. }
  cbn in Hcases.
  repeat (destruct Hcases as [<-|Hcases];
          [eexists; split; [vm_compute; reflexivity|];
           split; vm_compute; reflexivity|]).
  contradiction.
Qed.

(** When midnight falls between the two readings of the clock, the window
    is 24 hours longer. *)
Remark window_across_midnight (clk : clock) (start_hour end_hour : Z) :
  0 <= start_hour <= 23 -> 0 <= end_hour <= 23 ->
  dt_ordinal (now_end clk) = dt_ordinal (now_start clk) + 1 ->
  exists start_time end_time,
    window_bounds clk start_hour end_hour = Ok (start_time, end_time)
    /\ td_total_us (datetime_sub end_time start_time)
       = (window_seconds start_hour end_hour + 86400) * 1000000.
Proof.
  intros Hs He Hday. do 2 eexists.
  split; [apply window_bounds_ok; assumption|].
  unfold datetime_sub. rewrite td_normalize_total, Hday.
  unfold dt_seconds_of_day, window_seconds.
  cbn [dt_ordinal dt_hour dt_minute dt_second dt_microsecond].
  destruct (end_hour <=? start_hour); lia.
Qed.

Lemma schedule_window (clk : clock) (start_hour end_hour : Z)
  (start_time end_time : datetime) :
  0 <= start_hour <= 23 -> 0 <= end_hour <= 23 ->
  same_day clk ->
  window_bounds clk start_hour end_hour = Ok (start_time, end_time) ->
  start_time = shift_days (dt_ordinal (now_start clk))
                 (mk_datetime 0 start_hour 0 0 0)
  /\ time_window_of start_time end_time
     = Float.of_int (window_seconds start_hour end_hour).
Proof.
  intros Hs He Hday Hb.
  rewrite window_bounds_ok in Hb by assumption. injection Hb as <- <-.
  split; [reflexivity|].
  destruct (window_seconds_range start_hour end_hour Hs He) as (h & Hh & Hw).
  pose proof (window_total_us clk start_hour end_hour Hday) as Hus.
  rewrite Hw in *.
  destruct (total_seconds_hours _ h Hh Hus) as (tw & Htw & Hof & _).
  unfold time_window_of. rewrite Htw, Hof. reflexivity.
Qed.

(* ===================================================================== *)
(** ** Departure times *)
(* ===================================================================== *)

Lemma nominal_time_ok start_time time_per_trip trips_per_agent a t nominal :
  nominal_time start_time time_per_trip trips_per_agent a t = Ok nominal ->
  exists slot d,
    Float.of_int (a * trips_per_agent + t) = Ok slot
    /\ timedelta_seconds_float (Float.mul slot time_per_trip) = Ok d
    /\ nominal = datetime_add start_time d.
Proof.
  unfold nominal_time. intros Hnom.
  apply result_bind_ok in Hnom as (slot & Hslot & Hnom).
  apply result_bind_ok in Hnom as (d & Hd & Hnom).
  injection Hnom as <-. exists slot, d. repeat split; assumption.
Qed.

Lemma add_variation_text (trip_time jittered : datetime) (v : Z) :
  add_variation trip_time v = Ok jittered ->
  strftime_HMS jittered = wall_clock (dt_instant_us jittered).
Proof.
  unfold add_variation. intros Hadd.
  apply result_bind_ok in Hadd as (d & Hd & Heq). injection Heq as <-.
  rewrite strftime_datetime_add, datetime_add_instant. reflexivity.
Qed.

(* ===================================================================== *)
(** ** The day of the run *)
(* ===================================================================== *)

Lemma nominal_time_shift k start_time time_per_trip trips_per_agent a t :
  nominal_time (shift_days k start_time) time_per_trip trips_per_agent a t
  = result_map (shift_days k)
      (nominal_time start_time time_per_trip trips_per_agent a t).
Proof.
  unfold nominal_time.
  destruct (Float.of_int _) as [slot|e]; [|reflexivity]. cbn [result_bind].
  destruct (timedelta_seconds_float _) as [d|e]; [|reflexivity].
  cbn [result_bind result_map]. rewrite datetime_add_shift. reflexivity.
Qed.

Lemma add_variation_shift k trip_time v :
  add_variation (shift_days k trip_time) v
  = result_map (shift_days k) (add_variation trip_time v).
Proof.
  unfold add_variation.
  destruct (timedelta_seconds v) as [d|e]; [|reflexivity].
  cbn [result_bind result_map]. rewrite datetime_add_shift. reflexivity.
Qed.

Lemma trip_children_shift k trips_per_agent t trip_time :
  trip_children trips_per_agent t (shift_days k trip_time)
  = trip_children trips_per_agent t trip_time.
Proof.
  rewrite !trip_children_eq. unfold first_act_of, final_act_of.
  rewrite datetime_add_shift, !strftime_shift. reflexivity.
Qed.

Lemma window_bounds_shift (clk clk' : clock) (start_hour end_hour : Z) :
  same_day clk -> same_day clk' ->
  window_bounds clk' start_hour end_hour
  = result_map
      (fun b =>
         (shift_days (dt_ordinal (now_start clk')
                      - dt_ordinal (now_start clk)) (fst b),
          shift_days (dt_ordinal (now_start clk')
                      - dt_ordinal (now_start clk)) (snd b)))
      (window_bounds clk start_hour end_hour).
Proof.
  unfold same_day. intros Hd Hd'.
  unfold window_bounds, replace_hour. rewrite <- Hd, <- Hd'.
  set (k := dt_ordinal (now_start clk') - dt_ordinal (now_start clk)).
  assert (Hk : forall h,
             mk_datetime (dt_ordinal (now_start clk')) h 0 0 0
             = shift_days k (mk_datetime (dt_ordinal (now_start clk)) h 0 0 0)).
  { intros h. unfold shift_days, k. cbn. f_equal. lia. }
  destruct (fits_c_int start_hour); [|reflexivity]. cbn [negb].
  destruct ((0 <=? start_hour) && (start_hour <=? 23)); [|reflexivity].
  cbn [result_bind].
  destruct (fits_c_int end_hour); [|reflexivity]. cbn [negb].
  destruct ((0 <=? end_hour) && (end_hour <=? 23)); [|reflexivity].
  cbn [result_bind]. rewrite !Hk.
  destruct (end_hour <=? start_hour); cbn [result_bind]; [|reflexivity].
  destruct (timedelta_days 1) as [d|e]; [|reflexivity].
  cbn [result_bind result_map fst snd]. rewrite datetime_add_shift.
  reflexivity.
Qed.

Section Day.

Context {G : Type} `{RandomSource G}.

Lemma trip_body_shift k start_time time_per_trip trips_per_agent a t plan g :
  trip_body (shift_days k start_time) time_per_trip trips_per_agent a t plan g
  = trip_body start_time time_per_trip trips_per_agent a t plan g.
Proof.
  unfold trip_body, bind, lift. rewrite nominal_time_shift.
  destruct (nominal_time _ _ _ _ _) as [nominal|e]; [|reflexivity].
  cbn [result_map].
  destruct (max_variation_of _) as [mv|e]; [|reflexivity].
  destruct (randint _ _ g) as [[v g1]|e]; [|reflexivity].
  rewrite add_variation_shift.
  destruct (add_variation nominal v) as [tt|e]; [|reflexivity].
  cbn [result_map]. rewrite trip_children_shift. reflexivity.
Qed.

Lemma agent_body_shift k start_time time_per_trip trips_per_agent a pop g :
  agent_body (shift_days k start_time) time_per_trip trips_per_agent a pop g
  = agent_body start_time time_per_trip trips_per_agent a pop g.
Proof.
  unfold agent_body, bind.
  rewrite (for_each_ext _
             (trip_body start_time time_per_trip trips_per_agent a));
    [reflexivity|].
  intros t plan g0 _. apply trip_body_shift.
Qed.

(** The tree does not depend on the day on which the clock is read. *)
Lemma population_tree_any_day (clk clk' : clock)
  (num_agents trips_per_agent start_hour end_hour : Z) (g : G) :
  same_day clk -> same_day clk' ->
  population_tree clk' num_agents trips_per_agent start_hour end_hour g
  = population_tree clk num_agents trips_per_agent start_hour end_hour g.
Proof.
  intros Hd Hd'. unfold population_tree, bind, lift.
  rewrite (window_bounds_shift clk clk' _ _ Hd Hd').
  destruct (window_bounds clk start_hour end_hour) as [[st et]|e];
    [|reflexivity].
  cbn [result_map fst snd]. unfold time_window_of.
  rewrite datetime_sub_shift.
  destruct (total_seconds _) as [tw|e]; [|reflexivity].
  destruct (time_per_trip_of _ _) as [tpt|e]; [|reflexivity].
  apply for_each_ext. intros a pop g0 _. apply agent_body_shift.
Qed.

End Day.

Section TwoGenerators.

Context {G1 G2 : Type} `{RandomSource G1} `{RandomSource G2}.

Variable R : G1 -> G2 -> Prop.

Hypothesis HR : same_draws R.

Lemma for_each_agree {A B : Type} (body1 : A -> B -> M G1 B)
  (body2 : A -> B -> M G2 B) (xs : list A) :
  (forall x acc g1 g2, R g1 g2 -> agree R (body1 x acc g1) (body2 x acc g2)) ->
  forall acc g1 g2,
    R g1 g2 -> agree R (for_each xs body1 acc g1) (for_each xs body2 acc g2).
Proof.
  intros Hbody. induction xs as [|x xs IH]; intros acc g1 g2 Hg.
  - cbn. split; [reflexivity | exact Hg].
  - cbn [for_each]. unfold bind.
    pose proof (Hbody x acc g1 g2 Hg) as Hx. unfold agree in Hx.
    destruct (body1 x acc g1) as [[acc1 g1']|e1],
             (body2 x acc g2) as [[acc2 g2']|e2]; try contradiction.
    + destruct Hx as [-> Hg']. apply IH. exact Hg'.
    + exact Hx.
Qed.

Lemma trip_body_agree start_time time_per_trip trips_per_agent a t plan g1 g2 :
  R g1 g2 ->
  agree R
    (trip_body start_time time_per_trip trips_per_agent a t plan g1)
    (trip_body start_time time_per_trip trips_per_agent a t plan g2).
Proof.
  intros Hg. unfold trip_body, bind, lift, randint.
  destruct (nominal_time _ _ _ _ _) as [nominal|e]; [|reflexivity].
  destruct (max_variation_of _) as [mv|e]; [|reflexivity].
  destruct (- mv <=? mv); [|reflexivity].
  destruct (HR (- mv) mv g1 g2 Hg) as [Hv Hg'].
  destruct (draw (- mv) mv g1) as [v1 g1'], (draw (- mv) mv g2) as [v2 g2'].
  cbn [fst snd] in Hv, Hg'. subst v2.
  destruct (add_variation nominal v1) as [tt|e]; [|reflexivity].
  destruct (trip_children _ _ _) as [acts|e]; [|reflexivity].
  cbn. split; [reflexivity | exact Hg'].
Qed.

Lemma agent_body_agree start_time time_per_trip trips_per_agent a pop g1 g2 :
  R g1 g2 ->
  agree R
    (agent_body start_time time_per_trip trips_per_agent a pop g1)
    (agent_body start_time time_per_trip trips_per_agent a pop g2).
Proof.
  intros Hg. unfold agent_body, bind.
  pose proof (for_each_agree
                (trip_body start_time time_per_trip trips_per_agent a)
                (trip_body start_time time_per_trip trips_per_agent a)
                (range trips_per_agent)
                (fun t plan g1 g2 Hg =>
                   trip_body_agree _ _ _ a t plan g1 g2 Hg)
                plan_frame g1 g2 Hg) as Hplan.
  unfold agree in Hplan.
  destruct (for_each _ _ _ g1) as [[plan1 g1']|e1],
           (for_each _ _ _ g2) as [[plan2 g2']|e2]; try contradiction.
  - destruct Hplan as [-> Hg']. cbn. split; [reflexivity | exact Hg'].
  - exact Hplan.
Qed.

(** The tree depends on the generator through the integers it returns. *)
Lemma population_tree_agree (clk : clock)
  (num_agents trips_per_agent start_hour end_hour : Z) g1 g2 :
  R g1 g2 ->
  agree R
    (population_tree clk num_agents trips_per_agent start_hour end_hour g1)
    (population_tree clk num_agents trips_per_agent start_hour end_hour g2).
Proof.
  intros Hg. unfold population_tree, bind, lift.
  destruct (window_bounds clk start_hour end_hour) as [[st et]|e];
    [|reflexivity].
  destruct (time_window_of st et) as [tw|e]; [|reflexivity].
  destruct (time_per_trip_of _ _) as [tpt|e]; [|reflexivity].
  apply for_each_agree; [|exact Hg].
  intros a pop g1' g2' Hg'. apply agent_body_agree. exact Hg'.
Qed.

End TwoGenerators.

(* ===================================================================== *)
(** ** The text of a departure time *)
(* ===================================================================== *)

Lemma Forall2_in_right {A B : Type} (R : A -> B -> Prop) xs ys y :
  Forall2 R xs ys -> In y ys -> exists x, In x xs /\ R x y.
Proof.
  induction 1 as [|x0 y0 xs ys Hxy _ IH]; intros Hin; [contradiction|].
  destruct Hin as [<-|Hin].
  - exists x0. split; [left; reflexivity | exact Hxy].
  - destruct (IH Hin) as (x & Hx & HR). exists x. split; [right|]; assumption.
Qed.

Lemma pad2_length (n : Z) : 0 <= n < 100 -> String.length (pad2 n) = 2%nat.
Proof.
  intros Hn.
  assert (Hall : forallb (fun k => Nat.eqb (String.length (pad2 k)) 2)
                   (range 100) = true) by (vm_compute; reflexivity).
  rewrite forallb_forall in Hall.
  apply Nat.eqb_eq, Hall, in_range. exact Hn.
Qed.

Lemma string_length_app (s1 s2 : string) :
  String.length (s1 ++ s2) = (String.length s1 + String.length s2)%nat.
Proof. induction s1 as [|c s1 IH]; cbn; [reflexivity | rewrite IH; reflexivity]. Qed.

Lemma wall_clock_length (u : Z) : String.length (wall_clock u) = 8%nat.
Proof.
  unfold wall_clock. rewrite !string_length_app.
  rewrite !pad2_length; [reflexivity | | |];
    unfold us_per_second, seconds_per_day;
    Z.to_euclidean_division_equations; lia.
Qed.

(* ===================================================================== *)
(** ** Magnitudes of binary64 floats *)
(* ===================================================================== *)

Lemma fexp_eq (e : Z) : fexp Float.prec Float.emax e = Z.max (e - 53) (-1074).
Proof. reflexivity. Qed.

Lemma digits2_pos_bounds (p : positive) :
  2 ^ (Zpos (digits2_pos p) - 1) <= Zpos p < 2 ^ Zpos (digits2_pos p).
Proof.
  induction p as [p IH|p IH|]; cbn [digits2_pos].
  - rewrite Pos2Z.inj_succ.
    replace (Z.succ (Zpos (digits2_pos p)) - 1) with (Z.succ (Zpos (digits2_pos p) - 1)) by lia.
    rewrite !Z.pow_succ_r by lia. lia.
  - rewrite Pos2Z.inj_succ.
    replace (Z.succ (Zpos (digits2_pos p)) - 1) with (Z.succ (Zpos (digits2_pos p) - 1)) by lia.
    rewrite !Z.pow_succ_r by lia. lia.
  - cbn. lia.
Qed.

Lemma Zdigits2_bounds (m : Z) :
  0 < m -> 2 ^ (Zdigits2 m - 1) <= m < 2 ^ Zdigits2 m.
Proof.
  destruct m as [|p|p]; try lia. intros _. apply digits2_pos_bounds.
Qed.

Lemma Zdigits2_pos (m : Z) : 0 < m -> 0 < Zdigits2 m.
Proof. destruct m; cbn; lia. Qed.

Lemma Zdigits2_nonneg (m : Z) : 0 <= Zdigits2 m.
Proof. destruct m; cbn; lia. Qed.

Lemma Zdigits2_le (m k : Z) : 0 < m -> m < 2 ^ k -> Zdigits2 m <= k.
Proof.
  intros Hm Hk. destruct (Z_le_gt_dec (Zdigits2 m) k) as [|Hgt]; [assumption|].
  exfalso. pose proof (Zdigits2_bounds m Hm) as [Hlo _].
  destruct (Z_lt_le_dec k 0) as [Hneg|Hnn].
  - rewrite Z.pow_neg_r in Hk by assumption. lia.
  - assert (2 ^ k <= 2 ^ (Zdigits2 m - 1)) by (apply Z.pow_le_mono_r; lia). lia.
Qed.

Lemma Zdigits2_ge (m k : Z) : 0 < m -> 2 ^ (k - 1) <= m -> k <= Zdigits2 m.
Proof.
  intros Hm Hk. destruct (Z_le_gt_dec k (Zdigits2 m)) as [|Hgt]; [assumption|].
  exfalso. pose proof (Zdigits2_bounds m Hm) as [_ Hhi].
  pose proof (Zdigits2_pos m Hm).
  assert (2 ^ Zdigits2 m <= 2 ^ (k - 1)) by (apply Z.pow_le_mono_r; lia). lia.
Qed.

(** digits of a shifted mantissa *)
Lemma Zdigits2_shiftr (m n : Z) :
  0 < m -> 0 <= n < Zdigits2 m ->
  0 < m / 2 ^ n /\ Zdigits2 (m / 2 ^ n) = Zdigits2 m - n.
Proof.
  intros Hm Hn. pose proof (Zdigits2_bounds m Hm) as [Hlo Hhi].
  assert (Hp : 0 < 2 ^ n) by (apply Z.pow_pos_nonneg; lia).
  assert (Hlo' : 2 ^ (Zdigits2 m - n - 1) <= m / 2 ^ n).
  { apply Z.div_le_lower_bound; [assumption|].
    rewrite <- Z.pow_add_r by lia.
    replace (n + (Zdigits2 m - n - 1)) with (Zdigits2 m - 1) by lia. exact Hlo. }
  assert (Hhi' : m / 2 ^ n < 2 ^ (Zdigits2 m - n)).
  { apply Z.div_lt_upper_bound; [assumption|].
    rewrite <- Z.pow_add_r by lia.
    replace (n + (Zdigits2 m - n)) with (Zdigits2 m) by lia. exact Hhi. }
  assert (Hpos : 0 < m / 2 ^ n).
  { assert (0 < 2 ^ (Zdigits2 m - n - 1)) by (apply Z.pow_pos_nonneg; lia). lia. }
  split; [exact Hpos|].
  apply Z.le_antisymm.
  - apply Zdigits2_le; assumption.
  - apply Zdigits2_ge; [assumption|]. exact Hlo'.
Qed.

Lemma shiftr_small (m n : Z) : 0 <= m -> Zdigits2 m <= n -> m / 2 ^ n = 0.
Proof.
  intros Hm Hn. destruct (Z.eq_dec m 0) as [->|Hne]; [apply Z.div_0_l; 
    apply Z.pow_nonzero; [lia| pose proof (Zdigits2_nonneg 0); cbn in *; lia]|].
  apply Z.div_small. split; [lia|].
  pose proof (Zdigits2_bounds m ltac:(lia)) as [_ Hhi].
  assert (2 ^ Zdigits2 m <= 2 ^ n) by (apply Z.pow_le_mono_r; lia). lia.
Qed.

(** shifting a record right *)
Lemma shr_1_m (mrs : shr_record) :
  0 <= shr_m mrs -> shr_m (shr_1 mrs) = shr_m mrs / 2.
Proof.
  destruct mrs as [m r s]. cbn [shr_m]. intros Hm.
  destruct m as [|[p|p|]|p]; cbn [shr_1 shr_m]; try reflexivity; try lia.
  - apply Z.div_unique with 1; lia.
  - apply Z.div_unique with 0; lia.
Qed.

Lemma shr_1_nonneg (mrs : shr_record) : 0 <= shr_m mrs -> 0 <= shr_m (shr_1 mrs).
Proof. intros Hm. rewrite shr_1_m by assumption. apply Z.div_pos; lia. Qed.

Lemma iter_shr_m (p : positive) (mrs : shr_record) :
  0 <= shr_m mrs ->
  shr_m (iter_pos shr_1 p mrs) = shr_m mrs / 2 ^ Zpos p.
Proof.
  revert mrs. induction p as [p IH|p IH|]; intros mrs Hm; cbn [iter_pos].
  - assert (H1 : 0 <= shr_m (shr_1 mrs)) by (apply shr_1_nonneg; assumption).
    assert (H2 : 0 <= shr_m (iter_pos shr_1 p (shr_1 mrs))).
    { rewrite IH by assumption. apply Z.div_pos; [assumption|]. apply Z.pow_pos_nonneg; lia. }
    rewrite IH, IH, shr_1_m by assumption.
    rewrite !Z.div_div by (try apply Z.pow_pos_nonneg; lia).
    f_equal. replace (Zpos p~1) with (1 + Zpos p + Zpos p) by lia.
    rewrite (Z.pow_add_r 2 (1 + Zpos p) (Zpos p)) by lia.
    rewrite (Z.pow_add_r 2 1 (Zpos p)) by lia. lia.
  - assert (H2 : 0 <= shr_m (iter_pos shr_1 p mrs)).
    { rewrite IH by assumption. apply Z.div_pos; [assumption|]. apply Z.pow_pos_nonneg; lia. }
    rewrite IH, IH by assumption.
    rewrite !Z.div_div by (try apply Z.pow_pos_nonneg; lia).
    f_equal. replace (Zpos p~0) with (Zpos p + Zpos p) by lia.
    rewrite (Z.pow_add_r 2 (Zpos p) (Zpos p)) by lia. lia.
  - rewrite shr_1_m by assumption. reflexivity.
Qed.

Lemma shr_record_of_loc_m (m : Z) (l : location) : shr_m (shr_record_of_loc m l) = m.
Proof. destruct l as [|[]]; reflexivity. Qed.

Lemma shr_fexp_spec (m e : Z) (l : location) :
  0 <= m ->
  let n := Z.max 0 (fexp Float.prec Float.emax (Zdigits2 m + e) - e) in
  shr_m (fst (shr_fexp Float.prec Float.emax m e l)) = m / 2 ^ n
  /\ snd (shr_fexp Float.prec Float.emax m e l) = e + n.
Proof.
  intros Hm n. unfold shr_fexp, shr.
  destruct (fexp Float.prec Float.emax (Zdigits2 m + e) - e) as [|p|p] eqn:E; subst n; cbn [fst snd].
  - rewrite shr_record_of_loc_m. cbn. rewrite Z.div_1_r. split; lia.
  - rewrite iter_shr_m by (rewrite shr_record_of_loc_m; assumption).
    rewrite shr_record_of_loc_m. rewrite Z.max_r by lia. split; reflexivity.
  - rewrite shr_record_of_loc_m. rewrite Z.max_l by lia.
    cbn. rewrite Z.div_1_r. split; lia.
Qed.

Lemma rne_cases (m : Z) (l : location) :
  round_nearest_even m l = m \/ round_nearest_even m l = m + 1.
Proof. destruct l as [|[]]; cbn; try destruct (Z.even m); auto. Qed.

Lemma Zdigits2_succ (m : Z) :
  0 < m -> Zdigits2 m <= Zdigits2 (m + 1) <= Zdigits2 m + 1.
Proof.
  intros Hm. pose proof (Zdigits2_bounds m Hm) as [Hlo Hhi].
  pose proof (Zdigits2_pos m Hm) as Hd. split.
  - apply Zdigits2_ge; lia.
  - apply Zdigits2_le; [lia|]. rewrite Z.pow_add_r by lia. lia.
Qed.

Lemma round_aux_spec (mx ex : Z) (lx : location) :
  0 <= mx ->
  ex <= fexp Float.prec Float.emax (Zdigits2 mx + ex) ->
  Zdigits2 mx + ex < Float.emax ->
  let r := binary_round_aux Float.prec Float.emax false mx ex lx in
  (-1074 < Zdigits2 mx + ex ->
   pos_between (Zdigits2 mx + ex) (Zdigits2 mx + ex + 1) r)
  /\ nonneg_below (Z.max (Zdigits2 mx + ex + 1) (-1073)) r.
Proof.
  intros Hmx Hex HM r. subst r. unfold binary_round_aux.
  set (M := Zdigits2 mx + ex) in *.
  pose proof (shr_fexp_spec mx ex lx Hmx) as [Hm1 He1].
  destruct (shr_fexp Float.prec Float.emax mx ex lx) as [mrs1 e1]. cbn [fst snd] in Hm1, He1.
  fold M in Hm1, He1.
  rewrite Z.max_r in Hm1, He1 by lia.
  set (m2 := round_nearest_even (shr_m mrs1) (loc_of_shr_record mrs1)).
  assert (Hm1nn : 0 <= shr_m mrs1).
  { rewrite Hm1. apply Z.div_pos; [assumption|]. apply Z.pow_pos_nonneg; lia. }
  assert (Hm2 : m2 = shr_m mrs1 \/ m2 = shr_m mrs1 + 1) by apply rne_cases.
  assert (Hm2nn : 0 <= m2) by lia.
  pose proof (shr_fexp_spec m2 e1 loc_Exact Hm2nn) as [Hm3 He2].
  destruct (shr_fexp Float.prec Float.emax m2 e1 loc_Exact) as [mrs2 e2]. cbn [fst snd] in Hm3, He2.
  assert (He1' : e1 = fexp Float.prec Float.emax M) by lia.
  rewrite fexp_eq in *. unfold Float.emax in HM.
  destruct (Z_lt_le_dec (fexp Float.prec Float.emax M - ex) (Zdigits2 mx)) as [Hbig|Hsmall].
  - (* the first shift keeps a positive mantissa *)
    rewrite fexp_eq in Hbig.
    assert (Hmxpos : 0 < mx).
    { destruct (Z.eq_dec mx 0) as [Heq|]; [|lia]. rewrite Heq in Hbig. cbn [Zdigits2] in Hbig. lia. }
    destruct (Zdigits2_shiftr mx (Z.max (M - 53) (-1074) - ex) Hmxpos ltac:(lia))
      as [Hm1pos Hd1].
    rewrite <- Hm1 in Hm1pos, Hd1.
    assert (Hd2 : Zdigits2 (shr_m mrs1) <= Zdigits2 m2 <= Zdigits2 (shr_m mrs1) + 1).
    { destruct Hm2 as [->| ->]; [lia | apply Zdigits2_succ; assumption]. }
    assert (Hm2pos : 0 < m2) by lia.
    assert (Hn2 : Z.max 0 (Z.max (Zdigits2 m2 + e1 - 53) (-1074) - e1) = 0
                  \/ (Z.max 0 (Z.max (Zdigits2 m2 + e1 - 53) (-1074) - e1) = 1
                      /\ Zdigits2 m2 = Zdigits2 (shr_m mrs1) + 1)) by lia.
    destruct Hn2 as [Hn2|[Hn2 Hd2']]; rewrite Hn2 in Hm3, He2.
    + rewrite Z.pow_0_r, Z.div_1_r in Hm3. rewrite Hm3.
      destruct m2 as [|p2|p2]; try lia. cbn [Zdigits2] in *.
      destruct (Z.leb_spec e2 (Float.emax - Float.prec)) as [_|Hbad]; [|unfold Float.emax, Float.prec in Hbad; lia].
      cbn [pos_between nonneg_below]. rewrite ?fexp_eq. unfold M in *. lia.
    + destruct (Zdigits2_shiftr m2 1 Hm2pos ltac:(pose proof (Zdigits2_pos _ Hm1pos); lia))
        as [Hm3pos Hd3].
      rewrite <- Hm3 in Hm3pos, Hd3.
      destruct (shr_m mrs2) as [|p3|p3]; try lia. cbn [Zdigits2] in *.
      destruct (Z.leb_spec e2 (Float.emax - Float.prec)) as [_|Hbad]; [|unfold Float.emax, Float.prec in Hbad; lia].
      cbn [pos_between nonneg_below]. rewrite ?fexp_eq. unfold M in *. lia.
  - (* the first shift leaves nothing: the result is zero or the least float *)
    rewrite fexp_eq in Hsmall.
    assert (Hm1z : shr_m mrs1 = 0).
    { rewrite Hm1. apply shiftr_small; [assumption | lia]. }
    assert (HMlow : M <= -1074) by (unfold M in *; lia).
    split; [lia|].
    rewrite Hm1z in Hm2. destruct Hm2 as [->| ->].
    + cbn [Zdigits2] in Hm3. rewrite Z.div_0_l in Hm3
        by (apply Z.pow_nonzero; lia). rewrite Hm3. exact I.
    + change (Zdigits2 (0 + 1)) with 1 in Hm3, He2.
      replace (Z.max 0 (Z.max (1 + e1 - 53) (-1074) - e1)) with 0 in Hm3, He2 by lia.
      change (0 + 1) with 1 in Hm3.
      rewrite Z.pow_0_r, Z.div_1_r in Hm3. rewrite Hm3.
      destruct (Z.leb_spec e2 (Float.emax - Float.prec)) as [_|Hbad]; [|unfold Float.emax, Float.prec in Hbad; lia].
      cbn [nonneg_below digits2_pos]. rewrite ?fexp_eq. lia.
Qed.

Lemma nonneg_below_mono (a b : Z) (x : spec_float) :
  a <= b -> nonneg_below a x -> nonneg_below b x.
Proof. destruct x as [[]| | |[] m e]; cbn; try tauto. lia. Qed.

(** *** Conversion of integers *)

Lemma digits2_pos_iter_xO (m d : positive) :
  Zpos (digits2_pos (Pos.iter xO m d)) = Zpos (digits2_pos m) + Zpos d.
Proof.
  induction d as [|d IH] using Pos.peano_ind.
  - cbn [Pos.iter digits2_pos]. lia.
  - rewrite Pos.iter_succ. cbn [digits2_pos]. lia.
Qed.

Lemma binary_round_spec (mx : positive) (ex : Z) :
  Zpos (digits2_pos mx) + ex < Float.emax ->
  let r := binary_round Float.prec Float.emax false mx ex in
  (-1074 < Zpos (digits2_pos mx) + ex ->
   pos_between (Zpos (digits2_pos mx) + ex) (Zpos (digits2_pos mx) + ex + 1) r)
  /\ nonneg_below (Z.max (Zpos (digits2_pos mx) + ex + 1) (-1073)) r.
Proof.
  intros HM r. subst r. unfold binary_round, shl_align.
  set (M := Zpos (digits2_pos mx) + ex) in *.
  destruct (fexp Float.prec Float.emax M - ex) as [|d|d] eqn:Hd.
  - apply (round_aux_spec (Zpos mx) ex loc_Exact); cbn [Zdigits2]; fold M; lia.
  - apply (round_aux_spec (Zpos mx) ex loc_Exact); cbn [Zdigits2]; fold M; lia.
  - pose proof (digits2_pos_iter_xO mx d) as Hdig.
    assert (HM' : Zdigits2 (Zpos (Pos.iter xO mx d)) + fexp Float.prec Float.emax M = M).
    { cbn [Zdigits2]. unfold M in *. lia. }
    pose proof (round_aux_spec (Zpos (Pos.iter xO mx d)) (fexp Float.prec Float.emax M) loc_Exact) as Hr.
    rewrite HM' in Hr. apply Hr; lia.
Qed.

(** *** Products *)

Lemma digits2_pos_mul (mx my : positive) :
  Zpos (digits2_pos mx) + Zpos (digits2_pos my) - 1
  <= Zpos (digits2_pos (mx * my))
  <= Zpos (digits2_pos mx) + Zpos (digits2_pos my).
Proof.
  pose proof (digits2_pos_bounds mx) as [Hxl Hxh].
  pose proof (digits2_pos_bounds my) as [Hyl Hyh].
  set (dx := Zpos (digits2_pos mx)) in *. set (dy := Zpos (digits2_pos my)) in *.
  assert (Hdx : 0 < dx) by (unfold dx; lia).
  assert (Hdy : 0 < dy) by (unfold dy; lia).
  change (Zpos (digits2_pos (mx * my))) with (Zdigits2 (Zpos (mx * my))).
  rewrite Pos2Z.inj_mul. split.
  - apply Zdigits2_ge; [lia|].
    replace (dx + dy - 1 - 1) with ((dx - 1) + (dy - 1)) by lia.
    rewrite Z.pow_add_r by lia. apply Z.mul_le_mono_nonneg; try lia;
      apply Z.pow_nonneg; lia.
  - apply Zdigits2_le; [lia|]. rewrite Z.pow_add_r by lia.
    apply Z.mul_lt_mono_nonneg; lia.
Qed.

Lemma mul_nonneg_below (a b : Z) (x y : spec_float) :
  nonneg_below a x -> nonneg_below b y -> a + b < Float.emax ->
  nonneg_below (Z.max (a + b + 1) (-1073)) (SFmul Float.prec Float.emax x y).
Proof.
  intros Hx Hy Hab.
  destruct x as [[]| | |[] mx ex]; try contradiction;
    destruct y as [[]| | |[] my ey]; try contradiction; try exact I.
  cbn [nonneg_below] in Hx, Hy. cbn [SFmul xorb].
  destruct Hx as [Hcx Hax], Hy as [Hcy Hay].
  pose proof (digits2_pos_mul mx my) as Hd.
  rewrite fexp_eq in Hcx, Hcy.
  assert (Hpre : ex + ey <= fexp Float.prec Float.emax (Zdigits2 (Zpos (mx * my)) + (ex + ey))).
  { rewrite fexp_eq. cbn [Zdigits2]. lia. }
  assert (HM : Zdigits2 (Zpos (mx * my)) + (ex + ey) < Float.emax).
  { cbn [Zdigits2]. lia. }
  destruct (round_aux_spec (Zpos (mx * my)) (ex + ey) loc_Exact ltac:(lia) Hpre HM)
    as [_ Hr].
  eapply nonneg_below_mono; [|exact Hr]. cbn [Zdigits2]. lia.
Qed.

(** *** Quotients *)

Lemma div_nonneg_below (mx my : positive) (ex ey : Z) :
  Zpos (digits2_pos mx) + ex - (Zpos (digits2_pos my) + ey) + 1 < Float.emax ->
  nonneg_below
    (Z.max (Zpos (digits2_pos mx) + ex - (Zpos (digits2_pos my) + ey) + 2) (-1073))
    (SFdiv Float.prec Float.emax (S754_finite false mx ex) (S754_finite false my ey)).
Proof.
  intros HX. unfold SFdiv, SFdiv_core_binary. cbn [xorb Zdigits2].
  set (dx := Zpos (digits2_pos mx)) in *. set (dy := Zpos (digits2_pos my)) in *.
  set (X := dx + ex - (dy + ey)) in *.
  set (e' := Z.min (fexp Float.prec Float.emax X) (ex - ey)).
  set (s := ex - ey - e').
  assert (Hs : 0 <= s) by (unfold s, e'; lia).
  set (m' := match s with
             | 0 => Zpos mx
             | Zpos _ => Z.shiftl (Zpos mx) s
             | Zneg _ => 0
             end).
  assert (Hm' : m' = Zpos mx * 2 ^ s).
  { unfold m'. destruct s as [|p|p] eqn:Es; [cbn; lia | | lia].
    rewrite Z.shiftl_mul_pow2 by lia. reflexivity. }
  clearbody m'.
  pose proof (digits2_pos_bounds mx) as [Hxl Hxh].
  pose proof (digits2_pos_bounds my) as [Hyl Hyh].
  fold dx in Hxl, Hxh. fold dy in Hyl, Hyh.
  assert (Hdx : 0 < dx) by (unfold dx; lia).
  assert (Hdy : 0 < dy) by (unfold dy; lia).
  assert (Hps : 0 < 2 ^ s) by (apply Z.pow_pos_nonneg; lia).
  assert (Hm'lo : 2 ^ (dx + s - 1) <= m').
  { rewrite Hm'. replace (dx + s - 1) with ((dx - 1) + s) by lia.
    rewrite Z.pow_add_r by lia. apply Z.mul_le_mono_nonneg_r; lia. }
  assert (Hm'hi : m' < 2 ^ (dx + s)).
  { rewrite Hm'. rewrite Z.pow_add_r by lia. apply Z.mul_lt_mono_pos_r; lia. }
  assert (Hq : fst (Z.div_eucl m' (Zpos my)) = m' / Zpos my) by reflexivity.
  destruct (Z.div_eucl m' (Zpos my)) as [q r]. cbn [fst] in Hq.
  assert (Hqnn : 0 <= q).
  { rewrite Hq. apply Z.div_pos; lia. }
  (* the quotient has at most [dx + s - dy + 1] digits *)
  assert (Hqhi : 0 < q -> Zdigits2 q <= dx + s - dy + 1).
  { intros Hqpos. apply Zdigits2_le; [assumption|].
    destruct (Z_lt_le_dec (dx + s - dy + 1) 0) as [Hneg|Hnn].
    - exfalso. assert (m' < Zpos my).
      { assert (2 ^ (dx + s) <= 2 ^ (dy - 1)) by (apply Z.pow_le_mono_r; lia). lia. }
      rewrite Z.div_small in Hq by lia. lia.
    - rewrite Hq. apply Z.div_lt_upper_bound; [lia|].
      assert (2 ^ (dx + s) = 2 ^ (dy - 1) * 2 ^ (dx + s - dy + 1)).
      { rewrite <- Z.pow_add_r by lia. f_equal. lia. }
      assert (2 ^ (dy - 1) * 2 ^ (dx + s - dy + 1)
              <= Zpos my * 2 ^ (dx + s - dy + 1)).
      { apply Z.mul_le_mono_nonneg_r; [apply Z.pow_nonneg|]; lia. }
      lia. }
  (* and at least [dx + s - dy] when that is positive *)
  assert (Hqlo : 0 < dx + s - dy -> 0 < q /\ dx + s - dy <= Zdigits2 q).
  { intros Hk.
    assert (Hlow : 2 ^ (dx + s - dy - 1) <= q).
    { rewrite Hq. apply Z.div_le_lower_bound; [lia|].
      assert (Zpos my * 2 ^ (dx + s - dy - 1) <= 2 ^ dy * 2 ^ (dx + s - dy - 1)).
      { apply Z.mul_le_mono_nonneg_r; [apply Z.pow_nonneg|]; lia. }
      assert (2 ^ dy * 2 ^ (dx + s - dy - 1) = 2 ^ (dx + s - 1)).
      { rewrite <- Z.pow_add_r by lia. f_equal. lia. }
      lia. }
    assert (0 < 2 ^ (dx + s - dy - 1)) by (apply Z.pow_pos_nonneg; lia).
    split; [lia|]. apply Zdigits2_ge; [lia | exact Hlow]. }
  pose proof (Zdigits2_nonneg q) as Hdq.
  assert (He'X : e' <= fexp Float.prec Float.emax X) by (unfold e'; lia).
  rewrite fexp_eq in He'X.
  assert (Hcases : e' <= -1074 \/ (0 < q /\ X <= Zdigits2 q + e')).
  { destruct (Z_le_gt_dec e' (-1074)) as [|Hgt]; [left; assumption|right].
    destruct Hqlo as [Hqpos Hqd]; [unfold s, X in *; lia|].
    split; [assumption|]. unfold s, X in *. lia. }
  assert (Hpre : e' <= fexp Float.prec Float.emax (Zdigits2 q + e')).
  { rewrite fexp_eq. lia. }
  assert (HMq : Zdigits2 q + e' <= Z.max (X + 1) (-1074)).
  { destruct (Z.eq_dec q 0) as [->|Hq0].
    - cbn [Zdigits2]. lia.
    - specialize (Hqhi ltac:(lia)). unfold s, X in *. lia. }
  unfold Float.emax in HX.
  destruct (round_aux_spec q e' (new_location (Zpos my) r) Hqnn Hpre
              ltac:(unfold Float.emax; lia)) as [_ Hr].
  eapply nonneg_below_mono; [|exact Hr]. lia.
Qed.

(** *** Integer parts and fractions *)

Lemma to_int_nonneg_below (k : Z) (x : Float.float) :
  0 <= k -> nonneg_below k x ->
  exists z, Float.to_int x = Ok z /\ 0 <= z < 2 ^ k.
Proof.
  intros Hk Hx. destruct x as [[]| | |[] m e]; try contradiction.
  - exists 0. split; [reflexivity|]. split; [lia|]. apply Z.pow_pos_nonneg; lia.
  - cbn [nonneg_below] in Hx. destruct Hx as [_ Hmag].
    eexists. split; [reflexivity|]. cbn [cond_Zopp].
    pose proof (digits2_pos_bounds m) as [_ Hhi].
    assert (Hd : 0 < Zpos (digits2_pos m)) by lia.
    destruct (Z_le_gt_dec 0 e) as [He|He].
    + rewrite Z.shiftl_mul_pow2 by lia. split.
      * apply Z.mul_nonneg_nonneg; [lia|]. apply Z.pow_nonneg. lia.
      * assert (Zpos m * 2 ^ e < 2 ^ Zpos (digits2_pos m) * 2 ^ e).
        { apply Z.mul_lt_mono_pos_r; [apply Z.pow_pos_nonneg|]; lia. }
        rewrite <- Z.pow_add_r in H by lia.
        assert (2 ^ (Zpos (digits2_pos m) + e) <= 2 ^ k)
          by (apply Z.pow_le_mono_r; lia).
        lia.
    + rewrite Z.shiftl_div_pow2 by lia. split.
      * apply Z.div_pos; [lia|]. apply Z.pow_pos_nonneg; lia.
      * apply Z.div_lt_upper_bound; [apply Z.pow_pos_nonneg; lia|].
        rewrite <- Z.pow_add_r by lia.
        assert (2 ^ Zpos (digits2_pos m) <= 2 ^ (- e + k))
          by (apply Z.pow_le_mono_r; lia).
        lia.
Qed.

Lemma frac_nonneg_below (k : Z) (x : Float.float) :
  nonneg_below k x -> nonneg_below 1 (Float.frac x).
Proof.
  intros Hx. destruct x as [[]| | |[] m e]; try contradiction; [exact I|].
  unfold Float.frac. destruct (Z.leb_spec 0 e) as [He|He]; [exact I|].
  cbn [cond_Zopp]. rewrite Z.land_ones by lia.
  pose proof (Z.mod_pos_bound (Zpos m) (2 ^ (- e))
                ltac:(apply Z.pow_pos_nonneg; lia)) as [Hlo Hhi].
  destruct (Zpos m mod 2 ^ (- e)) as [|p|p] eqn:Er; [exact I | | lia].
  cbn [binary_normalize].
  assert (Hd : Zpos (digits2_pos p) <= - e).
  { change (Zpos (digits2_pos p)) with (Zdigits2 (Zpos p)).
    apply Zdigits2_le; lia. }
  destruct (binary_round_spec p e ltac:(unfold Float.emax; lia)) as [_ Hr].
  eapply nonneg_below_mono; [|exact Hr]. lia.
Qed.

Lemma round_half_even_nonneg_below (k : Z) (x : Float.float) :
  0 <= k -> nonneg_below k x ->
  exists z, Float.round_half_even x = Ok z /\ 0 <= z <= 2 ^ k.
Proof.
  intros Hk Hx.
  destruct (to_int_nonneg_below k x Hk Hx) as (w & Hw & Hwlo & Hwhi).
  destruct x as [[]| | |[] m e]; try contradiction.
  - exists 0. split; [reflexivity|]. split; [lia|]. apply Z.pow_nonneg. lia.
  - unfold Float.round_half_even. cbn [Float.to_int cond_Zopp] in Hw.
    injection Hw as Hw.
    destruct (Z.leb_spec 0 e) as [He|He].
    + eexists. split; [reflexivity|]. cbn [cond_Zopp]. lia.
    + rewrite Z.shiftr_opp_r, Hw. eexists. split; [reflexivity|]. cbn [cond_Zopp].
      destruct (match 2 * Z.land (Zpos m) (Z.ones (- e)) ?= 2 ^ (- e) with
                | Lt => false
                | Gt => true
                | Eq => Z.odd w
                end); lia.
Qed.

Lemma million_nonneg_below : nonneg_below 20 Float.million.
Proof. cbn. lia. Qed.

Lemma tenth_nonneg_below : nonneg_below (-3) Float.tenth.
Proof. cbn. lia. Qed.

(** A duration of fewer than [2 ^ 40] seconds given as a float is built. *)
Lemma timedelta_seconds_float_ok (k : Z) (x : Float.float) :
  0 <= k <= 40 -> nonneg_below k x ->
  exists d, timedelta_seconds_float x = Ok d.
Proof.
  intros Hk Hx. unfold timedelta_seconds_float.
  destruct (to_int_nonneg_below k x ltac:(lia) Hx) as (whole & -> & Hwlo & Hwhi).
  cbn [result_bind].
  pose proof (mul_nonneg_below 1 20 _ _ (frac_nonneg_below k x Hx)
                million_nonneg_below ltac:(unfold Float.emax; lia)) as Hus.
  change (SFmul Float.prec Float.emax) with Float.mul in Hus.
  apply (nonneg_below_mono _ 22) in Hus; [|lia].
  destruct (round_half_even_nonneg_below 22 _ ltac:(lia) Hus)
    as (us & -> & Huslo & Hushi).
  cbn [result_bind]. unfold td_checked, td_normalize.
  cbn [td_days].
  assert (H40 : 2 ^ k <= 2 ^ 40) by (apply Z.pow_le_mono_r; lia).
  change (2 ^ 40) with 1099511627776 in H40.
  change (2 ^ 22) with 4194304 in Hushi.
  destruct (Z.ltb_spec 999999999
              (Z.abs (0 + (whole + us / us_per_second) / seconds_per_day)))
    as [Hbad|_]; [|eexists; reflexivity].
  exfalso. unfold us_per_second, seconds_per_day in Hbad.
  Z.to_euclidean_division_equations. lia.
Qed.

(* ===================================================================== *)
(** ** The generator returns a population *)
(* ===================================================================== *)

(** Beyond the range of the floats the division of line 20 raises: with
    [2 ^ 1024] agents no population is built. *)
Remark population_tree_overflow :
  population_tree sample_clock (2 ^ 1024) 1 6 9 sample_draws
  = Raise OverflowError.
Proof. vm_compute. reflexivity. Qed.

Lemma of_int_pos (n : Z) :
  0 < n < 2 ^ 1023 ->
  exists m e,
    Float.of_int n = Ok (S754_finite false m e)
    /\ pos_between (Zdigits2 n) (Zdigits2 n + 1) (S754_finite false m e).
Proof.
  intros Hn. destruct n as [|p|p]; try lia.
  assert (Hd : Zdigits2 (Zpos p) <= 1023) by (apply Zdigits2_le; lia).
  cbn [Zdigits2] in *.
  destruct (binary_round_spec p 0 ltac:(unfold Float.emax; lia)) as [Hr _].
  specialize (Hr ltac:(lia)). rewrite !Z.add_0_r in Hr.
  unfold Float.of_int. cbn [binary_normalize].
  destruct (binary_round Float.prec Float.emax false p 0) as [| | |[] m e];
    try contradiction.
  exists m, e. split; [reflexivity | exact Hr].
Qed.

Lemma of_int_nonneg (n k : Z) :
  0 <= k <= 1023 -> 0 <= n < 2 ^ k ->
  exists f, Float.of_int n = Ok f /\ nonneg_below (k + 1) f.
Proof.
  intros Hk Hn. destruct (Z.eq_dec n 0) as [->|Hne].
  - exists (S754_zero false). split; [reflexivity | exact I].
  - assert (H1023 : 2 ^ k <= 2 ^ 1023) by (apply Z.pow_le_mono_r; lia).
    destruct (of_int_pos n ltac:(lia)) as (m & e & Hof & Hc & Hlo & Hhi).
    exists (S754_finite false m e). split; [exact Hof|].
    cbn [nonneg_below]. split; [exact Hc|].
    assert (Zdigits2 n <= k) by (apply Zdigits2_le; lia). lia.
Qed.

(** The time between two trips, for a window of whole hours: its magnitude
    shrinks as the digits of the number of trips grow. *)
Lemma time_per_trip_ok (h total_trips : Z) (time_window : Float.float) :
  1 <= h <= 24 ->
  Float.of_int (h * 3600) = Ok time_window ->
  0 < total_trips < 2 ^ 1023 ->
  exists time_per_trip,
    time_per_trip_of time_window total_trips = Ok time_per_trip
    /\ nonneg_below (Z.max (20 - Zdigits2 total_trips) (-1073)) time_per_trip.
Proof.
  intros Hh Htw Htotal.
  assert (H17 : 2 ^ 17 <= 2 ^ 1023) by (apply Z.pow_le_mono_r; lia).
  change (2 ^ 17) with 131072 in H17.
  destruct (of_int_pos (h * 3600) ltac:(lia))
    as (mw & ew & Htw' & _ & _ & Hwhi).
  rewrite Htw in Htw'. injection Htw' as ->.
  assert (Hdw : Zdigits2 (h * 3600) <= 17) by (apply Zdigits2_le; lia).
  destruct (of_int_pos total_trips Htotal) as (mf & ef & Hf & _ & Hflo & _).
  unfold time_per_trip_of. rewrite Hf. cbn [result_bind].
  unfold Float.truediv. cbn [Float.is_zero].
  eexists. split; [reflexivity|].
  eapply nonneg_below_mono; [|apply div_nonneg_below].
  - lia.
  - unfold Float.emax. pose proof (Zdigits2_pos total_trips ltac:(lia)). lia.
Qed.

Lemma timedelta_seconds_ok (n : Z) :
  Z.abs n < 2 ^ 17 -> exists d, timedelta_seconds n = Ok d.
Proof.
  intros Hn. change (2 ^ 17) with 131072 in Hn.
  unfold timedelta_seconds, td_checked, td_normalize. cbn [td_days].
  destruct (Z.ltb_spec 999999999
              (Z.abs (0 + (n + 0 / us_per_second) / seconds_per_day)))
    as [Hbad|_]; [|eexists; reflexivity].
  exfalso. unfold us_per_second, seconds_per_day in Hbad.
  Z.to_euclidean_division_equations. lia.
Qed.

Section Totality.

Context {G : Type} `{RandomSource G}.

Variables (start_time : datetime) (time_per_trip : Float.float).
Variables (num_agents trips_per_agent : Z).

Hypothesis Htotal : 0 < num_agents * trips_per_agent < 2 ^ 1023.
Hypothesis Htpt :
  nonneg_below
    (Z.max (20 - Zdigits2 (num_agents * trips_per_agent)) (-1073))
    time_per_trip.

Lemma trip_body_total (a t : Z) (plan : element) (g : G) :
  0 <= a < num_agents -> 0 <= t < trips_per_agent ->
  exists plan' g',
    trip_body start_time time_per_trip trips_per_agent a t plan g
    = Ok (plan', g').
Proof.
  intros Ha Ht.
  set (D := Zdigits2 (num_agents * trips_per_agent)) in *.
  pose proof (Zdigits2_bounds _ (proj1 Htotal)) as [_ HD]. fold D in HD.
  assert (HD1 : 1 <= D <= 1023).
  { pose proof (Zdigits2_pos _ (proj1 Htotal)). split; [unfold D; lia|].
    apply Zdigits2_le; lia. }
  assert (Hslot : 0 <= a * trips_per_agent + t < num_agents * trips_per_agent)
    by nia.
  (* the nominal time *)
  destruct (of_int_nonneg (a * trips_per_agent + t) D ltac:(lia) ltac:(lia))
    as (slot & Hof & Hslotf).
  pose proof (mul_nonneg_below _ _ _ _ Hslotf Htpt
                ltac:(unfold Float.emax; lia)) as Hprod.
  apply (nonneg_below_mono _ 22) in Hprod; [|lia].
  destruct (timedelta_seconds_float_ok 22 _ ltac:(lia) Hprod) as (d & Hd).
  (* the amplitude of the variation *)
  pose proof (mul_nonneg_below _ _ _ _ Htpt tenth_nonneg_below
                ltac:(unfold Float.emax; lia)) as Hamp.
  apply (nonneg_below_mono _ 17) in Hamp; [|lia].
  destruct (to_int_nonneg_below 17 _ ltac:(lia) Hamp) as (mv & Hmv & Hmvlo & Hmvhi).
  pose proof (draw_range (- mv) mv g ltac:(lia)) as Hv.
  assert (Hvabs : Z.abs (fst (draw (- mv) mv g)) < 2 ^ 17) by lia.
  destruct (timedelta_seconds_ok _ Hvabs) as (dv & Hdv).
  unfold trip_body, bind, lift, nominal_time, max_variation_of, randint,
    add_variation.
  rewrite Hof. cbn [result_bind].
  change (SFmul Float.prec Float.emax) with Float.mul in Hd, Hmv.
  rewrite Hd. cbn [result_bind]. rewrite Hmv.
  destruct (Z.leb_spec (- mv) mv) as [_|]; [|lia].
  destruct (draw (- mv) mv g) as [v g1]. cbn [fst] in Hdv.
  rewrite Hdv. cbn [result_bind]. rewrite trip_children_eq.
  do 2 eexists. reflexivity.
Qed.

Lemma agent_body_total (a : Z) (population : element) (g : G) :
  0 <= a < num_agents ->
  exists population' g',
    agent_body start_time time_per_trip trips_per_agent a population g
    = Ok (population', g').
Proof.
  intros Ha. unfold agent_body.
  destruct (for_each_total
              (trip_body start_time time_per_trip trips_per_agent a)
              (range trips_per_agent)) with (acc := plan_frame) (g := g)
    as (plan & g1 & Hplan).
  { intros t plan g0 Ht. apply in_range in Ht.
    apply trip_body_total; assumption. }
  do 2 eexists. apply bind_ok. exists plan, g1. split; [exact Hplan|].
  reflexivity.
Qed.

End Totality.

(** For every valid input with fewer than [2 ^ 1023] trips, and the clock
    read twice on one day, the generator returns a population. *)
Theorem population_tree_total {G : Type} `{RandomSource G}
  (clk : clock) (num_agents trips_per_agent start_hour end_hour : Z) (g : G) :
  valid_input num_agents trips_per_agent start_hour end_hour ->
  same_day clk ->
  num_agents * trips_per_agent < 2 ^ 1023 ->
  exists pop g',
    population_tree clk num_agents trips_per_agent start_hour end_hour g
    = Ok (pop, g').
Proof.
  intros (Hna & Htpa & Hs & He) Hday Hbound.
  assert (Htotal : 0 < num_agents * trips_per_agent < 2 ^ 1023) by nia.
  destruct (window_seconds_range start_hour end_hour Hs He) as (h & Hh & Hw).
  pose proof (window_total_us clk start_hour end_hour Hday) as Hus.
  rewrite Hw in Hus.
  destruct (total_seconds_hours _ h Hh Hus) as (tw & Htw & Hof & _).
  destruct (time_per_trip_ok h _ tw Hh Hof Htotal) as (tpt & Htpt & Hmag).
  unfold population_tree.
  destruct (for_each_total
              (agent_body (mk_datetime (dt_ordinal (now_start clk))
                             start_hour 0 0 0)
                 tpt trips_per_agent)
              (range num_agents)) with (acc := new_element "population")
                                       (g := g)
    as (pop & g' & Hpop).
  { intros a population g0 Ha. apply in_range in Ha.
    eapply agent_body_total; eassumption. }
  exists pop, g'.
  apply bind_ok. eexists. exists g. split.
  { apply lift_ok. split; [apply window_bounds_ok; assumption | reflexivity]. }
  apply bind_ok. exists tw, g. split.
  { apply lift_ok. split; [exact Htw | reflexivity]. }
  apply bind_ok. exists tpt, g. split.
  { apply lift_ok. split; [exact Htpt | reflexivity]. }
  exact Hpop.
Qed.

Lemma zero_source_off : jitter_off unit.
Proof. intros m g0 Hm. cbn. unfold clamp. lia. Qed.

Lemma Forall2_nth_error_right {A B : Type} (R : A -> B -> Prop) xs ys i y :
  Forall2 R xs ys -> nth_error ys i = Some y ->
  exists x, nth_error xs i = Some x /\ R x y.
Proof.
  intros HF. revert i. induction HF as [|x0 y0 xs ys Hxy HF IH]; intros i Hi.
  - destruct i; discriminate.
  - destruct i as [|i]; cbn in *.
    + injection Hi as <-. exists x0. split; [reflexivity | exact Hxy].
    + apply IH. exact Hi.
Qed.

Lemma nth_error_range_inv (n : Z) (i : nat) (x : Z) :
  nth_error (range n) i = Some x -> x = Z.of_nat i /\ 0 <= x < n.
Proof.
  intros Hi. unfold range in Hi. rewrite nth_error_map, nth_error_seq in Hi.
  destruct (Nat.ltb_spec i (Z.to_nat n)); [|discriminate].
  cbn in Hi. injection Hi as <-. lia.
Qed.

Section EndTimes.

Context {G : Type} `{RandomSource G}.

Variables (start_time : datetime) (time_per_trip : Float.float).
Variables (num_agents trips_per_agent : Z) (people : list element).

Hypothesis Hpeople :
  Forall2 (person_shape start_time time_per_trip trips_per_agent)
    (range num_agents) people.

(** The elements that carry an [end_time] are children of a plan. *)
Lemma end_time_in_plan (e : element) (s : string) :
  In e (all_elements (Element "population" [] "" people)) ->
  get e "end_time" = Some s ->
  exists a plan,
    0 <= a < num_agents
    /\ plan_at (Element "population" [] "" people) a = Some plan
    /\ In e (children plan).
Proof.
  intros Hin Hs. cbn [all_elements] in Hin.
  destruct Hin as [<-|Hin]; [discriminate|].
  apply in_flat_map in Hin as (p & Hp & Hin).
  apply In_nth_error in Hp as (i & Hi).
  destruct (Forall2_nth_error_right _ _ _ _ _ Hpeople Hi)
    as (a & Ha & (actss & Hacts & Hpeq)).
  apply nth_error_range_inv in Ha as [-> Ha].
  exists (Z.of_nat i). eexists. split; [exact Ha|]. split.
  { unfold plan_at, person_at.
    rewrite (persons_of_shape _ _ _ _ _ Hpeople), Nat2Z.id, Hi.
    rewrite Hpeq. reflexivity. }
  cbn [children]. rewrite Hpeq in Hin. cbn [all_elements flat_map app] in Hin.
  destruct Hin as [<-|[<-|[<-|[<-|Hin]]]]; try discriminate.
  rewrite app_nil_r in Hin.
  apply in_flat_map in Hin as (c & Hc & Hin).
  pose proof Hc as Hc'.
  apply in_concat in Hc' as (acts & Hacts_in & Hc').
  destruct (Forall2_in_right _ _ _ _ Hacts Hacts_in) as (t & _ & (tt & _ & ->)).
  destruct Hc' as [<-|[<-|[<-|[]]]].
  - destruct Hin as [<-|[]]. exact Hc.
  - destruct Hin as [<-|[<-|[]]]; discriminate.
  - destruct Hin as [<-|[]]. exact Hc.
Qed.

(** The [end_time] of a child of a plan is the text of the departure time
    of a trip, or of that time plus 30 minutes. *)
Lemma end_time_of_plan_child (a : Z) (plan e : element) (s : string) :
  0 <= a < num_agents ->
  plan_at (Element "population" [] "" people) a = Some plan ->
  In e (children plan) ->
  get e "end_time" = Some s ->
  exists t trip_time,
    0 <= t < trips_per_agent
    /\ departure start_time time_per_trip trips_per_agent a t trip_time
    /\ (s = wall_clock (dt_instant_us trip_time)
        \/ t < trips_per_agent - 1
           /\ s = wall_clock (dt_instant_us trip_time + 30 * 60 * 1000000)).
Proof.
  intros Ha Hplan Hin Hs.
  destruct (person_at_shape start_time time_per_trip num_agents
              trips_per_agent people a Hpeople Ha)
    as (p & Hp & (actss & Hacts & ->)).
  unfold plan_at in Hplan. rewrite Hp in Hplan.
  cbn in Hplan. injection Hplan as <-. cbn [children] in Hin.
  apply in_concat in Hin as (acts & Hacts_in & He).
  destruct (Forall2_in_right _ _ _ _ Hacts Hacts_in)
    as (t & Ht & (tt & Hdep & ->)).
  apply in_range in Ht.
  assert (Htext : strftime_HMS tt = wall_clock (dt_instant_us tt)).
  { destruct Hdep as (nominal & mv & g0 & _ & _ & _ & Hadd).
    eapply add_variation_text. exact Hadd. }
  exists t, tt. split; [exact Ht|]. split; [exact Hdep|].
  destruct He as [<-|[<-|[<-|[]]]].
  - left. unfold first_act_of in Hs. cbn in Hs.
    injection Hs as <-. exact Htext.
  - discriminate.
  - unfold final_act_of in Hs.
    destruct (Z.ltb_spec t (trips_per_agent - 1)) as [Hlt|Hge]; [|discriminate].
    right. split; [exact Hlt|]. cbn in Hs. injection Hs as <-.
    rewrite strftime_datetime_add. reflexivity.
Qed.

End EndTimes.

(* ===================================================================== *)
(** ** Properties of the generated population *)
(* ===================================================================== *)

(** C1. For every valid input, the population that [create_population]
    builds holds exactly [num_agents] person elements and nothing else, and
    each person has exactly one plan, with exactly [trips_per_agent] legs.
    A population is built whenever the clock is read twice on one day and
    the number of trips is below [2 ^ 1023], the range in which every
    count of trips is converted to a float. *)
Theorem population_counts {G : Type} `{RandomSource G}
  (clk : clock) (num_agents trips_per_agent start_hour end_hour : Z) (g : G) :
  valid_input num_agents trips_per_agent start_hour end_hour ->
  (same_day clk -> num_agents * trips_per_agent < 2 ^ 1023 ->
   exists pop g',
     population_tree clk num_agents trips_per_agent start_hour end_hour g
     = Ok (pop, g'))
  /\ forall pop g',
      population_tree clk num_agents trips_per_agent start_hour end_hour g
      = Ok (pop, g') ->
      children pop = persons pop
      /\ Z.of_nat (List.length (persons pop)) = num_agents
      /\ Forall
           (fun person =>
              exists plan,
                plans person = [plan]
                /\ Z.of_nat (List.length (legs plan)) = trips_per_agent)
           (persons pop).
Proof.
  intros Hvalid. split.
  { intros Hday Hbound. apply population_tree_total; assumption. }
  destruct Hvalid as (Hna & Htpa & _). intros pop g' Hrun.
  destruct (population_tree_ok _ _ _ _ _ _ _ _ Hrun)
    as (st & tpt & people & _ & Hpeople & ->).
  rewrite (persons_of_shape st tpt num_agents trips_per_agent people Hpeople).
  split; [reflexivity|]. split.
  - rewrite (Forall2_length_eq _ _ _ Hpeople), range_length. lia.
  - eapply Forall2_right; [exact Hpeople|].
    intros a p _ (actss & Hacts & ->).
    eexists. split; [reflexivity|].
    unfold legs. cbn [children].
    rewrite (triples_legs trips_per_agent)
      by (eapply person_shape_triples; exact Hacts).
    rewrite (Forall2_length_eq _ _ _ Hacts), range_length. lia.
Qed.

Lemma population_counts_witness :
  Z.of_nat (List.length (persons sample_population)) = 2
  /\ Forall
       (fun person =>
          exists plan,
            plans person = [plan] /\ Z.of_nat (List.length (legs plan)) = 2)
       (persons sample_population).
Proof.
  destruct (population_counts sample_clock 2 2 6 9 sample_draws) as [_ Hcount].
  - unfold valid_input. lia.
  - apply (Hcount sample_population [] sample_run).
Defined.

(** C2. For every agent and every trip, the first activity of the trip
    carries an [end_time], the text of the departure time of the trip after
    its variation.  The final activity of the trip carries an [end_time]
    exactly when the trip is not the last of its agent
    ([t < trips_per_agent - 1]); that [end_time] is then the text of the
    departure time plus exactly 30 minutes.  The final activity of the last
    trip of an agent has no [end_time]. *)
Theorem activity_end_times {G : Type} `{RandomSource G}
  (clk : clock) (num_agents trips_per_agent start_hour end_hour : Z)
  (g g' : G) (pop : element) :
  population_tree clk num_agents trips_per_agent start_hour end_hour g
  = Ok (pop, g') ->
  exists start_time time_per_trip,
    schedule clk num_agents trips_per_agent start_hour end_hour
      start_time time_per_trip
    /\ forall a t,
        0 <= a < num_agents -> 0 <= t < trips_per_agent ->
        exists trip_time first_act leg final_act,
          departure start_time time_per_trip trips_per_agent a t trip_time
          /\ trip_at pop a t = Some (first_act, leg, final_act)
          /\ get first_act "end_time" = Some (strftime_HMS trip_time)
          /\ (get final_act "end_time" <> None <-> t < trips_per_agent - 1)
          /\ (t < trips_per_agent - 1 ->
              exists next_trip_time,
                next_trip_time_of trip_time = Ok next_trip_time
                /\ get final_act "end_time" = Some (strftime_HMS next_trip_time)
                /\ dt_instant_us next_trip_time
                   = dt_instant_us trip_time + 30 * 60 * 1000000
                /\ strftime_HMS next_trip_time
                   = wall_clock (dt_instant_us trip_time + 30 * 60 * 1000000))
          /\ (t = trips_per_agent - 1 -> get final_act "end_time" = None).
Proof.
  intros Hrun.
  destruct (run_trips _ _ _ _ _ _ _ _ Hrun) as (st & tpt & Hsched & Htrips).
  exists st, tpt. split; [exact Hsched|].
  intros a t Ha Ht.
  destruct (Htrips a t Ha Ht) as (tt & Hdep & Htrip).
  exists tt. do 3 eexists.
  split; [exact Hdep|]. split; [exact Htrip|].
  assert (Hnext : next_trip_time_of tt = Ok (datetime_add tt thirty_minutes))
    by reflexivity.
  assert (Hinst : dt_instant_us (datetime_add tt thirty_minutes)
                  = dt_instant_us tt + 30 * 60 * 1000000)
    by (rewrite datetime_add_instant; reflexivity).
  assert (Htext : strftime_HMS (datetime_add tt thirty_minutes)
                  = wall_clock (dt_instant_us tt + 30 * 60 * 1000000))
    by (rewrite strftime_datetime_add; reflexivity).
  unfold first_act_of, final_act_of.
  destruct (Z.ltb_spec t (trips_per_agent - 1)) as [Hlt|Hge];
    destruct (t mod 2 =? 1); cbn [get attrib dict_get app String.eqb
                                   Ascii.eqb Bool.eqb];
    repeat split;
    try (intros; lia); try discriminate; try reflexivity;
    try (intros Habs; exfalso; apply Habs; reflexivity);
    intros _; exists (datetime_add tt thirty_minutes);
    (split; [exact Hnext|]); (split; [reflexivity|]);
    (split; [exact Hinst | exact Htext]).
Qed.

Lemma activity_end_times_witness :
  exists start_time time_per_trip,
    schedule sample_clock 2 2 6 9 start_time time_per_trip
    /\ exists trip_time first_act leg final_act,
        departure (G := list Z) start_time time_per_trip 2 0 0 trip_time
        /\ trip_at sample_population 0 0 = Some (first_act, leg, final_act)
        /\ get first_act "end_time" = Some (strftime_HMS trip_time)
        /\ get first_act "end_time" = Some "06:01:40"
        /\ get final_act "end_time" = Some "06:31:40".
Proof.
  destruct (activity_end_times sample_clock 2 2 6 9 sample_draws []
              sample_population sample_run)
    as (st & tpt & Hsched & Htrips).
  exists st, tpt. split; [exact Hsched|].
  destruct (Htrips 0 0 ltac:(lia) ltac:(lia))
    as (tt & first_act & leg & final_act & Hdep & Htrip & Hfirst & _ & Hnext
        & _).
  exists tt, first_act, leg, final_act.
  split; [exact Hdep|]. split; [exact Htrip|]. split; [exact Hfirst|].
  vm_compute in Htrip. injection Htrip as <- _ <-. split; reflexivity.
Defined.

(** C3. For every agent and every trip index [t], counted from zero: when
    [t] is even the trip runs eastbound (first activity [home] at link [1],
    route text [1,3,5], final activity [work] at link [6]); when [t] is odd
    it runs westbound (first activity [work] at link [6], route text
    [6,4,2], final activity [home] at link [1]).  The directions of an
    agent so alternate from trip to trip, the first being eastbound. *)
Theorem trip_directions {G : Type} `{RandomSource G}
  (clk : clock) (num_agents trips_per_agent start_hour end_hour : Z)
  (g g' : G) (pop : element) (a t : Z) :
  population_tree clk num_agents trips_per_agent start_hour end_hour g
  = Ok (pop, g') ->
  0 <= a < num_agents -> 0 <= t < trips_per_agent ->
  exists first_act leg final_act,
    trip_at pop a t = Some (first_act, leg, final_act)
    /\ tag first_act = "activity" /\ tag leg = "leg"
    /\ tag final_act = "activity" /\ get leg "mode" = Some "car"
    /\ (Z.even t = true ->
        get first_act "type" = Some "home" /\ get first_act "link" = Some "1"
        /\ route_text leg = Some "1,3,5"
        /\ get final_act "type" = Some "work"
        /\ get final_act "link" = Some "6")
    /\ (Z.odd t = true ->
        get first_act "type" = Some "work" /\ get first_act "link" = Some "6"
        /\ route_text leg = Some "6,4,2"
        /\ get final_act "type" = Some "home"
        /\ get final_act "link" = Some "1").
Proof.
  intros Hrun Ha Ht.
  destruct (run_trips _ _ _ _ _ _ _ _ Hrun) as (st & tpt & _ & Htrips).
  destruct (Htrips a t Ha Ht) as (tt & _ & Htrip).
  do 3 eexists. split; [exact Htrip|].
  unfold first_act_of, leg_of, final_act_of.
  rewrite Zmod_odd, <- Z.negb_even.
  destruct (Z.even t); repeat split; intros; try discriminate; reflexivity.
Qed.

Lemma trip_directions_witness :
  exists first_act leg final_act,
    trip_at sample_population 1 1 = Some (first_act, leg, final_act)
    /\ get first_act "type" = Some "work"
    /\ route_text leg = Some "6,4,2"
    /\ get final_act "link" = Some "1".
Proof.
  destruct (trip_directions sample_clock 2 2 6 9 sample_draws []
              sample_population 1 1 sample_run)
    as (first_act & leg & final_act & Htrip & _ & _ & _ & _ & _ & Hodd);
    [lia | lia |].
  exists first_act, leg, final_act. split; [exact Htrip|].
  destruct (Hodd eq_refl) as (Htype & _ & Hroute & _ & Hlink).
  repeat split; assumption.
Defined.

(** What C4 says, on a clock read twice on one day.  With the variation
    switched off, the trip of agent [a] with index
    [t] leaves exactly at the start of the window plus the duration of
    [a * trips_per_agent + t] times [time_per_trip] seconds, where
    [time_per_trip] is the window in seconds divided by the number of
    trips; for two agents with two trips each between 6 and 9 o'clock the
    four times are 06:00:00, 06:45:00, 07:30:00 and 08:15:00. *)
Theorem nominal_times_without_jitter {G : Type} `{RandomSource G}
  (clk : clock) :
  jitter_off G ->
  (forall num_agents trips_per_agent start_hour end_hour g g' pop,
      population_tree clk num_agents trips_per_agent start_hour end_hour g
      = Ok (pop, g') ->
      exists start_time end_time time_window total_trips time_per_trip,
        window_bounds clk start_hour end_hour = Ok (start_time, end_time)
        /\ time_window_of start_time end_time = Ok time_window
        /\ Float.of_int (num_agents * trips_per_agent) = Ok total_trips
        /\ Float.truediv time_window total_trips = Ok time_per_trip
        /\ forall a t,
            0 <= a < num_agents -> 0 <= t < trips_per_agent ->
            exists slot d trip_time first_act leg final_act,
              Float.of_int (a * trips_per_agent + t) = Ok slot
              /\ timedelta_seconds_float (Float.mul slot time_per_trip) = Ok d
              /\ dt_instant_us trip_time
                 = dt_instant_us start_time + td_total_us d
              /\ trip_at pop a t = Some (first_act, leg, final_act)
              /\ get first_act "end_time" = Some (strftime_HMS trip_time)
              /\ strftime_HMS trip_time
                 = strftime_HMS (datetime_add start_time d))
  /\ (same_day clk ->
      forall g g' pop,
        population_tree clk 2 2 6 9 g = Ok (pop, g') ->
        exists a0 l0 f0 a1 l1 f1 a2 l2 f2 a3 l3 f3,
          trip_at pop 0 0 = Some (a0, l0, f0)
          /\ trip_at pop 0 1 = Some (a1, l1, f1)
          /\ trip_at pop 1 0 = Some (a2, l2, f2)
          /\ trip_at pop 1 1 = Some (a3, l3, f3)
          /\ get a0 "end_time" = Some "06:00:00"
          /\ get a1 "end_time" = Some "06:45:00"
          /\ get a2 "end_time" = Some "07:30:00"
          /\ get a3 "end_time" = Some "08:15:00").
Proof.
  intros Hoff.
  assert (Hgen : forall num_agents trips_per_agent start_hour end_hour g g' pop,
      population_tree clk num_agents trips_per_agent start_hour end_hour g
      = Ok (pop, g') ->
      exists start_time end_time time_window total_trips time_per_trip,
        window_bounds clk start_hour end_hour = Ok (start_time, end_time)
        /\ time_window_of start_time end_time = Ok time_window
        /\ Float.of_int (num_agents * trips_per_agent) = Ok total_trips
        /\ Float.truediv time_window total_trips = Ok time_per_trip
        /\ forall a t,
            0 <= a < num_agents -> 0 <= t < trips_per_agent ->
            exists slot d trip_time first_act leg final_act,
              Float.of_int (a * trips_per_agent + t) = Ok slot
              /\ timedelta_seconds_float (Float.mul slot time_per_trip) = Ok d
              /\ dt_instant_us trip_time
                 = dt_instant_us start_time + td_total_us d
              /\ trip_at pop a t = Some (first_act, leg, final_act)
              /\ get first_act "end_time" = Some (strftime_HMS trip_time)
              /\ strftime_HMS trip_time
                 = strftime_HMS (datetime_add start_time d)).
  { intros na tpa sh eh g g' pop Hrun.
    destruct (run_trips _ _ _ _ _ _ _ _ Hrun) as (st & tpt & Hsched & Htrips).
    destruct Hsched as (et & tw & Hb & Htw & Htpt).
    unfold time_per_trip_of in Htpt.
    apply result_bind_ok in Htpt as (total & Htotal & Hdiv).
    exists st, et, tw, total, tpt. repeat (split; [assumption|]).
    intros a t Ha Ht.
    destruct (Htrips a t Ha Ht)
      as (tt & (nominal & mv & g0 & Hnom & Hmv & Hle & Hadd) & Htrip).
    rewrite (Hoff mv g0) in Hadd by lia.
    pose proof (add_variation_instant _ _ _ Hadd) as Hinst.
    pose proof (add_variation_text _ _ _ Hadd) as Htext.
    destruct (nominal_time_ok _ _ _ _ _ _ Hnom) as (slot & d & Hslot & Hd & ->).
    rewrite datetime_add_instant in Hinst.
    exists slot, d, tt. do 3 eexists.
    split; [exact Hslot|]. split; [exact Hd|]. split; [lia|].
    split; [exact Htrip|]. split; [reflexivity|].
    rewrite Htext, strftime_datetime_add. f_equal. lia. }
  split; [exact Hgen|].
  intros Hday g g' pop Hrun.
  destruct (Hgen _ _ _ _ _ _ _ Hrun)
    as (st & et & tw & total & tpt & Hb & Htw & Htotal & Hdiv & Htrips).
  destruct (schedule_window clk 6 9 st et ltac:(lia) ltac:(lia) Hday Hb)
    as (-> & Hw).
  rewrite Hw in Htw. vm_compute in Htw. injection Htw as <-.
  vm_compute in Htotal. injection Htotal as <-.
  vm_compute in Hdiv. injection Hdiv as <-.
  destruct (Htrips 0 0 ltac:(lia) ltac:(lia))
    as (s0 & d0 & t0 & a0 & l0 & f0 & Hs0 & Hd0 & _ & Ht0 & He0 & Hx0).
  destruct (Htrips 0 1 ltac:(lia) ltac:(lia))
    as (s1 & d1 & t1 & a1 & l1 & f1 & Hs1 & Hd1 & _ & Ht1 & He1 & Hx1).
  destruct (Htrips 1 0 ltac:(lia) ltac:(lia))
    as (s2 & d2 & t2 & a2 & l2 & f2 & Hs2 & Hd2 & _ & Ht2 & He2 & Hx2).
  destruct (Htrips 1 1 ltac:(lia) ltac:(lia))
    as (s3 & d3 & t3 & a3 & l3 & f3 & Hs3 & Hd3 & _ & Ht3 & He3 & Hx3).
  vm_compute in Hs0, Hs1, Hs2, Hs3.
  injection Hs0 as <-. injection Hs1 as <-.
  injection Hs2 as <-. injection Hs3 as <-.
  vm_compute in Hd0, Hd1, Hd2, Hd3.
  injection Hd0 as <-. injection Hd1 as <-.
  injection Hd2 as <-. injection Hd3 as <-.
  rewrite datetime_add_shift, strftime_shift in Hx0, Hx1, Hx2, Hx3.
  rewrite Hx0 in He0. rewrite Hx1 in He1. rewrite Hx2 in He2.
  rewrite Hx3 in He3.
  exists a0, l0, f0, a1, l1, f1, a2, l2, f2, a3, l3, f3.
  repeat (split; [assumption|]).
  repeat split; assumption.
Qed.

Lemma nominal_times_without_jitter_witness :
  exists a0 l0 f0 a3 l3 f3,
    trip_at quiet_population 0 0 = Some (a0, l0, f0)
    /\ trip_at quiet_population 1 1 = Some (a3, l3, f3)
    /\ get a0 "end_time" = Some "06:00:00"
    /\ get a3 "end_time" = Some "08:15:00".
Proof.
  destruct (nominal_times_without_jitter sample_clock zero_source_off)
    as [_ Hsample].
  destruct (Hsample eq_refl tt tt quiet_population quiet_run)
    as (a0 & l0 & f0 & a1 & l1 & f1 & a2 & l2 & f2 & a3 & l3 & f3
        & H0 & _ & _ & H3 & E0 & _ & _ & E3).
  exists a0, l0, f0, a3, l3, f3. repeat split; assumption.
Defined.

(** C4. The four times of the claim are those of a run that reads the
    clock twice on one day.  On a run that reads it just before midnight at
    line 12 and just after midnight at line 13, the window of two agents
    with two trips each between 6 and 9 o'clock is 27 hours long, and with
    the variation switched off the four trips leave at 06:00:00, 12:45:00,
    19:30:00 and 02:15:00, not at 06:00:00, 06:45:00, 07:30:00 and
    08:15:00. *)
Theorem nominal_times_across_midnight :
  jitter_off unit
  /\ valid_input 2 2 6 9
  /\ population_tree midnight_clock 2 2 6 9 tt = Ok (midnight_population, tt)
  /\ exists a0 l0 f0 a1 l1 f1 a2 l2 f2 a3 l3 f3,
      trip_at midnight_population 0 0 = Some (a0, l0, f0)
      /\ trip_at midnight_population 0 1 = Some (a1, l1, f1)
      /\ trip_at midnight_population 1 0 = Some (a2, l2, f2)
      /\ trip_at midnight_population 1 1 = Some (a3, l3, f3)
      /\ get a0 "end_time" = Some "06:00:00"
      /\ get a1 "end_time" = Some "12:45:00"
      /\ get a2 "end_time" = Some "19:30:00"
      /\ get a3 "end_time" = Some "02:15:00"
      /\ get a1 "end_time" <> Some "06:45:00".
Proof.
  split; [exact zero_source_off|].
  split; [unfold valid_input; lia|].
  split; [vm_compute; reflexivity|].
  do 12 eexists.
  repeat (split; [vm_compute; reflexivity|]).
  vm_compute. discriminate.
Qed.

(** C5, as stated, fails: with two trips per agent the plan of the first
    agent of the sample run has the children activity, leg, activity,
    activity, leg, activity, where the final activity of the first trip and
    the first activity of the second are neighbours. *)
Lemma plan_alternation_counterexample :
  valid_input 2 2 6 9
  /\ population_tree sample_clock 2 2 6 9 sample_draws
     = Ok (sample_population, [])
  /\ exists plan,
      plan_at sample_population 0 = Some plan
      /\ map tag (children plan)
         = ["activity"; "leg"; "activity"; "activity"; "leg"; "activity"]
      /\ alternating (map tag (children plan)) = false.
Proof.
  split; [unfold valid_input; lia|]. split; [exact sample_run|].
  eexists. split; [vm_compute; reflexivity|].
  split; reflexivity.
Qed.

(** C5, amended. For every valid input, the plan of each person is, trip
    after trip, an activity, a leg and an activity: it begins and ends with
    an activity and no two legs are neighbours, and it alternates strictly
    between activities and legs exactly when there is one trip per agent. *)
Theorem plan_children_pattern {G : Type} `{RandomSource G}
  (clk : clock) (num_agents trips_per_agent start_hour end_hour : Z)
  (g g' : G) (pop : element) (a : Z) :
  valid_input num_agents trips_per_agent start_hour end_hour ->
  population_tree clk num_agents trips_per_agent start_hour end_hour g
  = Ok (pop, g') ->
  0 <= a < num_agents ->
  exists plan,
    plan_at pop a = Some plan
    /\ let tags := map tag (children plan) in
       tags = repeat_trip_tags (Z.to_nat trips_per_agent)
       /\ hd_error tags = Some "activity"
       /\ last tags "" = "activity"
       /\ no_adjacent_legs tags = true
       /\ (alternating tags = true <-> trips_per_agent = 1).
Proof.
  intros (_ & Htpa & _) Hrun Ha.
  destruct (population_tree_ok _ _ _ _ _ _ _ _ Hrun)
    as (st & tpt & people & _ & Hpeople & ->).
  destruct (person_at_shape st tpt num_agents trips_per_agent people a
              Hpeople Ha) as (p & Hp & (actss & Hacts & ->)).
  eexists. split.
  { unfold plan_at. rewrite Hp. reflexivity. }
  cbn zeta. cbn [children].
  rewrite (triples_tags trips_per_agent)
    by (eapply person_shape_triples; exact Hacts).
  rewrite concat_const_tags, (Forall2_length_eq _ _ _ Hacts), range_length.
  split; [reflexivity|].
  destruct (repeat_trip_tags_ends (Z.to_nat trips_per_agent)) as [Hhd Hlast];
    [lia|].
  split; [exact Hhd|]. split; [exact Hlast|].
  split; [apply repeat_trip_tags_no_adjacent_legs|].
  rewrite repeat_trip_tags_alternating. lia.
Qed.

Lemma plan_children_pattern_witness :
  exists plan,
    plan_at sample_population 1 = Some plan
    /\ map tag (children plan) = repeat_trip_tags 2
    /\ no_adjacent_legs (map tag (children plan)) = true.
Proof.
  destruct (plan_children_pattern sample_clock 2 2 6 9 sample_draws []
              sample_population 1)
    as (plan & Hplan & Htags & _ & _ & Hlegs & _).
  - unfold valid_input. lia.
  - exact sample_run.
  - lia.
  - exists plan. repeat split; assumption.
Defined.

(** C6, as stated, fails: the [vehicleType] value of the first person of
    the sample run is [ev_car], not the element [ev] of the list of vehicle
    types. *)
Lemma vehicle_type_counterexample :
  population_tree sample_clock 2 2 6 9 sample_draws
  = Ok (sample_population, [])
  /\ exists person,
      person_at sample_population 0 = Some person
      /\ vehicle_type_value person = Some "ev_car"
      /\ vehicle_type_value person
         <> Some (nth (Z.to_nat (0 mod 3)) ["ev"; "lev"; "hev"] "").
Proof.
  split; [exact sample_run|].
  eexists. split; [vm_compute; reflexivity|].
  split; [reflexivity | discriminate].
Qed.

(** C6, amended. For every agent index [i], the [vehicleType] value of the
    person is the element [i mod 3] of [ev], [lev], [hev] followed by
    [_car], and the id of the person is that element followed by [_agent_]
    and the decimal digits of [i]. *)
Theorem person_vehicle_and_id {G : Type} `{RandomSource G}
  (clk : clock) (num_agents trips_per_agent start_hour end_hour : Z)
  (g g' : G) (pop : element) (i : Z) :
  population_tree clk num_agents trips_per_agent start_hour end_hour g
  = Ok (pop, g') ->
  0 <= i < num_agents ->
  exists person,
    person_at pop i = Some person
    /\ let vehicle_type := nth (Z.to_nat (i mod 3)) ["ev"; "lev"; "hev"] "" in
       vehicle_type_value person = Some (vehicle_type ++ "_car")%string
       /\ get person "id"
          = Some (vehicle_type ++ "_agent_" ++ str_of_int i)%string.
Proof.
  intros Hrun Hi.
  destruct (population_tree_ok _ _ _ _ _ _ _ _ Hrun)
    as (st & tpt & people & _ & Hpeople & ->).
  destruct (person_at_shape st tpt num_agents trips_per_agent people i
              Hpeople Hi) as (p & Hp & (actss & _ & ->)).
  eexists. split; [exact Hp|].
  split; reflexivity.
Qed.

Lemma person_vehicle_and_id_witness :
  exists person,
    person_at sample_population 1 = Some person
    /\ vehicle_type_value person = Some "lev_car"
    /\ get person "id" = Some "lev_agent_1".
Proof.
  destruct (person_vehicle_and_id sample_clock 2 2 6 9 sample_draws []
              sample_population 1 sample_run)
    as (person & Hperson & Hvalue & Hid); [lia|].
  exists person. repeat split; assumption.
Defined.

(** What C7 says, on a clock read twice on one day.  For all hours in
    0..23, an end hour that is not after the start
    hour puts the end of the window on the following day, so that the
    window always has a positive length, of [((end_hour - start_hour) mod
    24) * 3600] seconds, and of a full 24 hours when the two hours are
    equal; the seconds are an exact float. *)
Theorem window_length (clk : clock) (start_hour end_hour : Z) :
  0 <= start_hour <= 23 -> 0 <= end_hour <= 23 ->
  same_day clk ->
  exists start_time end_time time_window,
    window_bounds clk start_hour end_hour = Ok (start_time, end_time)
    /\ (end_hour <= start_hour ->
        dt_ordinal end_time = dt_ordinal start_time + 1)
    /\ (start_hour < end_hour -> dt_ordinal end_time = dt_ordinal start_time)
    /\ time_window_of start_time end_time = Ok time_window
    /\ let seconds :=
         (if end_hour =? start_hour then 24
          else (end_hour - start_hour) mod 24) * 3600 in
       0 < seconds
       /\ td_total_us (datetime_sub end_time start_time) = seconds * 1000000
       /\ Float.of_int seconds = Ok time_window
       /\ Float.to_int time_window = Ok seconds.
Proof.
  intros Hs He Hday.
  pose proof (window_total_us clk start_hour end_hour Hday) as Hus.
  destruct (window_seconds_range start_hour end_hour Hs He) as (h & Hh & Hw).
  rewrite Hw in Hus.
  destruct (total_seconds_hours _ h Hh Hus) as (tw & Htw & Hof & Hto).
  do 2 eexists. exists tw.
  split; [apply window_bounds_ok; assumption|].
  cbn [dt_ordinal]. unfold same_day in Hday.
  split; [destruct (Z.leb_spec end_hour start_hour); lia|].
  split; [destruct (Z.leb_spec end_hour start_hour); lia|].
  split; [exact Htw|].
  assert (Hsec : (if end_hour =? start_hour then 24
                  else (end_hour - start_hour) mod 24) * 3600 = h * 3600).
  { rewrite <- Hw. unfold window_seconds.
    destruct (Z.eqb_spec end_hour start_hour) as [->|Hne].
    - rewrite Z.leb_refl. lia.
    - destruct (Z.leb_spec end_hour start_hour);
        Z.to_euclidean_division_equations; lia. }
  cbn zeta. rewrite Hsec.
  repeat split; try assumption; lia.
Qed.

Lemma window_length_witness :
  exists start_time end_time time_window,
    window_bounds sample_clock 22 4 = Ok (start_time, end_time)
    /\ dt_ordinal end_time = dt_ordinal start_time + 1
    /\ time_window_of start_time end_time = Ok time_window
    /\ Float.to_int time_window = Ok 21600.
Proof.
  destruct (window_length sample_clock 22 4)
    as (st & et & tw & Hb & Hnext & _ & Htw & _ & _ & _ & Hto);
    [lia | lia | reflexivity |].
  exists st, et, tw. repeat split; try assumption. apply Hnext. lia.
Defined.

(** C7. The end of the window is taken from the second reading of the
    clock.  On a run that reads the clock just before midnight at line 12
    and just after midnight at line 13, with [start_hour = 22] and
    [end_hour = 4] the end of the window lies two days after its start and
    the window is 108000 seconds long, not [((4 - 22) mod 24) * 3600 =
    21600]. *)
Theorem window_length_across_midnight :
  exists start_time end_time time_window,
    window_bounds midnight_clock 22 4 = Ok (start_time, end_time)
    /\ dt_ordinal end_time = dt_ordinal start_time + 2
    /\ time_window_of start_time end_time = Ok time_window
    /\ td_total_us (datetime_sub end_time start_time) = 108000 * 1000000
    /\ Float.to_int time_window = Ok 108000
    /\ ((4 - 22) mod 24) * 3600 = 21600.
Proof.
  do 3 eexists.
  split; [vm_compute; reflexivity|].
  split; [reflexivity|].
  split; [vm_compute; reflexivity|].
  split; [reflexivity|].
  split; reflexivity.
Qed.

(** C8. For every trip and every integer that the generator may return, the
    variation lies in the closed interval from [-m] to [m], where [m] is
    the integer part of [time_per_trip * 0.1] and [time_per_trip] is the
    window in seconds divided by the number of trips; the departure time
    of the trip so differs from its nominal time by the variation, at most
    [m] seconds either way. *)
Theorem jitter_bounds {G : Type} `{RandomSource G}
  (clk : clock) (num_agents trips_per_agent start_hour end_hour : Z)
  (g g' : G) (pop : element) :
  valid_input num_agents trips_per_agent start_hour end_hour ->
  population_tree clk num_agents trips_per_agent start_hour end_hour g
  = Ok (pop, g') ->
  exists start_time end_time time_window total_trips time_per_trip m,
    window_bounds clk start_hour end_hour = Ok (start_time, end_time)
    /\ time_window_of start_time end_time = Ok time_window
    /\ Float.of_int (num_agents * trips_per_agent) = Ok total_trips
    /\ Float.truediv time_window total_trips = Ok time_per_trip
    /\ Float.to_int (Float.mul time_per_trip Float.tenth) = Ok m
    /\ 0 <= m
    /\ forall a t,
        0 <= a < num_agents -> 0 <= t < trips_per_agent ->
        exists nominal variation trip_time first_act leg final_act,
          nominal_time start_time time_per_trip trips_per_agent a t
          = Ok nominal
          /\ - m <= variation <= m
          /\ add_variation nominal variation = Ok trip_time
          /\ dt_instant_us trip_time - dt_instant_us nominal
             = variation * 1000000
          /\ Z.abs (dt_instant_us trip_time - dt_instant_us nominal)
             <= m * 1000000
          /\ trip_at pop a t = Some (first_act, leg, final_act)
          /\ get first_act "end_time" = Some (strftime_HMS trip_time).
Proof.
  intros (Hna & Htpa & _) Hrun.
  destruct (run_trips _ _ _ _ _ _ _ _ Hrun) as (st & tpt & Hsched & Htrips).
  destruct Hsched as (et & tw & Hb & Htw & Htpt).
  unfold time_per_trip_of in Htpt.
  apply result_bind_ok in Htpt as (total & Htotal & Hdiv).
  destruct (Htrips 0 0 ltac:(lia) ltac:(lia))
    as (_ & (_ & m & _ & _ & Hm & Hm0 & _) & _).
  unfold max_variation_of in Hm.
  exists st, et, tw, total, tpt, m. repeat (split; [assumption|]).
  split; [lia|].
  intros a t Ha Ht.
  destruct (Htrips a t Ha Ht)
    as (tt & (nominal & mv & g0 & Hnom & Hmv & Hle & Hadd) & Htrip).
  unfold max_variation_of in Hmv. rewrite Hm in Hmv. injection Hmv as <-.
  pose proof (draw_range (- m) m g0 Hle) as Hrange.
  pose proof (add_variation_instant _ _ _ Hadd) as Hinst.
  exists nominal, (fst (draw (- m) m g0)), tt. do 3 eexists.
  repeat (split; [first [assumption | lia]|]).
  split; [exact Htrip | reflexivity].
Qed.

Lemma jitter_bounds_witness :
  exists time_per_trip nominal variation trip_time,
    Float.to_int (Float.mul time_per_trip Float.tenth) = Ok 270
    /\ nominal_time (mk_datetime 739924 6 0 0 0) time_per_trip 2 0 1
       = Ok nominal
    /\ - 270 <= variation <= 270
    /\ add_variation nominal variation = Ok trip_time
    /\ dt_instant_us trip_time - dt_instant_us nominal = variation * 1000000.
Proof.
  destruct (jitter_bounds sample_clock 2 2 6 9 sample_draws []
              sample_population)
    as (st & et & tw & total & tpt & m & Hb & Htw & Htotal & Hdiv & Hm & _
        & Htrips).
  - unfold valid_input. lia.
  - exact sample_run.
  - vm_compute in Hb. injection Hb as <- <-.
    vm_compute in Htw. injection Htw as <-.
    vm_compute in Htotal. injection Htotal as <-.
    vm_compute in Hdiv. injection Hdiv as <-.
    vm_compute in Hm. injection Hm as <-.
    destruct (Htrips 0 1 ltac:(lia) ltac:(lia))
      as (nominal & v & tt & _ & _ & _ & Hnom & Hv & Hadd & Hinst & _).
    eexists. exists nominal, v, tt.
    split; [|repeat split; first [exact Hnom | exact Hadd | exact Hinst | lia]].
    vm_compute. reflexivity.
Defined.

(** What C9 says, on clocks read twice on one day.  Two runs
    of [create_population] with the same arguments, and with generators
    that return the same sequence of integers, return the same text (or
    raise the same exception) whatever the days on which they run; the day
    that [datetime.now()] reads has no part in the output. *)
Theorem output_independent_of_day {G1 G2 : Type}
  `{RandomSource G1} `{RandomSource G2} (R : G1 -> G2 -> Prop)
  (clk1 clk2 : clock)
  (num_agents trips_per_agent start_hour end_hour : Z) (g1 : G1) (g2 : G2) :
  same_draws R -> R g1 g2 ->
  same_day clk1 -> same_day clk2 ->
  agree R
    (create_population clk1 num_agents trips_per_agent start_hour end_hour g1)
    (create_population clk2 num_agents trips_per_agent start_hour end_hour g2).
Proof.
  intros HR Hg Hd1 Hd2. unfold create_population, bind.
  rewrite (population_tree_any_day clk1 clk2 _ _ _ _ g2 Hd1 Hd2).
  pose proof (population_tree_agree R HR clk1 num_agents trips_per_agent
                start_hour end_hour g1 g2 Hg) as Htree.
  unfold agree in Htree.
  destruct (population_tree clk1 _ _ _ _ g1) as [[pop1 g1']|e1],
           (population_tree clk1 _ _ _ _ g2) as [[pop2 g2']|e2];
    try contradiction.
  - destruct Htree as [-> Hg']. cbn. split; [reflexivity | exact Hg'].
  - exact Htree.
Qed.

(** A script of zeros and the source that always returns zero, on two days *)
Lemma output_independent_of_day_witness :
  exists text,
    create_population sample_clock 2 2 6 9 [0; 0; 0; 0] = Ok (text, [])
    /\ create_population other_clock 2 2 6 9 tt = Ok (text, tt).
Proof.
  assert (HR : same_draws
                 (fun (g1 : list Z) (_ : unit) => Forall (fun v => v = 0) g1)).
  { intros a b g1 [] Hz. destruct g1 as [|v g1]; cbn.
    - split; [reflexivity | constructor].
    - inversion Hz; subst. split; [reflexivity | assumption]. }
  pose proof (output_independent_of_day _ sample_clock other_clock 2 2 6 9
                [0; 0; 0; 0] tt HR ltac:(repeat constructor)
                eq_refl eq_refl) as Hagree.
  assert (Hrun : exists text,
             create_population sample_clock 2 2 6 9 [0; 0; 0; 0]
             = Ok (text, [])) by (eexists; vm_compute; reflexivity).
  destruct Hrun as (text & Hrun). exists text. split; [exact Hrun|].
  rewrite Hrun in Hagree.
  destruct (create_population other_clock 2 2 6 9 tt) as [[text' []]|e];
    cbn in Hagree.
  - destruct Hagree as [-> _]. reflexivity.
  - contradiction.
Defined.

(** C9. The clock has a part in the output.  Two runs with the same
    arguments and the same draws, one reading the clock twice on one day
    and one reading it just before midnight at line 12 and just after
    midnight at line 13, return different texts. *)
Theorem output_depends_on_clock :
  exists text text',
    create_population sample_clock 2 2 6 9 sample_draws = Ok (text, [])
    /\ create_population midnight_clock 2 2 6 9 sample_draws = Ok (text', [])
    /\ text <> text'
    /\ ~ agree eq
          (create_population sample_clock 2 2 6 9 sample_draws)
          (create_population midnight_clock 2 2 6 9 sample_draws).
Proof.
  assert (Hne : forall x y, String.eqb x y = false -> x <> y).
  { intros x y Hxy Heq. apply String.eqb_eq in Heq. congruence. }
  destruct (create_population sample_clock 2 2 6 9 sample_draws)
    as [[text g1]|e1] eqn:H1; [|vm_compute in H1; discriminate].
  destruct (create_population midnight_clock 2 2 6 9 sample_draws)
    as [[text' g2]|e2] eqn:H2; [|vm_compute in H2; discriminate].
  vm_compute in H1. injection H1 as <- <-.
  vm_compute in H2. injection H2 as <- <-.
  do 2 eexists. split; [reflexivity|]. split; [reflexivity|].
  split; [apply Hne; vm_compute; reflexivity|].
  cbn [agree]. intros [Heq _]. revert Heq. apply Hne. vm_compute. reflexivity.
Qed.

(** C10. Every [end_time] in the output is the time of day of its instant,
    that is the instant reduced modulo 24 hours, written as eight
    characters HH:MM:SS without a mark of the day; the instant is the
    departure time of a trip or, on the final activity of a trip that is
    not the last, that time plus 30 minutes.  An instant on the following
    day so gives a text that is smaller than the texts before it in the
    plan: in the overnight run 22:30:00 is followed by 01:00:00. *)
Theorem end_time_is_time_of_day :
  (forall (G : Type) (RS : RandomSource G) clk num_agents trips_per_agent
          start_hour end_hour (g g' : G) pop,
      population_tree clk num_agents trips_per_agent start_hour end_hour g
      = Ok (pop, g') ->
      exists start_time time_per_trip,
        schedule clk num_agents trips_per_agent start_hour end_hour
          start_time time_per_trip
        /\ forall e s,
            In e (all_elements pop) ->
            get e "end_time" = Some s ->
            String.length s = 8%nat
            /\ exists a t trip_time,
                0 <= a < num_agents /\ 0 <= t < trips_per_agent
                /\ departure start_time time_per_trip trips_per_agent a t
                     trip_time
                /\ (s = wall_clock (dt_instant_us trip_time)
                    \/ t < trips_per_agent - 1
                       /\ s = wall_clock
                                (dt_instant_us trip_time + 30 * 60 * 1000000)))
  /\ (population_tree sample_clock 1 2 22 4 tt = Ok (overnight_population, tt)
      /\ exists plan,
          plan_at overnight_population 0 = Some plan
          /\ map (fun e => get e "end_time") (activities plan)
             = [Some "22:00:00"; Some "22:30:00"; Some "01:00:00"; None]
          /\ String.ltb "01:00:00" "22:30:00" = true).
Proof.
  split.
  - intros G RS clk na tpa sh eh g g' pop Hrun.
    destruct (population_tree_ok _ _ _ _ _ _ _ _ Hrun)
      as (st & tpt & people & Hsched & Hpeople & ->).
    exists st, tpt. split; [exact Hsched|].
    intros e s Hin Hs.
    destruct (end_time_in_plan st tpt na tpa people Hpeople e s Hin Hs)
      as (a & plan & Ha & Hplan & Hchild).
    destruct (end_time_of_plan_child st tpt na tpa people Hpeople a plan e s
                Ha Hplan Hchild Hs) as (t & tt & Ht & Hdep & Htext).
    split.
    + destruct Htext as [->|[_ ->]]; apply wall_clock_length.
    + exists a, t, tt. repeat split; try assumption; lia.
  - split; [vm_compute; reflexivity|].
    eexists. split; [vm_compute; reflexivity|].
    split; vm_compute; reflexivity.
Qed.

Lemma end_time_is_time_of_day_witness :
  exists start_time time_per_trip,
    schedule sample_clock 1 2 22 4 start_time time_per_trip
    /\ forall e s,
        In e (all_elements overnight_population) ->
        get e "end_time" = Some s ->
        String.length s = 8%nat.
Proof.
  destruct end_time_is_time_of_day as [Hgen [Hrun _]].
  destruct (Hgen unit zero_source sample_clock 1 2 22 4 tt tt
              overnight_population Hrun) as (st & tpt & Hsched & Htimes).
  exists st, tpt. split; [exact Hsched|].
  intros e s Hin Hs. apply (Htimes e s Hin Hs).
Defined.

(* ===================================================================== *)
(** ** Outside the valid inputs *)
(* ===================================================================== *)

Lemma binary_round_aux_sign (s : bool) (m e : Z) (l : location) :
  binary_round_aux Float.prec Float.emax s m e l
  = with_sign s (binary_round_aux Float.prec Float.emax false m e l).
Proof.
  unfold binary_round_aux.
  destruct (shr_fexp Float.prec Float.emax m e l) as [mrs1 e1].
  destruct (shr_fexp Float.prec Float.emax _ e1 loc_Exact) as [mrs2 e2].
  destruct (shr_m mrs2); [reflexivity | | reflexivity].
  destruct (e2 <=? Float.emax - Float.prec); reflexivity.
Qed.

Lemma binary_round_sign (s : bool) (m : positive) (e : Z) :
  binary_round Float.prec Float.emax s m e
  = with_sign s (binary_round Float.prec Float.emax false m e).
Proof.
  unfold binary_round.
  destruct (shl_align m e _) as [mz ez]. apply binary_round_aux_sign.
Qed.

(** A count other than zero, of magnitude below [2 ^ 1023], is converted to
    a float other than zero. *)
Lemma of_int_nonzero (n : Z) :
  n <> 0 -> Z.abs n < 2 ^ 1023 ->
  exists s m e, Float.of_int n = Ok (S754_finite s m e).
Proof.
  intros Hn Habs. destruct n as [|p|p]; [contradiction | |].
  - destruct (of_int_pos (Zpos p) ltac:(lia)) as (m & e & Hof & _).
    exists false, m, e. exact Hof.
  - destruct (of_int_pos (Zpos p) ltac:(lia)) as (m & e & Hof & _).
    exists true, m, e. unfold Float.of_int in *. cbn [binary_normalize] in *.
    rewrite binary_round_sign.
    destruct (binary_round Float.prec Float.emax false p 0) as [| | |s0 m0 e0];
      try discriminate.
    injection Hof as -> -> ->. reflexivity.
Qed.

(** The steps before the loops, for hours in range on a clock read twice on
    one day, and a count of trips that is converted to a float *)
Lemma schedule_ok (clk : clock)
  (num_agents trips_per_agent start_hour end_hour : Z) :
  0 <= start_hour <= 23 -> 0 <= end_hour <= 23 -> same_day clk ->
  num_agents * trips_per_agent <> 0 ->
  Z.abs (num_agents * trips_per_agent) < 2 ^ 1023 ->
  exists start_time time_per_trip,
    schedule clk num_agents trips_per_agent start_hour end_hour
      start_time time_per_trip.
Proof.
  intros Hs He Hday Hne Habs.
  destruct (window_seconds_range start_hour end_hour Hs He) as (h & Hh & Hw).
  pose proof (window_total_us clk start_hour end_hour Hday) as Hus.
  rewrite Hw in Hus.
  destruct (total_seconds_hours _ h Hh Hus) as (tw & Htw & _ & _).
  destruct (of_int_nonzero _ Hne Habs) as (s & m & e & Hof).
  do 2 eexists. unfold schedule. eexists. exists tw.
  split; [apply window_bounds_ok; assumption|]. split; [exact Htw|].
  unfold time_per_trip_of. rewrite Hof. reflexivity.
Qed.

Lemma population_tree_schedule {G : Type} `{RandomSource G} (clk : clock)
  (num_agents trips_per_agent start_hour end_hour : Z)
  (start_time : datetime) (time_per_trip : Float.float) (g : G) :
  schedule clk num_agents trips_per_agent start_hour end_hour
    start_time time_per_trip ->
  population_tree clk num_agents trips_per_agent start_hour end_hour g
  = for_each (range num_agents)
      (agent_body start_time time_per_trip trips_per_agent)
      (new_element "population") g.
Proof.
  intros (et & tw & Hb & Htw & Htpt).
  unfold population_tree, bind, lift. rewrite Hb, Htw, Htpt. reflexivity.
Qed.

Lemma range_nonpositive (n : Z) : n <= 0 -> range n = [].
Proof. intros Hn. unfold range. replace (Z.to_nat n) with 0%nat by lia. reflexivity. Qed.



(** An hour outside 0..23 raises, whatever the other arguments, the clock
    and the generator: the start hour is looked at first, and the hour at
    fault raises [ValueError] when it fits a C [int] and [OverflowError]
    when it does not. *)
Theorem create_population_bad_hour {G : Type} `{RandomSource G}
  (clk : clock) (num_agents trips_per_agent start_hour end_hour : Z) (g : G) :
  ~ (0 <= start_hour <= 23 /\ 0 <= end_hour <= 23) ->
  let hour := if (0 <=? start_hour) && (start_hour <=? 23)
              then end_hour else start_hour in
  create_population clk num_agents trips_per_agent start_hour end_hour g
  = Raise (if (-2147483648 <=? hour) && (hour <=? 2147483647)
           then ValueError else OverflowError).
Proof.
  intros Hbad.
  unfold create_population, population_tree, bind, lift, window_bounds,
    replace_hour, fits_c_int.
  destruct (Z.leb_spec 0 start_hour), (Z.leb_spec start_hour 23);
    cbn [andb]; cbv zeta;
    destruct (Z.leb_spec (-2147483648) start_hour),
             (Z.leb_spec start_hour 2147483647);
    cbn [andb negb result_bind]; try reflexivity; try lia.
  destruct (Z.leb_spec 0 end_hour), (Z.leb_spec end_hour 23);
    cbn [andb];
    destruct (Z.leb_spec (-2147483648) end_hour),
             (Z.leb_spec end_hour 2147483647);
    cbn [andb negb result_bind]; try reflexivity; try lia;
    exfalso; apply Hbad; lia.
Qed.

Lemma create_population_bad_hour_witness :
  create_population sample_clock 2 2 6 24 sample_draws = Raise ValueError
  /\ create_population sample_clock 2 2 (2 ^ 31) 9 sample_draws
     = Raise OverflowError.
Proof.
  split.
  - apply (create_population_bad_hour sample_clock 2 2 6 24 sample_draws). lia.
  - apply (create_population_bad_hour sample_clock 2 2 (2 ^ 31) 9
             sample_draws).
    change (2 ^ 31) with 2147483648. lia.
Defined.

(** Without trips, that is with a count of agents or of trips per agent
    equal to zero, the division of line 20 raises [ZeroDivisionError]. *)
Theorem create_population_no_trips {G : Type} `{RandomSource G}
  (clk : clock) (num_agents trips_per_agent start_hour end_hour : Z) (g : G) :
  0 <= start_hour <= 23 -> 0 <= end_hour <= 23 -> same_day clk ->
  num_agents * trips_per_agent = 0 ->
  create_population clk num_agents trips_per_agent start_hour end_hour g
  = Raise ZeroDivisionError.
Proof.
  intros Hs He Hday Hzero.
  destruct (window_seconds_range start_hour end_hour Hs He) as (h & Hh & Hw).
  pose proof (window_total_us clk start_hour end_hour Hday) as Hus.
  rewrite Hw in Hus.
  destruct (total_seconds_hours _ h Hh Hus) as (tw & Htw & _ & _).
  unfold create_population, population_tree, bind, lift.
  rewrite window_bounds_ok by assumption.
  unfold time_window_of. rewrite Htw, Hzero. reflexivity.
Qed.

Lemma create_population_no_trips_witness :
  create_population sample_clock 0 5 6 9 sample_draws = Raise ZeroDivisionError.
Proof.
  apply (create_population_no_trips sample_clock 0 5 6 9 sample_draws);
    [lia | lia | reflexivity | reflexivity].
Defined.

(** A negative count of agents, with a count of trips per agent other than
    zero, returns the document of a population without persons, and leaves
    the generator as it was. *)
Theorem create_population_negative_agents {G : Type} `{RandomSource G}
  (clk : clock) (num_agents trips_per_agent start_hour end_hour : Z) (g : G) :
  0 <= start_hour <= 23 -> 0 <= end_hour <= 23 -> same_day clk ->
  num_agents < 0 -> trips_per_agent <> 0 ->
  Z.abs (num_agents * trips_per_agent) < 2 ^ 1023 ->
  create_population clk num_agents trips_per_agent start_hour end_hour g
  = Ok (empty_document, g).
Proof.
  intros Hs He Hday Hna Htpa Habs.
  destruct (schedule_ok clk num_agents trips_per_agent start_hour end_hour
              Hs He Hday ltac:(nia) Habs) as (st & tpt & Hsched).
  unfold create_population, bind.
  rewrite (population_tree_schedule _ _ _ _ _ _ _ g Hsched).
  rewrite range_nonpositive by lia. reflexivity.
Qed.

Lemma create_population_negative_agents_witness :
  create_population sample_clock (-3) (-1) 6 9 sample_draws
  = Ok (empty_document, sample_draws).
Proof.
  apply (create_population_negative_agents sample_clock (-3) (-1) 6 9
           sample_draws); try lia; reflexivity.
Defined.



(** Rounding a mantissa whose magnitude is beyond the largest float gives
    infinity. *)
Lemma round_aux_overflow (mx ex : Z) (lx : location) :
  0 < mx ->
  ex <= fexp Float.prec Float.emax (Zdigits2 mx + ex) ->
  Float.emax < Zdigits2 mx + ex ->
  binary_round_aux Float.prec Float.emax false mx ex lx = S754_infinity false.
Proof.
  intros Hmx Hex HM. unfold binary_round_aux.
  set (M := Zdigits2 mx + ex) in *.
  pose proof (shr_fexp_spec mx ex lx ltac:(lia)) as [Hm1 He1].
  destruct (shr_fexp Float.prec Float.emax mx ex lx) as [mrs1 e1].
  cbn [fst snd] in Hm1, He1. fold M in Hm1, He1.
  rewrite Z.max_r in Hm1, He1 by lia.
  set (m2 := round_nearest_even (shr_m mrs1) (loc_of_shr_record mrs1)).
  assert (Hm2 : m2 = shr_m mrs1 \/ m2 = shr_m mrs1 + 1) by apply rne_cases.
  rewrite fexp_eq in *. unfold Float.emax in HM.
  pose proof (Zdigits2_pos mx Hmx) as Hdx.
  destruct (Zdigits2_shiftr mx (Z.max (M - 53) (-1074) - ex) Hmx
              ltac:(unfold M in *; lia)) as [Hm1pos Hd1].
  rewrite <- Hm1 in Hm1pos, Hd1.
  assert (Hd2 : Zdigits2 (shr_m mrs1) <= Zdigits2 m2
                <= Zdigits2 (shr_m mrs1) + 1).
  { destruct Hm2 as [->| ->]; [lia | apply Zdigits2_succ; assumption]. }
  assert (Hm2pos : 0 < m2) by lia.
  pose proof (shr_fexp_spec m2 e1 loc_Exact ltac:(lia)) as [Hm3 He2].
  destruct (shr_fexp Float.prec Float.emax m2 e1 loc_Exact) as [mrs2 e2].
  cbn [fst snd] in Hm3, He2. rewrite fexp_eq in Hm3, He2.
  set (n2 := Z.max 0 (Z.max (Zdigits2 m2 + e1 - 53) (-1074) - e1)) in *.
  assert (Hn2 : 0 <= n2 <= 1) by (unfold n2, M in *; lia).
  destruct (Zdigits2_shiftr m2 n2 Hm2pos ltac:(unfold M in *; lia))
    as [Hm3pos _].
  rewrite <- Hm3 in Hm3pos.
  destruct (shr_m mrs2) as [|p3|p3]; try lia.
  destruct (Z.leb_spec e2 (Float.emax - Float.prec)) as [Hle|_];
    [|reflexivity].
  exfalso. unfold Float.emax, Float.prec, M in *. lia.
Qed.

Lemma of_int_overflow (n : Z) :
  2 ^ 1024 <= Z.abs n -> Float.of_int n = Raise OverflowError.
Proof.
  intros Hn. destruct n as [|p|p]; [cbn in Hn; lia | |];
    assert (Hd : 1025 <= Zdigits2 (Zpos p))
      by (apply Zdigits2_ge; [lia | exact Hn]);
    cbn [Zdigits2] in Hd;
    assert (Hr : binary_round Float.prec Float.emax false p 0
                 = S754_infinity false).
  1,3: unfold binary_round, shl_align;
    rewrite fexp_eq;
    destruct (Z.max (Zpos (digits2_pos p) + 0 - 53) (-1074) - 0) as [|q|q] eqn:E;
    try lia;
    apply round_aux_overflow; cbn [Zdigits2]; rewrite ?fexp_eq;
    unfold Float.emax; lia.
  - unfold Float.of_int. cbn [binary_normalize]. rewrite Hr. reflexivity.
  - unfold Float.of_int. cbn [binary_normalize].
    rewrite binary_round_sign, Hr. reflexivity.
Qed.

Lemma population_tree_too_many_trips {G : Type} `{RandomSource G}
  (clk : clock) (num_agents trips_per_agent start_hour end_hour : Z) (g : G) :
  0 <= start_hour <= 23 -> 0 <= end_hour <= 23 -> same_day clk ->
  2 ^ 1024 <= Z.abs (num_agents * trips_per_agent) ->
  population_tree clk num_agents trips_per_agent start_hour end_hour g
  = Raise OverflowError.
Proof.
  intros Hs He Hday Hbig.
  destruct (window_seconds_range start_hour end_hour Hs He) as (h & Hh & Hw).
  pose proof (window_total_us clk start_hour end_hour Hday) as Hus.
  rewrite Hw in Hus.
  destruct (total_seconds_hours _ h Hh Hus) as (tw & Htw & _ & _).
  unfold population_tree, bind, lift.
  rewrite window_bounds_ok by assumption.
  unfold time_window_of. rewrite Htw.
  unfold time_per_trip_of. rewrite (of_int_overflow _ Hbig). reflexivity.
Qed.

(** From [2 ^ 1024] trips on, the count of trips is beyond the floats and
    the division of line 20 raises [OverflowError]. *)
Theorem create_population_too_many_trips {G : Type} `{RandomSource G}
  (clk : clock) (num_agents trips_per_agent start_hour end_hour : Z) (g : G) :
  0 <= start_hour <= 23 -> 0 <= end_hour <= 23 -> same_day clk ->
  2 ^ 1024 <= Z.abs (num_agents * trips_per_agent) ->
  create_population clk num_agents trips_per_agent start_hour end_hour g
  = Raise OverflowError.
Proof.
  intros Hs He Hday Hbig. unfold create_population, bind.
  rewrite (population_tree_too_many_trips clk _ _ _ _ g Hs He Hday Hbig).
  reflexivity.
Qed.

Lemma create_population_too_many_trips_witness :
  create_population sample_clock (2 ^ 1000) (2 ^ 30) 6 9 sample_draws
  = Raise OverflowError.
Proof.
  apply (create_population_too_many_trips sample_clock (2 ^ 1000) (2 ^ 30) 6 9
           sample_draws); [lia | lia | reflexivity |].
  vm_compute. discriminate.
Defined.

(* ===================================================================== *)
(** ** Identifiers and places *)
(* ===================================================================== *)

Lemma to_int_not_nil (n : Z) :
  Z.to_int n <> Decimal.Pos Decimal.Nil /\ Z.to_int n <> Decimal.Neg Decimal.Nil.
Proof.
  destruct n as [|p|p]; cbn; split; try discriminate; intros Heq;
    injection Heq as Heq; exact (Stdlib.Numbers.DecimalPos.Unsigned.to_uint_nonnil p Heq).
Qed.

(** The decimal digits of an integer are read back as the integer. *)
Lemma str_of_int_parse (n : Z) :
  option_map Z.of_int (NilZero.int_of_string (str_of_int n)) = Some n.
Proof.
  unfold str_of_int. destruct (to_int_not_nil n) as [Hp Hn].
  rewrite (NilZero.isi _ Hp Hn). cbn [option_map].
  rewrite Stdlib.Numbers.DecimalZ.of_to. reflexivity.
Qed.

Lemma str_of_int_inj (a b : Z) : str_of_int a = str_of_int b -> a = b.
Proof.
  intros Heq. pose proof (str_of_int_parse a) as Ha.
  rewrite Heq, str_of_int_parse in Ha. congruence.
Qed.

Lemma vehicle_type_cases (i : Z) :
  vehicle_type_of i = "ev" \/ vehicle_type_of i = "lev"
  \/ vehicle_type_of i = "hev".
Proof.
  unfold vehicle_type_of. cbn [vehicle_types List.length Z.of_nat].
  change (Z.pos (Pos.of_succ_nat 2)) with 3.
  pose proof (Z.mod_pos_bound i 3 ltac:(lia)) as Hm.
  assert (Hcases : i mod 3 = 0 \/ i mod 3 = 1 \/ i mod 3 = 2) by lia.
  destruct Hcases as [-> | [-> | ->]]; cbn; auto.
Qed.

Lemma agent_id_inj (i j : Z) : agent_id_of i = agent_id_of j -> i = j.
Proof.
  unfold agent_id_of. intros Heq. apply str_of_int_inj.
  destruct (vehicle_type_cases i) as [Hi | [Hi | Hi]],
           (vehicle_type_cases j) as [Hj | [Hj | Hj]];
    rewrite Hi, Hj in Heq; cbn in Heq; try discriminate;
    injection Heq as Heq; exact Heq.
Qed.

(** The identifiers of the persons are pairwise distinct: two agents with
    different indices never share an [id]. *)
Theorem person_ids_distinct {G : Type} `{RandomSource G}
  (clk : clock) (num_agents trips_per_agent start_hour end_hour : Z)
  (g g' : G) (pop : element) (i j : Z) :
  population_tree clk num_agents trips_per_agent start_hour end_hour g
  = Ok (pop, g') ->
  0 <= i < num_agents -> 0 <= j < num_agents -> i <> j ->
  exists p q id_p id_q,
    person_at pop i = Some p /\ person_at pop j = Some q
    /\ get p "id" = Some id_p /\ get q "id" = Some id_q
    /\ id_p <> id_q.
Proof.
  intros Hrun Hi Hj Hne.
  destruct (population_tree_ok _ _ _ _ _ _ _ _ Hrun)
    as (st & tpt & people & _ & Hpeople & ->).
  destruct (person_at_shape st tpt num_agents trips_per_agent people i
              Hpeople Hi) as (p & Hp & (actsp & _ & Hpeq)).
  destruct (person_at_shape st tpt num_agents trips_per_agent people j
              Hpeople Hj) as (q & Hq & (actsq & _ & Hqeq)).
  exists p, q, (agent_id_of i), (agent_id_of j).
  split; [exact Hp|]. split; [exact Hq|].
  split; [rewrite Hpeq; reflexivity|]. split; [rewrite Hqeq; reflexivity|].
  intros Heq. apply Hne, agent_id_inj, Heq.
Qed.

Lemma person_ids_distinct_witness :
  exists p q id_p id_q,
    person_at sample_population 0 = Some p
    /\ person_at sample_population 1 = Some q
    /\ get p "id" = Some id_p /\ get q "id" = Some id_q
    /\ id_p <> id_q.
Proof.
  apply (person_ids_distinct sample_clock 2 2 6 9 sample_draws []
           sample_population 0 1 sample_run); lia.
Defined.

(** Every trip but the first starts where the trip before it ended: the
    final activity of a trip and the first activity of the next trip have
    the same type and the same link. *)
Theorem trips_are_chained {G : Type} `{RandomSource G}
  (clk : clock) (num_agents trips_per_agent start_hour end_hour : Z)
  (g g' : G) (pop : element) (a t : Z) :
  population_tree clk num_agents trips_per_agent start_hour end_hour g
  = Ok (pop, g') ->
  0 <= a < num_agents -> 0 <= t -> t + 1 < trips_per_agent ->
  exists first_act leg final_act next_first next_leg next_final,
    trip_at pop a t = Some (first_act, leg, final_act)
    /\ trip_at pop a (t + 1) = Some (next_first, next_leg, next_final)
    /\ get final_act "type" = get next_first "type"
    /\ get final_act "link" = get next_first "link"
    /\ get final_act "type" <> None /\ get final_act "link" <> None.
Proof.
  intros Hrun Ha Ht0 Ht1.
  destruct (run_trips _ _ _ _ _ _ _ _ Hrun) as (st & tpt & _ & Htrips).
  destruct (Htrips a t Ha ltac:(lia)) as (tt & _ & Htrip).
  destruct (Htrips a (t + 1) Ha ltac:(lia)) as (tt' & _ & Htrip').
  do 6 eexists. split; [exact Htrip|]. split; [exact Htrip'|].
  unfold first_act_of, final_act_of.
  assert (Hpar : ((t + 1) mod 2 =? 1) = negb (t mod 2 =? 1)).
  { rewrite !Zmod_odd, Z.odd_add. destruct (Z.odd t); reflexivity. }
  rewrite Hpar.
  destruct (t mod 2 =? 1); cbn; repeat split; discriminate.
Qed.

Lemma trips_are_chained_witness :
  exists first_act leg final_act next_first next_leg next_final,
    trip_at sample_population 1 0 = Some (first_act, leg, final_act)
    /\ trip_at sample_population 1 1 = Some (next_first, next_leg, next_final)
    /\ get final_act "type" = get next_first "type"
    /\ get final_act "link" = get next_first "link".
Proof.
  destruct (trips_are_chained sample_clock 2 2 6 9 sample_draws []
              sample_population 1 0 sample_run)
    as (a1 & l1 & f1 & a2 & l2 & f2 & H1 & H2 & Htype & Hlink & _);
    [lia | lia | lia |].
  exists a1, l1, f1, a2, l2, f2. repeat split; assumption.
Defined.

(* ===================================================================== *)
(** ** Dense schedules *)
(* ===================================================================== *)

(** The magnitude of the time between two trips, for the schedule of a
    valid input on a clock read twice on one day *)
Lemma schedule_magnitude (clk : clock)
  (num_agents trips_per_agent start_hour end_hour : Z)
  (start_time : datetime) (time_per_trip : Float.float) :
  0 <= start_hour <= 23 -> 0 <= end_hour <= 23 -> same_day clk ->
  0 < num_agents * trips_per_agent < 2 ^ 1023 ->
  schedule clk num_agents trips_per_agent start_hour end_hour
    start_time time_per_trip ->
  nonneg_below
    (Z.max (20 - Zdigits2 (num_agents * trips_per_agent)) (-1073))
    time_per_trip.
Proof.
  intros Hs He Hday Htotal (et & tw & Hb & Htw & Htpt).
  rewrite (window_bounds_ok clk _ _ Hs He) in Hb. injection Hb as <- <-.
  destruct (window_seconds_range start_hour end_hour Hs He) as (h & Hh & Hw).
  pose proof (window_total_us clk start_hour end_hour Hday) as Hus.
  rewrite Hw in Hus.
  destruct (total_seconds_hours _ h Hh Hus) as (tw' & Htw' & Hof & _).
  unfold time_window_of in Htw. rewrite Htw' in Htw. injection Htw as <-.
  destruct (time_per_trip_ok h _ tw' Hh Hof Htotal) as (tpt & Htpt' & Hmag).
  rewrite Htpt' in Htpt. injection Htpt as <-. exact Hmag.
Qed.

(** With [2 ^ 17 = 131072] trips or more, the amplitude of the variation is
    zero, [random.randint(0, 0)] is the only call that is made, and every
    trip leaves at its nominal time whatever the generator does. *)
Theorem dense_schedule_is_exact {G : Type} `{RandomSource G}
  (clk : clock) (num_agents trips_per_agent start_hour end_hour : Z)
  (g g' : G) (pop : element) :
  valid_input num_agents trips_per_agent start_hour end_hour ->
  same_day clk ->
  2 ^ 17 <= num_agents * trips_per_agent < 2 ^ 1023 ->
  population_tree clk num_agents trips_per_agent start_hour end_hour g
  = Ok (pop, g') ->
  exists start_time time_per_trip,
    schedule clk num_agents trips_per_agent start_hour end_hour
      start_time time_per_trip
    /\ max_variation_of time_per_trip = Ok 0
    /\ forall a t,
        0 <= a < num_agents -> 0 <= t < trips_per_agent ->
        exists nominal first_act leg final_act,
          nominal_time start_time time_per_trip trips_per_agent a t
          = Ok nominal
          /\ trip_at pop a t = Some (first_act, leg, final_act)
          /\ get first_act "end_time" = Some (strftime_HMS nominal).
Proof.
  intros (Hna & Htpa & Hs & He) Hday Hdense Hrun.
  destruct (run_trips _ _ _ _ _ _ _ _ Hrun) as (st & tpt & Hsched & Htrips).
  assert (H17 : 0 < 2 ^ 17) by (apply Z.pow_pos_nonneg; lia).
  assert (Htotal : 0 < num_agents * trips_per_agent < 2 ^ 1023) by lia.
  pose proof (schedule_magnitude clk _ _ _ _ _ _ Hs He Hday Htotal Hsched)
    as Hmag.
  assert (HD : 18 <= Zdigits2 (num_agents * trips_per_agent)).
  { apply Zdigits2_ge; [lia|]. change (18 - 1) with 17. lia. }
  apply (nonneg_below_mono _ 2) in Hmag; [|lia].
  pose proof (mul_nonneg_below _ _ _ _ Hmag tenth_nonneg_below
                ltac:(unfold Float.emax; lia)) as Hamp.
  apply (nonneg_below_mono _ 0) in Hamp; [|lia].
  destruct (to_int_nonneg_below 0 _ ltac:(lia) Hamp) as (mv & Hmv & Hmvlo & Hmvhi).
  change (2 ^ 0) with 1 in Hmvhi. assert (mv = 0) by lia. subst mv.
  change (SFmul Float.prec Float.emax) with Float.mul in Hmv.
  exists st, tpt. split; [exact Hsched|]. split; [exact Hmv|].
  intros a t Ha Ht.
  destruct (Htrips a t Ha Ht)
    as (tt & (nominal & m & g0 & Hnom & Hm & Hle & Hadd) & Htrip).
  unfold max_variation_of in Hm. rewrite Hmv in Hm. injection Hm as <-.
  pose proof (draw_range (- 0) 0 g0 Hle) as Hv.
  replace (fst (draw (- 0) 0 g0)) with 0 in Hadd by lia.
  pose proof (add_variation_instant _ _ _ Hadd) as Hinst.
  pose proof (add_variation_text _ _ _ Hadd) as Htext.
  exists nominal. do 3 eexists.
  split; [exact Hnom|]. split; [exact Htrip|].
  destruct (nominal_time_ok _ _ _ _ _ _ Hnom) as (slot & d & _ & _ & ->).
  rewrite datetime_add_instant in Hinst.
  assert (Heq : strftime_HMS (datetime_add st d) = strftime_HMS tt).
  { rewrite strftime_datetime_add, Htext. f_equal. lia. }
  rewrite Heq. unfold first_act_of. destruct (t mod 2 =? 1); reflexivity.
Qed.

Lemma dense_schedule_is_exact_witness :
  exists pop g' time_per_trip first_act leg final_act,
    population_tree sample_clock 65536 2 6 9 sample_draws = Ok (pop, g')
    /\ max_variation_of time_per_trip = Ok 0
    /\ trip_at pop 0 0 = Some (first_act, leg, final_act)
    /\ get first_act "end_time" = Some "06:00:00".
Proof.
  assert (Hvalid : valid_input 65536 2 6 9) by (unfold valid_input; lia).
  assert (Hday : same_day sample_clock) by reflexivity.
  assert (Hdense : 2 ^ 17 <= 65536 * 2 < 2 ^ 1023)
    by (split; [vm_compute; discriminate | reflexivity]).
  destruct (population_tree_total sample_clock 65536 2 6 9 sample_draws
              Hvalid Hday (proj2 Hdense)) as (pop & g' & Hrun).
  destruct (dense_schedule_is_exact sample_clock 65536 2 6 9
              sample_draws g' pop Hvalid Hday Hdense Hrun)
    as (st & tpt & Hsched & Hm & Htrips).
  destruct (Htrips 0 0 ltac:(lia) ltac:(lia))
    as (nominal & fa & lg & fi & Hnom & Htrip & Hend).
  exists pop, g', tpt, fa, lg, fi.
  split; [exact Hrun|]. split; [exact Hm|]. split; [exact Htrip|].
  destruct Hsched as (et & tw & Hb & Htw & Htpt).
  vm_compute in Hb. injection Hb as <- <-.
  vm_compute in Htw. injection Htw as <-.
  vm_compute in Htpt. injection Htpt as <-.
  vm_compute in Hnom. injection Hnom as <-. exact Hend.
Defined.

(* ===================================================================== *)
(** ** The header of a document *)
(* ===================================================================== *)

Lemma element_induction (P : element -> Prop) :
  (forall t a x c, Forall P c -> P (Element t a x c)) -> forall e, P e.
Proof.
  intros IH. fix rec 1. intros [t a x c]. apply IH.
  induction c as [|e c IHc]; constructor; [apply rec | exact IHc].
Qed.

Lemma has_pi_app (p : bool) (a b : string) :
  has_pi p (a ++ b) = has_pi p a || has_pi (ends_lt p a) b.
Proof.
  revert p. induction a as [|c a IH]; intros p; cbn.
  - reflexivity.
  - rewrite IH, orb_assoc. reflexivity.
Qed.

Lemma ends_lt_app (p : bool) (a b : string) :
  ends_lt p (a ++ b) = ends_lt (ends_lt p a) b.
Proof. revert p. induction a as [|c a IH]; intros p; cbn; [reflexivity | apply IH]. Qed.

Lemma quiet_app (a b : string) : quiet a -> quiet b -> quiet (a ++ b).
Proof.
  intros [Ha Ea] [Hb Eb]. unfold quiet.
  rewrite has_pi_app, ends_lt_app, Ha, Ea, Hb, Eb. split; reflexivity.
Qed.

Lemma quiet_empty : quiet "".
Proof. split; reflexivity. Qed.

Lemma quiet_concat (l : list string) :
  Forall quiet l -> quiet (String.concat "" l).
Proof.
  induction 1 as [|s l Hs Hl IH]; [exact quiet_empty|].
  destruct l as [|s' l'].
  - exact Hs.
  - change (String.concat "" (s :: s' :: l'))
      with (s ++ "" ++ String.concat "" (s' :: l')).
    apply quiet_app; [exact Hs | exact IH].
Qed.

Lemma no_lt_app (a b : string) : no_lt (a ++ b) = no_lt a && no_lt b.
Proof.
  unfold no_lt. induction a as [|c a IH]; cbn; [reflexivity|].
  rewrite IH, andb_assoc. reflexivity.
Qed.

Lemma no_lt_quiet (s : string) : no_lt s = true -> quiet s.
Proof.
  unfold no_lt, quiet. induction s as [|c s IH]; cbn; [tauto|].
  intros Hc. apply andb_prop in Hc as [Hc Hs].
  apply negb_true_iff in Hc. rewrite Hc. exact (IH Hs).
Qed.

Lemma no_lt_write_data (is_attr : bool) (s : string) :
  no_lt (write_data is_attr s) = true.
Proof.
  induction s as [|c s IH]; [reflexivity|].
  cbn [write_data]. rewrite no_lt_app, IH, andb_true_r.
  destruct (Ascii.eqb c "&"); [reflexivity|].
  destruct (Ascii.eqb c "<") eqn:Hlt; [reflexivity|].
  destruct (Ascii.eqb c ">"); [reflexivity|].
  destruct (Ascii.eqb c (ascii_of_nat 34)); [reflexivity|].
  unfold no_lt. cbn [all_chars]. rewrite Hlt. reflexivity.
Qed.

Lemma name_char_plain (c : ascii) :
  name_char c = true -> Ascii.eqb c "<" = false /\ Ascii.eqb c "?" = false.
Proof.
  destruct c as [[] [] [] [] [] [] [] []]; vm_compute;
    intros Hc; try discriminate; split; reflexivity.
Qed.

Lemma name_start_char_name_char (c : ascii) :
  name_start_char c = true -> name_char c = true.
Proof. unfold name_char. intros ->. reflexivity. Qed.

Lemma all_name_chars_no_lt (s : string) :
  all_chars name_char s = true -> no_lt s = true.
Proof.
  unfold no_lt. induction s as [|c s IH]; cbn; [reflexivity|].
  intros Hc. apply andb_prop in Hc as [Hc Hs].
  destruct (name_char_plain c Hc) as [-> _]. exact (IH Hs).
Qed.

(** What follows a [<] or a [</] when it begins with a name *)
Lemma quiet_after_lt (t rest : string) :
  xml_name t = true -> quiet rest -> quiet ("<" ++ t ++ rest).
Proof.
  intros Ht Hrest. destruct t as [|c t]; [discriminate|].
  cbn [xml_name] in Ht. apply andb_prop in Ht as [Hc Ht].
  destruct (name_char_plain c (name_start_char_name_char c Hc)) as [Hlt Hq].
  pose proof (quiet_app _ _ (no_lt_quiet _ (all_name_chars_no_lt _ Ht)) Hrest)
    as [Hh He].
  split; cbn; rewrite ?Hlt, ?Hq; assumption.
Qed.

Lemma xml_name_quiet (t : string) : xml_name t = true -> quiet t.
Proof.
  intros Ht. destruct t as [|c t]; [discriminate|].
  cbn [xml_name] in Ht. apply andb_prop in Ht as [Hc Ht].
  apply no_lt_quiet. unfold no_lt. cbn [all_chars].
  destruct (name_char_plain c (name_start_char_name_char c Hc)) as [-> _].
  exact (all_name_chars_no_lt _ Ht).
Qed.

Lemma quiet_after_lt_slash (t rest : string) :
  xml_name t = true -> quiet rest -> quiet ("</" ++ t ++ rest).
Proof.
  intros Ht Hrest.
  pose proof (quiet_app _ _ (xml_name_quiet _ Ht) Hrest) as [Hh He].
  split; cbn; assumption.
Qed.

Lemma quiet_write_attrs (a : list (string * string)) :
  forallb (fun kv => xml_name (fst kv)) a = true -> quiet (write_attrs a).
Proof.
  intros Ha. unfold write_attrs. apply quiet_concat.
  apply Forall_map, Forall_forall. intros [k v] Hin.
  rewrite forallb_forall in Ha. specialize (Ha _ Hin). cbn [fst snd] in *.
  apply (quiet_app " "); [apply no_lt_quiet; reflexivity|].
  apply quiet_app; [exact (xml_name_quiet _ Ha)|].
  apply no_lt_quiet. rewrite !no_lt_app, no_lt_write_data. reflexivity.
Qed.

Lemma writexml_eq (indent addindent newl t : string) a x c :
  writexml indent addindent newl (Element t a x c)
  = (indent ++ "<" ++ t ++ write_attrs a ++
     match x, c with
     | EmptyString, [] => "/>" ++ newl
     | _, [] => ">" ++ write_data false x ++ "</" ++ t ++ ">" ++ newl
     | _, _ =>
         ">" ++ newl
         ++ match x with
            | EmptyString => ""
            | _ => indent ++ addindent ++ write_data false x ++ newl
            end
         ++ String.concat ""
              (map (writexml (indent ++ addindent) addindent newl) c)
         ++ indent ++ "</" ++ t ++ ">" ++ newl
     end)%string.
Proof. reflexivity. Qed.

(** The text of a well-named tree holds no [<?]. *)
Lemma writexml_quiet (addindent newl : string) :
  no_lt addindent = true -> no_lt newl = true ->
  forall e indent,
    well_named e = true -> no_lt indent = true ->
    quiet (writexml indent addindent newl e).
Proof.
  intros Hadd Hnewl. induction e as [t a x c IH] using element_induction.
  intros indent Hwn Hind. cbn [well_named] in Hwn.
  apply andb_prop in Hwn as [Hwn Hc]. apply andb_prop in Hwn as [Ht Ha].
  assert (Hgt : forall s, quiet s -> quiet (">" ++ s)).
  { intros s Hs. apply (quiet_app ">"); [apply no_lt_quiet; reflexivity | exact Hs]. }
  assert (Hclose : quiet ("</" ++ t ++ ">" ++ newl)).
  { apply quiet_after_lt_slash; [exact Ht|]. apply Hgt, no_lt_quiet, Hnewl. }
  assert (Hkids : quiet (String.concat ""
                    (map (writexml (indent ++ addindent) addindent newl) c))).
  { apply quiet_concat, Forall_map.
    rewrite forallb_forall in Hc. rewrite Forall_forall in IH |- *.
    intros e He. apply (IH e He); [exact (Hc e He)|].
    rewrite no_lt_app, Hind, Hadd. reflexivity. }
  assert (Hbody : forall s,
             quiet (indent ++ addindent ++ write_data false s ++ newl)).
  { intros s. apply no_lt_quiet.
    rewrite !no_lt_app, Hind, Hadd, Hnewl, no_lt_write_data. reflexivity. }
  assert (Hopen : forall s, quiet s ->
             quiet (">" ++ newl ++ s
                    ++ String.concat ""
                         (map (writexml (indent ++ addindent) addindent newl) c)
                    ++ indent ++ "</" ++ t ++ ">" ++ newl)).
  { intros s Hs. apply Hgt. apply quiet_app; [apply no_lt_quiet, Hnewl|].
    apply quiet_app; [exact Hs|]. apply quiet_app; [exact Hkids|].
    apply quiet_app; [apply no_lt_quiet, Hind | exact Hclose]. }
  rewrite writexml_eq.
  apply quiet_app; [apply no_lt_quiet, Hind|].
  apply quiet_after_lt; [exact Ht|].
  apply quiet_app; [exact (quiet_write_attrs a Ha)|].
  destruct x as [|cx x], c as [|e c].
  - apply no_lt_quiet. rewrite no_lt_app, Hnewl. reflexivity.
  - apply Hopen, quiet_empty.
  - apply Hgt. apply quiet_app; [apply no_lt_quiet, no_lt_write_data|].
    exact Hclose.
  - apply Hopen, Hbody.
Qed.

(** *** Replacing the declaration *)

Lemma prefix_app (a b : string) : String.prefix a (a ++ b) = true.
Proof.
  induction a as [|c a IH]; cbn; [destruct b; reflexivity|].
  destruct (ascii_dec c c) as [_|Hne]; [exact IH | contradiction].
Qed.

Lemma replace_from_skip (old new o rest : string) :
  replace_from old new (String.length o) (o ++ rest)
  = replace_from old new O rest.
Proof.
  induction o as [|c o IH]; cbn [String.length append]; [reflexivity|].
  cbn [replace_from]. exact IH.
Qed.

(** An occurrence at the head of the string is replaced, and the search
    goes on behind it. *)
Lemma replace_from_head (c : ascii) (old new rest : string) :
  replace_from (String c old) new O (String c old ++ rest)
  = (new ++ replace_from (String c old) new O rest)%string.
Proof.
  change (String c old ++ rest)%string with (String c (old ++ rest)).
  cbn [replace_from].
  change (String c (old ++ rest)) with (String c old ++ rest)%string.
  rewrite prefix_app. cbn [String.length Nat.pred].
  rewrite replace_from_skip. reflexivity.
Qed.

(** A string without [<?] holds no occurrence of a string that begins
    with it, and is left as it is. *)
Lemma replace_from_absent (old new s : string) (p : bool) :
  has_pi p s = false ->
  replace_from (String "<" (String "?" old)) new O s = s.
Proof.
  revert p. induction s as [|c s IH]; intros p Hs; [reflexivity|].
  cbn [has_pi] in Hs. apply orb_false_elim in Hs as [_ Hs].
  cbn [replace_from String.prefix].
  destruct (ascii_dec "<" c) as [<-|Hne].
  - destruct s as [|c' s].
    + reflexivity.
    + cbn [String.prefix]. destruct (ascii_dec "?" c') as [<-|Hne'].
      * cbn in Hs. discriminate.
      * rewrite (IH _ Hs). reflexivity.
  - rewrite (IH _ Hs). reflexivity.
Qed.

(** The declaration at the head of a text without [<?] is replaced, and
    the text behind it is left as it is. *)
Lemma replace_declaration (body new : string) :
  quiet body ->
  str_replace (xml_declaration ++ body) xml_declaration new
  = (new ++ body)%string.
Proof.
  intros [Hq _]. unfold str_replace.
  change xml_declaration
    with (String "<" (String "?" ("xml version=" ++ dquote ++ "1.0" ++ dquote ++ " ?>"))).
  rewrite replace_from_head.
  rewrite (replace_from_absent _ _ body false Hq). reflexivity.
Qed.




Lemma trip_triple_well_named (trips_per_agent t : Z) (trip_time : datetime) :
  forallb well_named (trip_triple trips_per_agent t trip_time) = true.
Proof.
  unfold trip_triple, first_act_of, leg_of, final_act_of.
  destruct (t <? trips_per_agent - 1); reflexivity.
Qed.

Lemma forallb_concat {A : Type} (p : A -> bool) (ls : list (list A)) :
  Forall (fun l => forallb p l = true) ls ->
  forallb p (List.concat ls) = true.
Proof.
  induction 1 as [|l ls Hl _ IH]; [reflexivity|].
  cbn [List.concat]. rewrite forallb_app, Hl, IH. reflexivity.
Qed.

(** Every tag and attribute name of a generated population is a name. *)
Lemma population_well_named {G : Type} `{RandomSource G}
  (clk : clock) (num_agents trips_per_agent start_hour end_hour : Z)
  (g g' : G) (pop : element) :
  population_tree clk num_agents trips_per_agent start_hour end_hour g
  = Ok (pop, g') ->
  well_named pop = true.
Proof.
  intros Hrun.
  destruct (population_tree_ok _ _ _ _ _ _ _ _ Hrun)
    as (st & tpt & people & _ & Hpeople & ->).
  assert (Hall : forallb well_named people = true).
  { apply forallb_forall. intros p Hp.
    destruct (Forall2_in_right _ _ _ _ Hpeople Hp)
      as (a & _ & (actss & Hacts & ->)).
    assert (Hplan : forallb well_named (List.concat actss) = true).
    { apply forallb_concat. eapply Forall2_right; [exact Hacts|].
      intros t acts _ (tt & _ & ->). apply trip_triple_well_named. }
    cbn [well_named forallb fst]. rewrite Hplan. reflexivity. }
  cbn [well_named forallb]. rewrite Hall. reflexivity.
Qed.

(** The text that [create_population] returns is the declaration with the
    encoding, the document type, and the population as [toprettyxml] writes
    it with four spaces to a level: the replacement at line 106 meets the
    declaration and nothing else in the document. *)
Theorem create_population_document {G : Type} `{RandomSource G}
  (clk : clock) (num_agents trips_per_agent start_hour end_hour : Z)
  (g g' : G) (xml : string) :
  create_population clk num_agents trips_per_agent start_hour end_hour g
  = Ok (xml, g') ->
  exists pop,
    population_tree clk num_agents trips_per_agent start_hour end_hour g
    = Ok (pop, g')
    /\ xml = (document_header ++ newline
              ++ writexml "" "    " newline pop)%string.
Proof.
  unfold create_population. intros Hrun.
  apply bind_ok in Hrun as (pop & g1 & Hpop & Hret).
  unfold ret in Hret. injection Hret as Hxml Hg.
  subst g1. exists pop. split; [exact Hpop|]. rewrite <- Hxml.
  unfold format_xml, toprettyxml.
  rewrite replace_declaration; [reflexivity|].
  apply quiet_app; [apply no_lt_quiet; reflexivity|].
  apply writexml_quiet; try reflexivity.
  exact (population_well_named _ _ _ _ _ _ _ _ Hpop).
Qed.

Lemma create_population_document_witness :
  exists xml pop,
    create_population sample_clock 2 2 6 9 sample_draws = Ok (xml, [])
    /\ population_tree sample_clock 2 2 6 9 sample_draws = Ok (pop, [])
    /\ xml = (document_header ++ newline
              ++ writexml "" "    " newline pop)%string.
Proof.
  assert (Hrun : create_population sample_clock 2 2 6 9 sample_draws
                 = Ok (format_xml sample_population, [])).
  { unfold create_population, bind. rewrite sample_run. reflexivity. }
  destruct (create_population_document sample_clock 2 2 6 9 sample_draws []
              (format_xml sample_population) Hrun) as (pop & Hpop & Hxml).
  exists (format_xml sample_population), pop.
  split; [exact Hrun|]. split; [exact Hpop | exact Hxml].
Defined.

(* ===================================================================== *)
(** ** The order of the calls of the generator *)
(* ===================================================================== *)

(** A loop over a range whose rounds move the state by [next]: the round
    of [x] starts in the state that [x] applications of [next] give. *)
Lemma for_each_states {G B C : Type} (next : G -> G)
  (R : Z -> G -> C -> Prop) (step : B -> C -> B) (body : Z -> B -> M G B)
  (g : G) :
  (forall x acc g0 acc' g0',
      body x acc g0 = Ok (acc', g0') ->
      g0' = next g0 /\ exists y, R x g0 y /\ acc' = step acc y) ->
  forall n k acc acc' g',
    for_each (map Z.of_nat (seq k n)) body acc (Nat.iter k next g)
    = Ok (acc', g') ->
    g' = Nat.iter (k + n) next g
    /\ exists ys,
        Forall2 (fun x y => R x (Nat.iter (Z.to_nat x) next g) y)
          (map Z.of_nat (seq k n)) ys
        /\ acc' = fold_left step ys acc.
Proof.
  intros Hbody. induction n as [|n IH]; intros k acc acc' g' Hrun.
  - apply ret_ok in Hrun as [-> ->]. rewrite Nat.add_0_r.
    split; [reflexivity|]. exists []. split; [constructor | reflexivity].
  - cbn [seq map for_each] in Hrun.
    apply bind_ok in Hrun as (acc1 & g1 & Hx & Hrest).
    destruct (Hbody _ _ _ _ _ Hx) as (-> & y & Hy & ->).
    change (next (Nat.iter k next g)) with (Nat.iter (S k) next g) in Hrest.
    destruct (IH _ _ _ _ Hrest) as (-> & ys & Hys & ->).
    split; [f_equal; lia|].
    exists (y :: ys). cbn [seq map]. split; [|reflexivity].
    constructor; [|exact Hys]. rewrite Nat2Z.id. exact Hy.
Qed.

Lemma iter_iter {A : Type} (f : A -> A) (a b : nat) (x : A) :
  Nat.iter a (Nat.iter b f) x = Nat.iter (a * b) f x.
Proof.
  induction a as [|a IH]; [reflexivity|].
  change (Nat.iter (S a) (Nat.iter b f) x)
    with (Nat.iter b f (Nat.iter a (Nat.iter b f) x)).
  change (S a * b)%nat with (b + a * b)%nat.
  rewrite IH, Nat.iter_add. reflexivity.
Qed.

Section DrawOrder.

Context {G : Type} `{RandomSource G}.

Variables (start_time : datetime) (time_per_trip : Float.float).
Variables (trips_per_agent m : Z).

Hypothesis Hm : max_variation_of time_per_trip = Ok m.

Lemma trip_body_draw agent_num trip_num plan g plan' g' :
  trip_body start_time time_per_trip trips_per_agent agent_num trip_num plan g
  = Ok (plan', g') ->
  g' = next_state m g
  /\ exists acts,
      trip_drawn start_time time_per_trip trips_per_agent m agent_num
        trip_num g acts
      /\ plan' = fold_left append acts plan.
Proof.
  unfold trip_body. intros Hrun.
  apply bind_ok in Hrun as (nominal & g1 & Hnom & Hrun).
  apply lift_ok in Hnom as [Hnom ->].
  apply bind_ok in Hrun as (mv & g1 & Hmv & Hrun).
  apply lift_ok in Hmv as [Hmv ->].
  rewrite Hm in Hmv. injection Hmv as <-.
  apply bind_ok in Hrun as (v & g1 & Hv & Hrun).
  unfold randint in Hv.
  destruct (Z.leb_spec (- m) m) as [Hle|]; [|discriminate].
  injection Hv as Hv.
  apply bind_ok in Hrun as (trip_time & g2 & Htt & Hrun).
  apply lift_ok in Htt as [Htt ->].
  apply bind_ok in Hrun as (acts & g2 & Hacts & Hrun).
  apply lift_ok in Hacts as [Hacts ->].
  apply ret_ok in Hrun as [-> ->].
  rewrite trip_children_eq in Hacts. injection Hacts as <-.
  unfold next_state. rewrite Hv. split; [reflexivity|].
  eexists. split; [|reflexivity].
  exists nominal, trip_time. rewrite Hv. repeat split; assumption.
Qed.

Lemma agent_body_draw agent_num population g population' g' :
  agent_body start_time time_per_trip trips_per_agent agent_num population g
  = Ok (population', g') ->
  g' = state_after m (Z.to_nat trips_per_agent) g
  /\ exists person,
      person_drawn start_time time_per_trip trips_per_agent m agent_num
        g person
      /\ population' = append population person.
Proof.
  unfold agent_body. intros Hrun.
  apply bind_ok in Hrun as (plan & g1 & Hplan & Hrun).
  apply ret_ok in Hrun as [-> ->].
  unfold range in Hplan.
  change g with (Nat.iter 0 (next_state m) g) in Hplan at 1.
  eapply (for_each_states (next_state m)
            (trip_drawn start_time time_per_trip trips_per_agent m agent_num)
            (fun plan acts => fold_left append acts plan))
    in Hplan as (-> & actss & Hactss & ->).
  2:{ intros t acc g0 acc' g0' Hbody. apply trip_body_draw in Hbody.
      exact Hbody. }
  split; [reflexivity|].
  eexists. split; [|reflexivity].
  exists actss. split; [exact Hactss|].
  unfold plan_frame, new_element. cbn [set dict_set].
  rewrite fold_left_extend. reflexivity.
Qed.

Lemma person_drawn_shape agent_num g person :
  person_drawn start_time time_per_trip trips_per_agent m agent_num g person ->
  person_shape start_time time_per_trip trips_per_agent agent_num person.
Proof.
  intros (actss & Hactss & ->). exists actss. split; [|reflexivity].
  eapply Forall2_impl; [|exact Hactss].
  intros t acts (nominal & tt & Hnom & Hle & Hadd & ->).
  exists tt. split; [|reflexivity].
  exists nominal, m. eexists. repeat split; eassumption.
Qed.

End DrawOrder.

(** The trips of a run and the calls of the generator: the trip [t] of
    agent [a] has its three children in the plan of its agent, built from
    its nominal time moved by the integer that the call after
    [a * trips_per_agent + t] calls returns. *)
Lemma run_slots {G : Type} `{RandomSource G}
  (clk : clock) (num_agents trips_per_agent start_hour end_hour : Z)
  (g g' : G) (pop : element) :
  population_tree clk num_agents trips_per_agent start_hour end_hour g
  = Ok (pop, g') ->
  exists start_time time_per_trip,
    schedule clk num_agents trips_per_agent start_hour end_hour
      start_time time_per_trip
    /\ forall m,
        max_variation_of time_per_trip = Ok m ->
        g' = state_after m (Z.to_nat num_agents * Z.to_nat trips_per_agent) g
        /\ forall a t,
            0 <= a < num_agents -> 0 <= t < trips_per_agent ->
            exists nominal trip_time,
              nominal_time start_time time_per_trip trips_per_agent a t
              = Ok nominal
              /\ - m <= m
              /\ add_variation nominal
                   (drawn m (Z.to_nat (a * trips_per_agent + t)) g)
                 = Ok trip_time
              /\ trip_at pop a t
                 = Some (first_act_of t trip_time, leg_of t,
                         final_act_of trips_per_agent t trip_time).
Proof.
  unfold population_tree. intros Hrun.
  apply bind_ok in Hrun as ([start_time end_time] & g1 & Hb & Hrun).
  apply lift_ok in Hb as [Hb ->].
  apply bind_ok in Hrun as (tw & g1 & Htw & Hrun).
  apply lift_ok in Htw as [Htw ->].
  apply bind_ok in Hrun as (tpt & g1 & Htpt & Hrun).
  apply lift_ok in Htpt as [Htpt ->].
  exists start_time, tpt. split.
  { exists end_time, tw. repeat split; assumption. }
  intros m Hm. unfold range in Hrun.
  change g with (Nat.iter 0 (state_after m (Z.to_nat trips_per_agent)) g)
    in Hrun at 1.
  eapply (for_each_states (state_after m (Z.to_nat trips_per_agent))
            (person_drawn start_time tpt trips_per_agent m) append)
    in Hrun as (-> & people & Hpeople & ->).
  2:{ intros a acc g0 acc' g0' Hbody.
      apply (agent_body_draw _ _ _ m Hm) in Hbody. exact Hbody. }
  split.
  { unfold state_after. rewrite iter_iter. reflexivity. }
  intros a t Ha Ht.
  unfold new_element. rewrite fold_left_append. cbn [app].
  fold (range num_agents) in Hpeople.
  assert (Hshape : Forall2 (person_shape start_time tpt trips_per_agent)
                     (range num_agents) people).
  { eapply Forall2_impl; [|exact Hpeople].
    intros a0 p0 Hp0. eapply person_drawn_shape; [exact Hm | exact Hp0]. }
  destruct (Forall2_nth_error _ _ _ _ _ Hpeople (nth_error_range _ _ Ha))
    as (p & Hp & (actss & Hacts & ->)).
  destruct (Forall2_nth_error _ _ _ _ _ Hacts (nth_error_range _ _ Ht))
    as (acts & Hnth & (nominal & tt & Hnom & Hle & Hadd & ->)).
  assert (Hlen : Forall (fun l => List.length l = 3%nat) actss).
  { eapply Forall2_right; [exact Hacts|].
    intros t0 acts0 _ (n0 & tt0 & _ & _ & _ & ->). reflexivity. }
  exists nominal, tt.
  split; [exact Hnom|]. split; [exact Hle|]. split.
  { unfold drawn. rewrite <- Hadd. do 3 f_equal.
    unfold state_after. rewrite iter_iter, <- Nat.iter_add. f_equal. nia. }
  unfold trip_at, plan_at, person_at.
  rewrite (persons_of_shape _ _ _ _ _ Hshape), Hp.
  cbn [opt_bind plans children filter has_tag tag String.eqb Ascii.eqb
       Bool.eqb hd_error].
  unfold trip_in. cbn [children].
  destruct (nth_error_concat_triples actss (Z.to_nat t) _ _ _ Hlen Hnth)
    as (H0 & H1 & H2).
  replace (Z.to_nat (3 * t)) with (3 * Z.to_nat t)%nat by lia.
  rewrite H0, H1, H2. reflexivity.
Qed.

(** The generator is called once for every trip, with the interval from
    [-m] to [m], agent after agent and trip after trip: the trip [t] of
    agent [a] is moved by the integer that the call after
    [a * trips_per_agent + t] calls returns, and the run leaves the
    generator in its state after as many calls as there are trips. *)
Theorem draws_in_slot_order {G : Type} `{RandomSource G}
  (clk : clock) (num_agents trips_per_agent start_hour end_hour : Z)
  (g g' : G) (pop : element) :
  population_tree clk num_agents trips_per_agent start_hour end_hour g
  = Ok (pop, g') ->
  exists start_time time_per_trip,
    schedule clk num_agents trips_per_agent start_hour end_hour
      start_time time_per_trip
    /\ forall m,
        max_variation_of time_per_trip = Ok m ->
        g' = state_after m (Z.to_nat num_agents * Z.to_nat trips_per_agent) g
        /\ forall a t,
            0 <= a < num_agents -> 0 <= t < trips_per_agent ->
            exists nominal trip_time first_act leg final_act,
              nominal_time start_time time_per_trip trips_per_agent a t
              = Ok nominal
              /\ add_variation nominal
                   (drawn m (Z.to_nat (a * trips_per_agent + t)) g)
                 = Ok trip_time
              /\ trip_at pop a t = Some (first_act, leg, final_act)
              /\ get first_act "end_time" = Some (strftime_HMS trip_time).
Proof.
  intros Hrun.
  destruct (run_slots _ _ _ _ _ _ _ _ Hrun) as (st & tpt & Hsched & Hall).
  exists st, tpt. split; [exact Hsched|].
  intros m Hm. destruct (Hall m Hm) as [Hstate Htrips].
  split; [exact Hstate|].
  intros a t Ha Ht.
  destruct (Htrips a t Ha Ht) as (nominal & tt & Hnom & _ & Hadd & Htrip).
  exists nominal, tt. do 3 eexists.
  split; [exact Hnom|]. split; [exact Hadd|]. split; [exact Htrip|].
  unfold first_act_of. destruct (t mod 2 =? 1); reflexivity.
Qed.

Lemma draws_in_slot_order_witness :
  exists first_act leg final_act,
    drawn 270 (Z.to_nat (1 * 2 + 0)) sample_draws = 14
    /\ state_after 270 (Z.to_nat 2 * Z.to_nat 2) sample_draws = []
    /\ trip_at sample_population 1 0 = Some (first_act, leg, final_act)
    /\ get first_act "end_time" = Some "07:30:14".
Proof.
  destruct (draws_in_slot_order sample_clock 2 2 6 9 sample_draws []
              sample_population sample_run)
    as (st & tpt & (et & tw & Hb & Htw & Htpt) & Hall).
  vm_compute in Hb. injection Hb as <- <-.
  vm_compute in Htw. injection Htw as <-.
  vm_compute in Htpt. injection Htpt as <-.
  destruct (Hall 270 ltac:(vm_compute; reflexivity)) as [Hg Htrips].
  destruct (Htrips 1 0 ltac:(lia) ltac:(lia))
    as (nominal & tt & fa & lg & fi & Hnom & Hadd & Htrip & Hend).
  vm_compute in Hnom. injection Hnom as <-.
  vm_compute in Hadd. injection Hadd as <-.
  exists fa, lg, fi. split; [reflexivity|]. split; [reflexivity|].
  split; [exact Htrip | exact Hend].
Defined.

(* ===================================================================== *)
(** ** The command line *)
(* ===================================================================== *)

Lemma io_bind_done {G A B : Type} (c : IO G A) (k : A -> IO G B) w b w' :
  io_bind c k w = Done b w' ->
  exists a w1, c w = Done a w1 /\ k a w1 = Done b w'.
Proof.
  unfold io_bind. destruct (c w) as [a w1|]; [|discriminate].
  intros Hk. exists a, w1. split; [reflexivity | exact Hk].
Qed.


Lemma dict_get_set_other (d : list (string * string)) (k k' v : string) :
  k <> k' -> dict_get (dict_set d k v) k' = dict_get d k'.
Proof.
  intros Hne. induction d as [|[k0 v0] d IH]; cbn [dict_set dict_get].
  - destruct (String.eqb_spec k k'); [contradiction | reflexivity].
  - destruct (String.eqb_spec k0 k) as [->|Hk0]; cbn [dict_get].
    + destruct (String.eqb_spec k k'); [contradiction | reflexivity].
    + rewrite IH. reflexivity.
Qed.

Lemma lower_y (s : string) : lower s = "y" <-> s = "y" \/ s = "Y".
Proof.
  split.
  - destruct s as [|c [|c' s]]; cbn [lower]; try discriminate.
    intros Hc. injection Hc as Hc.
    destruct c as [[] [] [] [] [] [] [] []]; vm_compute in Hc;
      try discriminate; first [left; reflexivity | right; reflexivity].
  - intros [-> | ->]; reflexivity.
Qed.

Lemma fallback_name_fresh (timestamp : string) :
  ("population_" ++ timestamp ++ ".xml")%string <> "population.xml".
Proof. cbn. intros Heq. discriminate. Qed.

Section MainProperties.

Context {G : Type} `{RandomSource G}.

Variable parse_int : string -> option Z.
Variable clk : clock.
Variable timestamp : string.
Variable disk : string -> write_outcome.

Local Abbreviation run_main := (main parse_int clk timestamp disk).
Local Abbreviation run_try := (main_try parse_int clk timestamp disk).

Lemma int_input_done (w : world G) n w' :
  int_input parse_int w = Done n w' ->
  exists line rest,
    stdin w = line :: rest /\ parse_int line = Some n
    /\ w' = mk_world rest (files w) (generator w).
Proof.
  unfold int_input, io_bind, input.
  destruct (stdin w) as [|line rest] eqn:Hin; [discriminate|].
  destruct (parse_int line) as [n0|] eqn:Hp; [|discriminate].
  unfold io_ret. intros Heq. injection Heq as <- <-.
  exists line, rest. repeat split; [exact Hp].
Qed.

Lemma raise_if_done (bad : bool) (w : world G) u w' :
  raise_if bad w = Done u w' -> bad = false /\ w' = w.
Proof.
  unfold raise_if. destruct bad; [discriminate|].
  unfold io_ret. intros Heq. injection Heq as _ <-. split; reflexivity.
Qed.

(** What the lines 113-136 have done when they are through: four lines are
    read, they are valid, and the population is generated. *)
Lemma main_inputs_done (w : world G) (k : string -> IO G string)
  output_file w' :
  (num_agents <- int_input parse_int ;;
   _ <- raise_if (num_agents <=? 0) ;;
   trips_per_agent <- int_input parse_int ;;
   _ <- raise_if (trips_per_agent <=? 0) ;;
   start_hour <- int_input parse_int ;;
   _ <- raise_if (negb ((0 <=? start_hour) && (start_hour <=? 23))) ;;
   end_hour <- int_input parse_int ;;
   _ <- raise_if (negb ((0 <=? end_hour) && (end_hour <=? 23))) ;;
   population_content <- call_create_population clk num_agents
                           trips_per_agent start_hour end_hour ;;
   k population_content)%io w = Done output_file w' ->
  exists l1 l2 l3 l4 rest na tpa sh eh xml g',
    stdin w = l1 :: l2 :: l3 :: l4 :: rest
    /\ parse_int l1 = Some na /\ parse_int l2 = Some tpa
    /\ parse_int l3 = Some sh /\ parse_int l4 = Some eh
    /\ valid_input na tpa sh eh
    /\ create_population clk na tpa sh eh (generator w) = Ok (xml, g')
    /\ k xml (mk_world rest (files w) g') = Done output_file w'.
Proof.
  intros Hrun.
  apply io_bind_done in Hrun as (na & w1 & Hna & Hrun).
  apply int_input_done in Hna as (l1 & r1 & Hl1 & Hp1 & ->).
  apply io_bind_done in Hrun as (u1 & w1 & Hc1 & Hrun).
  apply raise_if_done in Hc1 as [Hc1 ->].
  apply io_bind_done in Hrun as (tpa & w2 & Htpa & Hrun).
  apply int_input_done in Htpa as (l2 & r2 & Hl2 & Hp2 & ->).
  apply io_bind_done in Hrun as (u2 & w2 & Hc2 & Hrun).
  apply raise_if_done in Hc2 as [Hc2 ->].
  apply io_bind_done in Hrun as (sh & w3 & Hsh & Hrun).
  apply int_input_done in Hsh as (l3 & r3 & Hl3 & Hp3 & ->).
  apply io_bind_done in Hrun as (u3 & w3 & Hc3 & Hrun).
  apply raise_if_done in Hc3 as [Hc3 ->].
  apply io_bind_done in Hrun as (eh & w4 & Heh & Hrun).
  apply int_input_done in Heh as (l4 & r4 & Hl4 & Hp4 & ->).
  apply io_bind_done in Hrun as (u4 & w4 & Hc4 & Hrun).
  apply raise_if_done in Hc4 as [Hc4 ->].
  apply io_bind_done in Hrun as (xml & w5 & Hxml & Hrun).
  cbn [stdin files generator] in *. subst r1 r2 r3.
  unfold call_create_population in Hxml. cbn [stdin files generator] in Hxml.
  destruct (create_population clk na tpa sh eh (generator w))
    as [[xml0 g']|e] eqn:Hcp; [|discriminate].
  injection Hxml as <- <-.
  exists l1, l2, l3, l4, r4, na, tpa, sh, eh, xml0, g'.
  repeat (split; [first [assumption | reflexivity]|]).
  split; [|split; [exact Hcp | exact Hrun]].
  apply negb_false_iff in Hc3, Hc4. unfold valid_input. lia.
Qed.

End MainProperties.

Section MainRuns.

Context {G : Type} `{RandomSource G}.

Variable parse_int : string -> option Z.
Variable clk : clock.
Variable timestamp : string.
Variable disk : string -> write_outcome.

(** What the lines 138-147 have done when they are through *)
Lemma main_output_done (population_content : string) (w : world G)
  output_file w' :
  (let output_file := "population.xml" in
   present <- path_exists output_file ;;
   output_file <-
     (if present
      then response <- input ;;
           let response := lower response in
           if negb (String.eqb response "y")
           then io_ret ("population_" ++ timestamp ++ ".xml")%string
           else io_ret output_file
      else io_ret output_file) ;;
   _ <- write_file disk output_file population_content ;;
   io_ret output_file)%io w = Done output_file w' ->
  disk output_file = Written
  /\ files w' = dict_set (files w) output_file population_content
  /\ generator w' = generator w
  /\ match dict_get (files w) "population.xml" with
     | None => output_file = "population.xml" /\ stdin w' = stdin w
     | Some _ =>
         exists response,
           stdin w = response :: stdin w'
           /\ output_file
              = if negb (String.eqb (lower response) "y")
                then ("population_" ++ timestamp ++ ".xml")%string
                else "population.xml"
     end.
Proof.
  cbv zeta. intros Hrun.
  apply io_bind_done in Hrun as (present & w1 & Hpresent & Hrun).
  unfold path_exists in Hpresent. injection Hpresent as Hpresent Hw1.
  subst present w1.
  apply io_bind_done in Hrun as (name & w2 & Hname & Hrun).
  apply io_bind_done in Hrun as (u & w3 & Hwrite & Hrun).
  unfold write_file in Hwrite.
  destruct (disk name) eqn:Hw; [|discriminate|discriminate].
  injection Hwrite as _ Hw3. unfold io_ret in Hrun.
  injection Hrun as Hfile Hw'. subst w3 w' output_file.
  cbn [stdin files generator].
  destruct (dict_get (files w) "population.xml") as [old|].
  - apply io_bind_done in Hname as (response & w4 & Hin & Hname).
    unfold input in Hin.
    destruct (stdin w) as [|line rest] eqn:Hstdin; [discriminate|].
    injection Hin as Hr Hw4. subst response w4.
    destruct (negb (String.eqb (lower line) "y")) eqn:Hans;
      unfold io_ret in Hname; injection Hname as Hn Hw2; subst name w2;
      cbn [stdin files generator];
      (split; [exact Hw|]); (split; [reflexivity|]); (split; [reflexivity|]);
      exists line; rewrite Hans; split; reflexivity.
  - unfold io_ret in Hname. injection Hname as Hn Hw2. subst name w2.
    repeat split; first [exact Hw | reflexivity].
Qed.

Lemma int_input_ok (w : world G) (line : string) (rest : list string) (n : Z) :
  stdin w = line :: rest -> parse_int line = Some n ->
  int_input parse_int w = Done n (mk_world rest (files w) (generator w)).
Proof.
  intros Hin Hp. unfold int_input, io_bind, input. rewrite Hin, Hp.
  reflexivity.
Qed.

Lemma int_input_rejected (w : world G) (line : string) (rest : list string) :
  stdin w = line :: rest -> parse_int line = None ->
  int_input parse_int w = Thrown (Builtin ValueError) rest (files w).
Proof.
  intros Hin Hp. unfold int_input, io_bind, input. rewrite Hin, Hp.
  reflexivity.
Qed.

(** *** Steps that leave the files alone *)











End MainRuns.

(* ===================================================================== *)
(** ** Properties of the command line *)
(* ===================================================================== *)

(** For every valid input with fewer than [2 ^ 1024 / 2] trips, on a clock
    read twice on one day, [create_population] raises no exception: it
    returns a document. *)
Theorem create_population_returns {G : Type} `{RandomSource G}
  (clk : clock) (num_agents trips_per_agent start_hour end_hour : Z) (g : G) :
  valid_input num_agents trips_per_agent start_hour end_hour ->
  same_day clk ->
  num_agents * trips_per_agent < 2 ^ 1023 ->
  exists xml g',
    create_population clk num_agents trips_per_agent start_hour end_hour g
    = Ok (xml, g').
Proof.
  intros Hvalid Hday Hbound.
  destruct (population_tree_total clk _ _ _ _ g Hvalid Hday Hbound)
    as (pop & g' & Hrun).
  exists (format_xml pop), g'. unfold create_population, bind.
  rewrite Hrun. reflexivity.
Qed.

Lemma create_population_returns_witness :
  exists xml g',
    create_population sample_clock 2 2 6 9 sample_draws = Ok (xml, g').
Proof.
  apply (create_population_returns sample_clock 2 2 6 9 sample_draws).
  - unfold valid_input. lia.
  - reflexivity.
  - reflexivity.
Defined.


(** A [population.xml] that is there is replaced only when the answer to
    the question is [y] or [Y]; after any other answer it is left as it
    was, and the document goes to the file named after the time. *)
Theorem main_keeps_existing_file {G : Type} `{RandomSource G}
  (parse_int : string -> option Z) (clk : clock) (timestamp : string)
  (disk : string -> write_outcome) (w w' : world G) (output_file old : string) :
  main parse_int clk timestamp disk w = Returned output_file w' ->
  dict_get (files w) "population.xml" = Some old ->
  exists l1 l2 l3 l4 response,
    stdin w = l1 :: l2 :: l3 :: l4 :: response :: stdin w'
    /\ ((response = "y" \/ response = "Y")
        /\ output_file = "population.xml"
        \/ response <> "y" /\ response <> "Y"
           /\ output_file = ("population_" ++ timestamp ++ ".xml")%string
           /\ dict_get (files w') "population.xml" = Some old).
Proof.
  unfold main. intros Hmain Hold.
  destruct (main_try parse_int clk timestamp disk w)
    as [f w1|e rest fs] eqn:Htry; [|discriminate].
  injection Hmain as -> ->. unfold main_try in Htry.
  apply main_inputs_done in Htry
    as (l1 & l2 & l3 & l4 & rest & na & tpa & sh & eh & xml & g'
        & Hin & _ & _ & _ & _ & _ & _ & Hout).
  apply main_output_done in Hout as (_ & Hfiles & _ & Hname).
  cbn [stdin files generator] in Hfiles, Hname.
  rewrite Hold in Hname. destruct Hname as (response & Hrest & Hname).
  exists l1, l2, l3, l4, response. split; [rewrite Hin, Hrest; reflexivity|].
  destruct (String.eqb_spec (lower response) "y") as [Hy|Hn];
    cbn [negb] in Hname.
  - left. split; [apply lower_y, Hy | exact Hname].
  - right. split; [intros ->; apply Hn; reflexivity|].
    split; [intros ->; apply Hn; reflexivity|].
    split; [exact Hname|].
    rewrite Hfiles, Hname, dict_get_set_other by apply fallback_name_fresh.
    exact Hold.
Qed.

Lemma int_input_accepts {G : Type} (parse_int : string -> option Z)
  (w : world G) (k : nat) (line : string) (tl : list string)
  (c : Z -> IO G string) :
  stdin w = line :: tl ->
  accepted parse_int k line = true ->
  exists n,
    (match k with
     | 0%nat | 1%nat => negb (n <=? 0)
     | _ => (0 <=? n) && (n <=? 23)
     end) = true
    /\ io_bind (int_input parse_int) c w
       = c n (mk_world tl (files w) (generator w)).
Proof.
  intros Hw Hacc. unfold accepted in Hacc.
  destruct (parse_int line) as [n|] eqn:Hp; [|discriminate].
  exists n. split; [exact Hacc|].
  unfold io_bind at 1. rewrite (int_input_ok parse_int w line tl n Hw Hp).
  reflexivity.
Qed.

Lemma int_input_stops {G : Type} (parse_int : string -> option Z)
  (w : world G) (k : nat) (bad : string) (rest : list string)
  (c : Z -> IO G string) :
  stdin w = bad :: rest ->
  accepted parse_int k bad = false ->
  (forall n,
      (match k with
       | 0%nat | 1%nat => negb (n <=? 0)
       | _ => (0 <=? n) && (n <=? 23)
       end) = false ->
      c n (mk_world rest (files w) (generator w))
      = Thrown (Builtin ValueError) rest (files w)) ->
  io_bind (int_input parse_int) c w
  = Thrown (Builtin ValueError) rest (files w).
Proof.
  intros Hw Hacc Hc. unfold accepted in Hacc. unfold io_bind at 1.
  destruct (parse_int bad) as [n|] eqn:Hp.
  - rewrite (int_input_ok parse_int w bad rest n Hw Hp). exact (Hc n Hacc).
  - rewrite (int_input_rejected parse_int w bad rest Hw Hp). reflexivity.
Qed.

Lemma raise_if_false {G A : Type} (c : unit -> IO G A) (w : world G) :
  io_bind (raise_if false) c w = c tt w.
Proof. reflexivity. Qed.

Lemma raise_if_true {G A : Type} (c : unit -> IO G A) (w : world G) :
  io_bind (raise_if true) c w
  = Thrown (Builtin ValueError) (stdin w) (files w).
Proof. reflexivity. Qed.

(** One accepted line of the input, and the check behind it *)
Ltac accept_line k Hacc :=
  match goal with
  | |- io_bind (int_input _) ?c ?w0 = _ =>
      let n := fresh "n" in
      let Hc := fresh "Hc" in
      let Heq := fresh "Heq" in
      destruct (int_input_accepts _ w0 k _ _ c
                  ltac:(first [eassumption | reflexivity]) Hacc)
        as (n & Hc & Heq);
      rewrite Heq; clear Heq; cbv beta;
      try apply negb_true_iff in Hc;
      rewrite Hc; cbn [negb]; rewrite raise_if_false
  end.

(** The rejected line *)
Ltac reject_line k Hbad :=
  match goal with
  | |- io_bind (int_input _) ?c ?w0 = _ =>
      let n := fresh "n" in
      let Hn := fresh "Hn" in
      apply (int_input_stops _ w0 k _ _ c
               ltac:(first [eassumption | reflexivity]) Hbad);
      intros n Hn; try apply negb_false_iff in Hn;
      rewrite Hn; cbn [negb]; rewrite raise_if_true; reflexivity
  end.

(** The first line that is not an integer, or is an integer that fails
    its check, ends the run: the lines behind it are not read, no file is
    written, and [main] leaves through the handler of [ValueError] with
    the exit status 1. *)
Theorem main_rejects_first_bad_line {G : Type} `{RandomSource G}
  (parse_int : string -> option Z) (clk : clock) (timestamp : string)
  (disk : string -> write_outcome) (w : world G)
  (good : list string) (bad : string) (rest : list string) :
  stdin w = (good ++ bad :: rest)%list ->
  (List.length good < 4)%nat ->
  (forall k line, nth_error good k = Some line ->
                  accepted parse_int k line = true) ->
  accepted parse_int (List.length good) bad = false ->
  main parse_int clk timestamp disk w
  = SystemExit 1 ValueErrorHandler rest (files w).
Proof.
  intros Hin Hlen Hgood Hbad.
  assert (Htry : main_try parse_int clk timestamp disk w
                 = Thrown (Builtin ValueError) rest (files w)).
  { unfold main_try.
    destruct good as [|g1 [|g2 [|g3 [|g4 good]]]];
      cbn [List.length app] in Hin, Hlen, Hbad; [| | | |lia].
    - reject_line 0%nat Hbad.
    - accept_line 0%nat (Hgood 0%nat g1 eq_refl).
      reject_line 1%nat Hbad.
    - accept_line 0%nat (Hgood 0%nat g1 eq_refl).
      accept_line 1%nat (Hgood 1%nat g2 eq_refl).
      reject_line 2%nat Hbad.
    - accept_line 0%nat (Hgood 0%nat g1 eq_refl).
      accept_line 1%nat (Hgood 1%nat g2 eq_refl).
      accept_line 2%nat (Hgood 2%nat g3 eq_refl).
      reject_line 3%nat Hbad. }
  unfold main. rewrite Htry. reflexivity.
Qed.


Lemma main_keeps_existing_file_witness :
  exists w',
    sample_main guarded_world = Returned "population_20260101_093000.xml" w'
    /\ dict_get (files w') "population.xml" = Some "old".
Proof.
  assert (Hrun : sample_main guarded_world
                 = Returned "population_20260101_093000.xml"
                     (mk_world []
                        [("population.xml", "old");
                         ("population_20260101_093000.xml",
                          format_xml sample_population)] []))
    by (vm_compute; reflexivity).
  destruct (main_keeps_existing_file decimal sample_clock "20260101_093000"
              (fun _ => Written) guarded_world _ _ "old" Hrun eq_refl)
    as (l1 & l2 & l3 & l4 & response & Hin & Hcases).
  injection Hin as <- <- <- <- <-.
  eexists. split; [exact Hrun|].
  destruct Hcases as [[[Hy | Hy] _] | (_ & _ & _ & Hold)];
    [discriminate Hy | discriminate Hy | exact Hold].
Defined.

Lemma main_rejects_first_bad_line_witness :
  sample_main (mk_world ["2"; "0"; "6"; "9"] [] sample_draws)
  = SystemExit 1 ValueErrorHandler ["6"; "9"] [].
Proof.
  apply (main_rejects_first_bad_line decimal sample_clock "20260101_093000"
           (fun _ => Written) (mk_world ["2"; "0"; "6"; "9"] [] sample_draws)
           ["2"] "0" ["6"; "9"]).
  - reflexivity.
  - cbn. lia.
  - intros [|k] line Hk; cbn in Hk.
    + injection Hk as <-. reflexivity.
    + destruct k; discriminate.
  - reflexivity.
Defined.

(** One line of the input that is an integer *)
Ltac feed_line Hp :=
  match goal with
  | |- io_bind (int_input ?p) ?c ?w0 = _ =>
      unfold io_bind at 1;
      rewrite (int_input_ok p w0 _ _ _
                 ltac:(first [eassumption | reflexivity]) Hp)
  end.

(** With four valid lines on the input, fewer than [2 ^ 1023] trips, a
    clock read twice on one day and no [population.xml] in the directory,
    [main] asks no further question and writes the document of
    [create_population] to [population.xml]. *)
Theorem main_generates {G : Type} `{RandomSource G}
  (parse_int : string -> option Z) (clk : clock) (timestamp : string)
  (disk : string -> write_outcome) (w : world G)
  (l1 l2 l3 l4 : string) (rest : list string) (na tpa sh eh : Z) :
  stdin w = l1 :: l2 :: l3 :: l4 :: rest ->
  parse_int l1 = Some na -> parse_int l2 = Some tpa ->
  parse_int l3 = Some sh -> parse_int l4 = Some eh ->
  valid_input na tpa sh eh ->
  same_day clk ->
  na * tpa < 2 ^ 1023 ->
  dict_get (files w) "population.xml" = None ->
  disk "population.xml" = Written ->
  exists xml g',
    create_population clk na tpa sh eh (generator w) = Ok (xml, g')
    /\ main parse_int clk timestamp disk w
       = Returned "population.xml"
           (mk_world rest (dict_set (files w) "population.xml" xml) g').
Proof.
  intros Hin Hp1 Hp2 Hp3 Hp4 Hvalid Hday Hbound Hnone Hw.
  destruct (population_tree_total clk _ _ _ _ (generator w) Hvalid Hday Hbound)
    as (pop & g' & Hpop).
  assert (Hcp : create_population clk na tpa sh eh (generator w)
                = Ok (format_xml pop, g')).
  { unfold create_population, bind. rewrite Hpop. reflexivity. }
  exists (format_xml pop), g'. split; [exact Hcp|].
  destruct Hvalid as (Hna & Htpa & Hsh & Heh).
  enough (Htry : main_try parse_int clk timestamp disk w
                 = Done "population.xml"
                     (mk_world rest
                        (dict_set (files w) "population.xml" (format_xml pop))
                        g'))
    by (unfold main; rewrite Htry; reflexivity).
  unfold main_try.
  feed_line Hp1. replace (na <=? 0) with false by lia.
  rewrite raise_if_false.
  feed_line Hp2. replace (tpa <=? 0) with false by lia.
  rewrite raise_if_false.
  feed_line Hp3. replace ((0 <=? sh) && (sh <=? 23)) with true by lia.
  cbn [negb]. rewrite raise_if_false.
  feed_line Hp4. replace ((0 <=? eh) && (eh <=? 23)) with true by lia.
  cbn [negb]. rewrite raise_if_false.
  unfold io_bind, call_create_population, path_exists, write_file, io_ret.
  cbn [stdin files generator]. rewrite Hcp. cbn [stdin files generator].
  rewrite Hnone, Hw. reflexivity.
Qed.

Lemma main_generates_witness :
  exists xml g',
    create_population sample_clock 2 2 6 9 sample_draws = Ok (xml, g')
    /\ sample_main sample_world
       = Returned "population.xml"
           (mk_world [] [("population.xml", xml)] g').
Proof.
  apply (main_generates decimal sample_clock "20260101_093000"
           (fun _ => Written) sample_world "2" "2" "6" "9" [] 2 2 6 9);
    try reflexivity.
  unfold valid_input. lia.
Defined.



(** With [2 ^ 1024] trips or more, the [OverflowError] of
    [create_population] is met by the handler of [Exception], not by that
    of [ValueError]: [main] leaves with the exit status 1 and no file. *)
Theorem main_reports_overflow {G : Type} `{RandomSource G}
  (parse_int : string -> option Z) (clk : clock) (timestamp : string)
  (disk : string -> write_outcome) (w : world G)
  (l1 l2 l3 l4 : string) (rest : list string) (na tpa sh eh : Z) :
  stdin w = l1 :: l2 :: l3 :: l4 :: rest ->
  parse_int l1 = Some na -> parse_int l2 = Some tpa ->
  parse_int l3 = Some sh -> parse_int l4 = Some eh ->
  valid_input na tpa sh eh ->
  same_day clk ->
  2 ^ 1024 <= na * tpa ->
  main parse_int clk timestamp disk w
  = SystemExit 1 ExceptionHandler rest (files w).
Proof.
  intros Hin Hp1 Hp2 Hp3 Hp4 (Hna & Htpa & Hsh & Heh) Hday Hbig.
  assert (Hcp : create_population clk na tpa sh eh (generator w)
                = Raise OverflowError).
  { unfold create_population, bind.
    rewrite population_tree_too_many_trips; try assumption; [reflexivity|].
    rewrite Z.abs_eq by nia. exact Hbig. }
  enough (Htry : main_try parse_int clk timestamp disk w
                 = Thrown (Builtin OverflowError) rest (files w))
    by (unfold main; rewrite Htry; reflexivity).
  unfold main_try.
  feed_line Hp1. replace (na <=? 0) with false by lia.
  rewrite raise_if_false.
  feed_line Hp2. replace (tpa <=? 0) with false by lia.
  rewrite raise_if_false.
  feed_line Hp3. replace ((0 <=? sh) && (sh <=? 23)) with true by lia.
  cbn [negb]. rewrite raise_if_false.
  feed_line Hp4. replace ((0 <=? eh) && (eh <=? 23)) with true by lia.
  cbn [negb]. rewrite raise_if_false.
  unfold io_bind, call_create_population.
  cbn [stdin files generator]. rewrite Hcp. reflexivity.
Qed.

Lemma main_reports_overflow_witness :
  sample_main (mk_world [str_of_int (2 ^ 1000); str_of_int (2 ^ 30); "6"; "9"]
                 [] sample_draws)
  = SystemExit 1 ExceptionHandler [] [].
Proof.
  apply (main_reports_overflow decimal sample_clock "20260101_093000"
           (fun _ => Written)
           (mk_world [str_of_int (2 ^ 1000); str_of_int (2 ^ 30); "6"; "9"]
              [] sample_draws)
           (str_of_int (2 ^ 1000)) (str_of_int (2 ^ 30)) "6" "9" []
           (2 ^ 1000) (2 ^ 30) 6 9).
  - reflexivity.
  - apply str_of_int_parse.
  - apply str_of_int_parse.
  - reflexivity.
  - reflexivity.
  - unfold valid_input. repeat split; vm_compute; congruence.
  - reflexivity.
  - vm_compute. discriminate.
Defined.

(* ===================================================================== *)
(** ** The first trip *)
(* ===================================================================== *)

(** The first trip of the first agent is planned for the start of the
    window to the microsecond, [start_hour:00:00]; the first call of the
    generator returns its variation, and it leaves that many seconds from
    the start of the window: before the window opens when the variation is
    negative, with the text of that instant as the [end_time] of its first
    activity. *)
Theorem first_trip_at_window_start {G : Type} `{RandomSource G}
  (clk : clock) (num_agents trips_per_agent start_hour end_hour : Z)
  (g g' : G) (pop : element) :
  valid_input num_agents trips_per_agent start_hour end_hour ->
  same_day clk ->
  num_agents * trips_per_agent < 2 ^ 1023 ->
  population_tree clk num_agents trips_per_agent start_hour end_hour g
  = Ok (pop, g') ->
  exists start_time time_per_trip nominal m trip_time first_act leg final_act,
    schedule clk num_agents trips_per_agent start_hour end_hour
      start_time time_per_trip
    /\ strftime_HMS start_time = (pad2 start_hour ++ ":00:00")%string
    /\ nominal_time start_time time_per_trip trips_per_agent 0 0 = Ok nominal
    /\ dt_instant_us nominal = dt_instant_us start_time
    /\ max_variation_of time_per_trip = Ok m
    /\ - m <= drawn m 0 g <= m
    /\ add_variation nominal (drawn m 0 g) = Ok trip_time
    /\ dt_instant_us trip_time
       = dt_instant_us start_time + drawn m 0 g * 1000000
    /\ (drawn m 0 g < 0 ->
        dt_instant_us trip_time < dt_instant_us start_time)
    /\ trip_at pop 0 0 = Some (first_act, leg, final_act)
    /\ get first_act "end_time" = Some (strftime_HMS trip_time)
    /\ strftime_HMS trip_time
       = wall_clock (dt_instant_us start_time + drawn m 0 g * 1000000).
Proof.
  intros (Hna & Htpa & Hs & He) Hday Hbound Hrun.
  destruct (run_slots _ _ _ _ _ _ _ _ Hrun) as (st & tpt & Hsched & Hall).
  assert (Htotal : 0 < num_agents * trips_per_agent < 2 ^ 1023) by nia.
  pose proof (schedule_magnitude clk _ _ _ _ _ _ Hs He Hday Htotal Hsched)
    as Hmag.
  pose proof (mul_nonneg_below _ _ _ _ Hmag tenth_nonneg_below
                ltac:(unfold Float.emax;
                      pose proof (Zdigits2_pos _ (proj1 Htotal)); lia))
    as Hamp.
  apply (nonneg_below_mono _ 17) in Hamp;
    [|pose proof (Zdigits2_pos _ (proj1 Htotal)); lia].
  destruct (to_int_nonneg_below 17 _ ltac:(lia) Hamp) as (m & Hm & Hm0 & _).
  change (SFmul Float.prec Float.emax) with Float.mul in Hm.
  destruct (Hall m Hm) as [_ Htrips].
  destruct (Htrips 0 0 ltac:(lia) ltac:(lia))
    as (nominal & tt & Hnom & Hle & Hadd & Htrip).
  replace (Z.to_nat (0 * trips_per_agent + 0)) with 0%nat in Hadd by lia.
  pose proof (add_variation_instant _ _ _ Hadd) as Hinst.
  pose proof (add_variation_text _ _ _ Hadd) as Htext.
  assert (Hstart : dt_instant_us nominal = dt_instant_us st).
  { destruct (nominal_time_ok _ _ _ _ _ _ Hnom) as (slot & d & Hslot & Hd & ->).
    replace (0 * trips_per_agent + 0) with 0 in Hslot by lia.
    vm_compute in Hslot. injection Hslot as <-.
    assert (Hzero : Float.mul (S754_zero false) tpt = S754_zero false).
    { destruct tpt as [[]| | |[] mt et]; try contradiction; reflexivity. }
    rewrite Hzero in Hd. vm_compute in Hd. injection Hd as <-.
    rewrite datetime_add_instant. unfold td_total_us. cbn. lia. }
  assert (Hv : - m <= drawn m 0 g <= m) by (apply draw_range; exact Hle).
  exists st, tpt, nominal, m, tt. do 3 eexists.
  split; [exact Hsched|]. split.
  { destruct Hsched as (et & tw & Hb & _ & _).
    rewrite (window_bounds_ok clk _ _ Hs He) in Hb. injection Hb as <- _.
    reflexivity. }
  split; [exact Hnom|]. split; [exact Hstart|]. split; [exact Hm|].
  split; [exact Hv|]. split; [exact Hadd|].
  split; [rewrite Hinst, Hstart; reflexivity|].
  split; [intros Hneg; rewrite Hinst, Hstart; lia|].
  split; [exact Htrip|].
  split; [unfold first_act_of; reflexivity|].
  rewrite Htext, Hinst, Hstart. reflexivity.
Qed.

Lemma first_trip_at_window_start_witness :
  exists trip_time first_act leg final_act,
    drawn 270 0 [-270; 100; 14; 0] = -270
    /\ dt_instant_us trip_time
       = dt_instant_us (mk_datetime 739924 6 0 0 0) + -270 * 1000000
    /\ dt_instant_us trip_time < dt_instant_us (mk_datetime 739924 6 0 0 0)
    /\ trip_at (tree_of (population_tree sample_clock 2 2 6 9
                           [-270; 100; 14; 0])) 0 0
       = Some (first_act, leg, final_act)
    /\ get first_act "end_time" = Some "05:55:30".
Proof.
  assert (Hrun : population_tree sample_clock 2 2 6 9 [-270; 100; 14; 0]
                 = Ok (tree_of (population_tree sample_clock 2 2 6 9
                                  [-270; 100; 14; 0]), []))
    by (vm_compute; reflexivity).
  destruct (first_trip_at_window_start sample_clock 2 2 6 9
              [-270; 100; 14; 0] [] _ ltac:(unfold valid_input; lia)
              eq_refl eq_refl Hrun)
    as (st & tpt & nominal & m & tt & fa & lg & fi
        & Hsched & _ & _ & _ & Hm & _ & _ & Hinst & Hneg & Htrip & Hend
        & Htext).
  destruct Hsched as (et & tw & Hb & Htw & Htpt).
  vm_compute in Hb. injection Hb as <- <-.
  vm_compute in Htw. injection Htw as <-.
  vm_compute in Htpt. injection Htpt as <-.
  vm_compute in Hm. injection Hm as <-.
  exists tt, fa, lg, fi.
  split; [reflexivity|]. split; [exact Hinst|].
  split; [apply Hneg; vm_compute; reflexivity|].
  split; [exact Htrip|].
  rewrite Hend, Htext. reflexivity.
Defined.
